(** * TechnicianToolkit: the core logic, the SQLite models and the filter proxy

    A shallow embedding of
      - [core/utils.py]                         ([safe_str], [safe_int]),
      - [core/logic.py]                         (authentication, session, [compute_duration]),
      - [core/models/inventory_model.py]        ([InventoryItem]),
      - [core/models/service_activity_model.py] ([ServiceActivity]),
      - [core/importers/inventory_importer.py]  ([import_inventory_from_excel]),
      - [ui/pages/service_activity_page.py]     ([_do_delete]),
      - [ui/components/filters/filter_proxy_models.py] ([ColumnFilterProxy]).

    Conventions of the model.
      - A Python [str] is a [string]; characters are the code points 0..255.
      - A Python [int] is a [Z].  [int] refuses a text of more than 4300
        digits, the default of [sys.int_max_str_digits], so that the integers
        read from a text stay below the size at which [str] would refuse
        them in turn: [str] of an [int] is total here.
      - An SQLite INTEGER is a [Z] as well.  [sqlite3] binds a Python [int]
        as a 64-bit integer and raises [OverflowError] for any other: the
        quantities that the statements bind are checked with [in_int64].
        A sum or difference that SQLite computes outside the 64-bit range
        becomes a REAL there; the model keeps the exact integer in its place,
        and the properties that state a quantity ask for the range.
      - An SQLite table is the list of its rows in rowid order; a nullable
        column is an [option], [None] being SQL NULL.  Rowids are handed out
        by SQLite and an object carries the rowid it was read with.
      - The SQLite connection always opens, and a statement fails only when
        a bound quantity is out of range.
      - Qt signals are recorded in an event log. *)

From Stdlib Require Import ZArith Lia Ascii String List DecimalString DecimalPos.
From stdpp Require Import base option list gmap strings.

Local Open Scope string_scope.
Local Open Scope list_scope.
Local Open Scope Z_scope.

(** ** Python values *)

Module Py.

(** A [datetime.datetime] (or, with the time at zero, a [datetime.date]). *)
Record datetime := mk_datetime {
  year : Z; month : Z; day : Z; hour : Z; minute : Z; second : Z
}.

(** The values that reach the modelled functions: the cells of a worksheet,
    the values of a form, the attributes of a row object. *)
Inductive value :=
| VNone
| VStr (s : string)
| VInt (z : Z)
| VDateTime (dt : datetime)
| VDate (dt : datetime).

(** [bool(v)]: the truth value of [v]. *)
Definition truthy (v : value) : bool :=
  match v with
  | VNone => false
  | VStr s => negb (String.eqb s "")
  | VInt z => negb (z =? 0)
  | VDateTime _ | VDate _ => true
  end.

(** [str.isspace] on one character of the range (also the class [\s] of
    [re]): TAB..CR, FS..US, the space, NEL and the no-break space. *)
Definition is_space (c : ascii) : bool :=
  let n := N_of_ascii c in
  ((9 <=? n) && (n <=? 13) || (28 <=? n) && (n <=? 32) || (n =? 133) || (n =? 160))%N.

Definition is_digit (c : ascii) : bool :=
  let n := N_of_ascii c in ((48 <=? n) && (n <=? 57))%N.

Definition digit_val (c : ascii) : Z := Z.of_N (N_of_ascii c) - 48.

Fixpoint lstrip (s : string) : string :=
  match s with
  | String c s' => if is_space c then lstrip s' else s
  | EmptyString => EmptyString
  end.

Fixpoint rstrip (s : string) : string :=
  match s with
  | String c s' =>
      match rstrip s' with
      | EmptyString => if is_space c then EmptyString else String c EmptyString
      | r => String c r
      end
  | EmptyString => EmptyString
  end.

(** [s.strip()] *)
Definition strip (s : string) : string := rstrip (lstrip s).

Definition lower_char (c : ascii) : ascii :=
  let n := N_of_ascii c in
  if ((65 <=? n) && (n <=? 90) || (192 <=? n) && (n <=? 222) && negb (n =? 215))%N
  then ascii_of_N (n + 32) else c.

(** [s.lower()]: the letters A..Z and the capital letters of Latin-1. *)
Fixpoint lower (s : string) : string :=
  match s with
  | String c s' => String (lower_char c) (lower s')
  | EmptyString => EmptyString
  end.

(** [str(z)] for an [int]. *)
Definition str_int (z : Z) : string := NilZero.string_of_int (Z.to_int z).

(** A number zero-padded on the left to [w] digits, as [%02d] / [%04d]. *)
Definition pad (w : nat) (z : Z) : string :=
  let s := str_int z in
  string_of_list_ascii (repeat "0"%char (w - String.length s)) +:+ s.

Definition str_date (dt : datetime) : string :=
  pad 4 (year dt) +:+ "-" +:+ pad 2 (month dt) +:+ "-" +:+ pad 2 (day dt).

Definition str_time (dt : datetime) : string :=
  pad 2 (hour dt) +:+ ":" +:+ pad 2 (minute dt) +:+ ":" +:+ pad 2 (second dt).

(** [str(v)] *)
Definition str (v : value) : string :=
  match v with
  | VNone => "None"
  | VStr s => s
  | VInt z => str_int z
  | VDateTime dt => str_date dt +:+ " " +:+ str_time dt
  | VDate dt => str_date dt
  end.

(** The digits of an [int] literal: decimal digits, single underscores
    allowed between two digits.  [acc] is the value read so far, [prev]
    tells whether the previous character was a digit. *)
Fixpoint int_digits (s : string) (acc : Z) (prev : bool) : option Z :=
  match s with
  | EmptyString => if prev then Some acc else None
  | String c s' =>
      if is_digit c then int_digits s' (10 * acc + digit_val c) true
      else if (c =? "_")%char then
        (if prev then
           match s' with
           | String d _ => if is_digit d then int_digits s' acc false else None
           | EmptyString => None
           end
         else None)
      else None
  end.

(** The white space that [int] skips around a literal: TAB..CR and the
    space, and NEL and the no-break space, which the conversion of a [str]
    to its ASCII digits turns into spaces.  FS..US, which [str.isspace]
    accepts, are no white space for [int]. *)
Definition is_int_space (c : ascii) : bool :=
  let n := N_of_ascii c in
  ((9 <=? n) && (n <=? 13) || (n =? 32) || (n =? 133) || (n =? 160))%N.

Fixpoint int_lstrip (s : string) : string :=
  match s with
  | String c s' => if is_int_space c then int_lstrip s' else s
  | EmptyString => EmptyString
  end.

Fixpoint int_rstrip (s : string) : string :=
  match s with
  | String c s' =>
      match int_rstrip s' with
      | EmptyString => if is_int_space c then EmptyString else String c EmptyString
      | r => String c r
      end
  | EmptyString => EmptyString
  end.

(** The number of decimal digits in [s]. *)
Fixpoint count_digits (s : string) : nat :=
  match s with
  | EmptyString => O
  | String c s' => if is_digit c then S (count_digits s') else count_digits s'
  end.

(** [sys.int_max_str_digits], at its default. *)
Definition max_str_digits : nat := 4300.

(** The literal after the sign: its digits, leading zeros included and
    underscores left out, are counted against the limit before the value
    is read. *)
Definition int_literal (r : string) : option Z :=
  if (max_str_digits <? count_digits r)%nat then None else int_digits r 0 false.

(** [int(s)] for a [str]: [None] stands for [ValueError]. *)
Definition int_of_str (s : string) : option Z :=
  match int_rstrip (int_lstrip s) with
  | String "-" r => Z.opp <$> int_literal r
  | String "+" r => int_literal r
  | r => int_literal r
  end.

(** [int(v)]: [None] stands for [ValueError] or [TypeError]. *)
Definition int (v : value) : option Z :=
  match v with
  | VInt z => Some z
  | VStr s => int_of_str s
  | VNone | VDateTime _ | VDate _ => None
  end.

End Py.

Import Py.

(** ** core/utils.py *)

(** [safe_str(value)] *)
Definition safe_str (value : Py.value) : string :=
  match value with
  | VNone => ""
  | v => strip (str v)
  end.

(** [safe_int(value, default=0)] *)
Definition safe_int (value : Py.value) : Z :=
  match int value with
  | Some z => z
  | None => 0
  end.

Example safe_int_examples :
  safe_int (VStr " 12 ") = 12 /\ safe_int (VStr "-5") = -5 /\
  safe_int (VStr "1_000") = 1000 /\ safe_int (VStr "abc") = 0 /\
  safe_int VNone = 0 /\ safe_int (VStr "1__0") = 0 /\ safe_int (VStr "") = 0 /\
  safe_int (VStr (String (ascii_of_N 160) "7")) = 7 /\
  safe_int (VStr (String (ascii_of_N 31) "7")) = 0 /\
  safe_str (VStr (String (ascii_of_N 31) "7")) = "7".
Proof. repeat split; reflexivity. Qed.

(** ** Exceptions *)

(** The exceptions of the modelled calls: the three classes that
    [verify_password_argon2] names, and any other [Exception]. *)
Inductive exn :=
| VerifyMismatchError
| VerificationError
| InvalidHash
| OtherException (name : string).

(** What a call does: it returns, or it raises. *)
Inductive outcome (A : Type) :=
| Return (a : A)
| Raise (e : exn).
Arguments Return {A} a.
Arguments Raise {A} e.

(** ** SQLite INTEGER *)

(** The integers that [sqlite3] binds to a parameter: those of 64 bits. *)
Definition in_int64 (z : Z) : bool :=
  (-9223372036854775808 <=? z) && (z <=? 9223372036854775807).

(** What [execute] raises for a Python [int] outside that range, and the
    text of the exception. *)
Definition OverflowError : exn := OtherException "OverflowError".

Definition overflow_text : string :=
  "Python int too large to convert to SQLite INTEGER".

(** A text of more than 4300 digits is refused, whatever its value. *)
Example safe_int_digit_limit :
  let zeros (n : nat) := string_of_list_ascii (repeat "0"%char n) in
  safe_int (VStr (zeros 4299%nat +:+ "3")) = 3 /\
  safe_int (VStr (zeros 4300%nat +:+ "3")) = 0 /\
  safe_int (VStr ("-" +:+ zeros 4300%nat +:+ "3")) = 0.
Proof. vm_compute. repeat split. Qed.

Example safe_str_examples :
  safe_str VNone = "" /\ safe_str (VStr "  X1 ") = "X1" /\
  safe_str (VInt (-3)) = "-3" /\
  safe_str (VDate (mk_datetime 2024 1 5 0 0 0)) = "2024-01-05".
Proof. repeat split; reflexivity. Qed.

(** ** The SQLite database *)

(** A row of [inventory_items]. *)
Module InventoryRow.
Record t := mk {
  id : Z;
  part_number : option string;
  quantity : option Z;
  part_location : option string;
  model : option string;
  part_description : option string;
  quarterly_inventory_verification_date : option string;
  category_id : option string;
  notes : option string;
  user : string
}.

(** The row with its [quantity] column replaced. *)
Definition set_quantity (q : option Z) (r : t) : t :=
  mk (id r) (part_number r) q (part_location r) (model r) (part_description r)
     (quarterly_inventory_verification_date r) (category_id r) (notes r) (user r).
End InventoryRow.

(** A row of [service_activity]. *)
Module ServiceRow.
Record t := mk {
  id : Z;
  area : option string;
  customer : option string;
  serial_number : option string;
  meter : option string;
  malfunction : option string;
  arrival_date : option string;
  arrival_time : option string;
  remedial_action : option string;
  quantity : option Z;
  part_replaced : option string;
  departure_date : option string;
  departure_time : option string;
  call_duration : option string;
  technician : option string;
  comments : option string;
  user : option string
}.
End ServiceRow.

(** A row of [users]. *)
Module UserRow.
Record t := mk {
  id : Z;
  username : string;
  email : option string;
  password_hash : string
}.

Definition set_password_hash (h : string) (r : t) : t :=
  mk (id r) (username r) (email r) h.
End UserRow.

(** The tables the modelled code touches, each with the last rowid that
    AUTOINCREMENT handed out. *)
Record database := mk_database {
  inventory_items : list InventoryRow.t;
  inventory_items_seq : Z;
  service_activity : list ServiceRow.t;
  service_activity_seq : Z;
  users : list UserRow.t;
  users_seq : Z
}.

Definition empty_database : database := mk_database [] 0 [] 0 [] 0.

(** The signals of [ModelSignals]. *)
Inductive signal :=
| service_activity_changed
| inventory_changed
| mileage_changed
| parts_changed
| equipment_changed
| expense_changed.

(** The process: the database file, the signals emitted so far (latest
    first) and the two module-level names of [core/logic.py]:
    [current_user], bound to [None] when the module is loaded, and
    [_current_user], which exists once [_set_current_user] has run. *)
Record world := mk_world {
  db : database;
  emitted : list signal;
  current_user : option string;
  _current_user : option string
}.

Definition initial_world (d : database) : world := mk_world d [] None None.

Definition set_db (d : database) (w : world) : world :=
  mk_world d (emitted w) (current_user w) (_current_user w).

Definition emit (s : signal) (w : world) : world :=
  mk_world (db w) (s :: emitted w) (current_user w) (_current_user w).

Definition set_inventory_items (l : list InventoryRow.t) (d : database) : database :=
  mk_database l (inventory_items_seq d) (service_activity d)
    (service_activity_seq d) (users d) (users_seq d).

Definition set_service_activity (l : list ServiceRow.t) (d : database) : database :=
  mk_database (inventory_items d) (inventory_items_seq d) l
    (service_activity_seq d) (users d) (users_seq d).

Definition set_users (l : list UserRow.t) (d : database) : database :=
  mk_database (inventory_items d) (inventory_items_seq d) (service_activity d)
    (service_activity_seq d) l (users_seq d).

(** [WHERE part_number=? AND user=?] on [inventory_items]. *)
Definition inv_match (part user : string) (r : InventoryRow.t) : bool :=
  bool_decide (InventoryRow.part_number r = Some part) &&
  bool_decide (InventoryRow.user r = user).

(** [UPDATE inventory_items SET quantity = <f quantity> WHERE part_number=? AND user=?] *)
Definition update_quantity_where (f : option Z -> option Z) (part user : string)
    (d : database) : database :=
  set_inventory_items
    (map (fun r => if inv_match part user r
                   then InventoryRow.set_quantity (f (InventoryRow.quantity r)) r
                   else r)
         (inventory_items d)) d.

(** [quantity + ?]: NULL stays NULL.  (Outside the 64-bit range SQLite
    keeps the sum as a REAL; the exact integer stands for it.) *)
Definition sql_plus (n : Z) (q : option Z) : option Z := (fun x => x + n) <$> q.

(** [MAX(quantity - ?, 0)]: the scalar MAX is NULL when an argument is. *)
Definition sql_minus_clamped (n : Z) (q : option Z) : option Z :=
  (fun x => Z.max (x - n) 0) <$> q.

(** ** core/models/inventory_model.py *)

Module InventoryItem.

(** The keyword arguments of [InventoryItem.create]; an absent keyword reads
    as [None] through [kw.get], except [user], whose default differs. *)
Record kwargs := mk_kwargs {
  part_number : Py.value;
  quantity : Py.value;
  part_location : Py.value;
  model : Py.value;
  part_description : Py.value;
  quarterly_inventory_verification_date : Py.value;
  category_id : Py.value;
  notes : Py.value;
  user : option Py.value
}.

(** [InventoryItem.create] with keyword arguments [kw]: what the call does
    and the world it leaves.  The INSERT binds the quantity: out of range,
    [execute] raises before anything is written, and the connection is
    dropped without a commit. *)
Definition create_outcome (kw : kwargs) (w : world) : outcome unit * world :=
  let d := db w in
  let new_id := inventory_items_seq d + 1 in
  let row := InventoryRow.mk new_id
    (Some (safe_str (part_number kw)))
    (Some (safe_int (quantity kw)))
    (Some (safe_str (part_location kw)))
    (Some (safe_str (model kw)))
    (Some (safe_str (part_description kw)))
    (Some (safe_str (quarterly_inventory_verification_date kw)))
    (Some (safe_str (category_id kw)))
    (Some (safe_str (notes kw)))
    (safe_str (default (VStr "default_user") (user kw))) in
  let d' := mk_database (inventory_items d ++ [row]) new_id (service_activity d)
              (service_activity_seq d) (users d) (users_seq d) in
  if in_int64 (safe_int (quantity kw))
  then (Return tt, emit inventory_changed (set_db d' w))
  else (Raise OverflowError, w).

(** The world that [InventoryItem.create] leaves, whether the call returned
    or raised. *)
Definition create (kw : kwargs) (w : world) : world := snd (create_outcome kw w).

(** [InventoryItem.delete_by_part_number(part_number, user)] *)
Definition delete_by_part_number (part user : string) (w : world) : world :=
  let d := db w in
  emit inventory_changed
    (set_db (set_inventory_items
               (List.filter (fun r => negb (inv_match part user r)) (inventory_items d)) d) w).

(** [InventoryItem.add_quantity(part_number, quantity, user="default_user")];
    [user = None] is the call that leaves the default in place.  The UPDATE
    binds the quantity: out of range, [execute] raises and nothing is
    written. *)
Definition add_quantity_outcome (part : string) (quantity : Z) (user : option string)
    (w : world) : outcome unit * world :=
  let user := default "default_user" user in
  if String.eqb part "" || (quantity <=? 0) then (Return tt, w)
  else if in_int64 quantity then
    (Return tt,
     emit inventory_changed
       (set_db (update_quantity_where (sql_plus quantity) part user (db w)) w))
  else (Raise OverflowError, w).

(** The world that [InventoryItem.add_quantity] leaves, whether the call
    returned or raised. *)
Definition add_quantity (part : string) (quantity : Z) (user : option string)
    (w : world) : world :=
  snd (add_quantity_outcome part quantity user w).

End InventoryItem.

(** ** core/models/service_activity_model.py *)

Module ServiceActivity.

(** The sixteen fields of a service call as Python values: the keyword
    arguments of [create] (an absent keyword reads as [None] through
    [data.get]) and the attributes of a [ServiceActivity] object. *)
Record fields := mk_fields {
  area : Py.value;
  customer : Py.value;
  serial_number : Py.value;
  meter : Py.value;
  malfunction : Py.value;
  arrival_date : Py.value;
  arrival_time : Py.value;
  remedial_action : Py.value;
  quantity : Py.value;
  part_replaced : Py.value;
  departure_date : Py.value;
  departure_time : Py.value;
  call_duration : Py.value;
  technician : Py.value;
  comments : Py.value;
  user : Py.value
}.

(** A [ServiceActivity] object: [self.id] ([None] or a rowid) and the other
    attributes, which [__init__] always sets. *)
Record t := mk { id : option Z; attrs : fields }.

Definition of_text (c : option string) : Py.value :=
  match c with Some s => VStr s | None => VNone end.

Definition of_integer (c : option Z) : Py.value :=
  match c with Some z => VInt z | None => VNone end.

(** [a or b] *)
Definition py_or (a b : Py.value) : Py.value := if truthy a then a else b.

(** [ServiceActivity.__init__]: every field normalised. *)
Definition init (i : option Z) (f : fields) : t :=
  mk i (mk_fields
    (VStr (safe_str (area f))) (VStr (safe_str (customer f)))
    (VStr (safe_str (serial_number f))) (VStr (safe_str (meter f)))
    (VStr (safe_str (malfunction f))) (VStr (safe_str (arrival_date f)))
    (VStr (safe_str (arrival_time f))) (VStr (safe_str (remedial_action f)))
    (VInt (safe_int (quantity f))) (VStr (safe_str (part_replaced f)))
    (VStr (safe_str (departure_date f))) (VStr (safe_str (departure_time f)))
    (VStr (safe_str (call_duration f))) (VStr (safe_str (technician f)))
    (VStr (safe_str (comments f)))
    (VStr (safe_str (py_or (user f) (VStr "default_user"))))).

(** [ServiceActivity._from_row(row)] for a row that was found. *)
Definition _from_row (r : ServiceRow.t) : t :=
  init (Some (ServiceRow.id r)) (mk_fields
    (of_text (ServiceRow.area r)) (of_text (ServiceRow.customer r))
    (of_text (ServiceRow.serial_number r)) (of_text (ServiceRow.meter r))
    (of_text (ServiceRow.malfunction r)) (of_text (ServiceRow.arrival_date r))
    (of_text (ServiceRow.arrival_time r)) (of_text (ServiceRow.remedial_action r))
    (of_integer (ServiceRow.quantity r)) (of_text (ServiceRow.part_replaced r))
    (of_text (ServiceRow.departure_date r)) (of_text (ServiceRow.departure_time r))
    (of_text (ServiceRow.call_duration r)) (of_text (ServiceRow.technician r))
    (of_text (ServiceRow.comments r)) (of_text (ServiceRow.user r))).

(** [WHERE id=?] on [service_activity]; the parameter [None] matches no row. *)
Definition id_match (i : option Z) (r : ServiceRow.t) : bool :=
  match i with Some z => ServiceRow.id r =? z | None => false end.

(** [ServiceActivity.get_by_id(id)] *)
Definition get_by_id (i : option Z) (w : world) : option t :=
  _from_row <$> find (id_match i) (service_activity (db w)).

(** The row that [create] and [update] write: every column normalised, as
    the two statements bind them. *)
Definition row_of (i : Z) (f : fields) (qty : Z) (part user : string) : ServiceRow.t :=
  ServiceRow.mk i
    (Some (safe_str (area f))) (Some (safe_str (customer f)))
    (Some (safe_str (serial_number f))) (Some (safe_str (meter f)))
    (Some (safe_str (malfunction f))) (Some (safe_str (arrival_date f)))
    (Some (safe_str (arrival_time f))) (Some (safe_str (remedial_action f)))
    (Some qty) (Some part)
    (Some (safe_str (departure_date f))) (Some (safe_str (departure_time f)))
    (Some (safe_str (call_duration f))) (Some (safe_str (technician f)))
    (Some (safe_str (comments f))) (Some user).

(** The HANDLE INVENTORY block of [create].  The quantity that the UPDATE
    binds lies between 0 and the quantity read from the row. *)
Definition create_inventory (part user : string) (quantity : Z) (d : database) : database :=
  if negb (String.eqb part "") then
    let use_qty := if negb (quantity =? 0) && (0 <? quantity) then quantity else 1 in
    match find (inv_match part user) (inventory_items d) with
    | Some row =>
        let current_qty :=
          match InventoryRow.quantity row with
          | Some q => if q =? 0 then 0 else q
          | None => 0
          end in
        let new_qty := Z.max 0 (current_qty - use_qty) in
        update_quantity_where (fun _ => Some new_qty) part user d
    | None => d
    end
  else d.

(** [ServiceActivity.create] with keyword arguments [data]: what the call
    does and the world it leaves.  The INSERT binds the quantity: out of
    range, [execute] raises before the [try] of the inventory block, nothing
    is committed and no signal is emitted. *)
Definition create_outcome (data : fields) (w : world) : outcome unit * world :=
  let d := db w in
  let quantity := safe_int (quantity data) in
  let part_replaced := safe_str (part_replaced data) in
  let user := safe_str (py_or (user data) (VStr "default_user")) in
  let new_id := service_activity_seq d + 1 in
  let d1 := mk_database (inventory_items d) (inventory_items_seq d)
              (service_activity d ++ [row_of new_id data quantity part_replaced user])
              new_id (users d) (users_seq d) in
  let d2 := create_inventory part_replaced user quantity d1 in
  if in_int64 quantity
  then (Return tt, emit service_activity_changed (set_db d2 w))
  else (Raise OverflowError, w).

(** The world that [ServiceActivity.create] leaves, whether the call
    returned or raised. *)
Definition create (data : fields) (w : world) : world := snd (create_outcome data w).

(** Step 2 of [update]: the inventory adjustments, inside their [try].  A
    statement whose bound quantity is out of range raises; the handler
    prints the exception, so the statements before it stay and those after
    it are not run. *)
Definition update_inventory (old_part new_part user : string) (old_qty new_qty : Z)
    (d : database) : database :=
  if negb (String.eqb old_part "") && negb (String.eqb old_part new_part) then
    (* PART CHANGED *)
    if in_int64 old_qty then
      let d1 := update_quantity_where (sql_plus old_qty) old_part user d in
      if negb (String.eqb new_part "") then
        if in_int64 new_qty
        then update_quantity_where (sql_minus_clamped new_qty) new_part user d1
        else d1
      else d1
    else d
  else if String.eqb old_part new_part && negb (String.eqb new_part "") then
    (* SAME PART, quantity changed *)
    let diff := new_qty - old_qty in
    if 0 <? diff then
      if in_int64 diff
      then update_quantity_where (sql_minus_clamped diff) new_part user d
      else d
    else if diff <? 0 then
      if in_int64 (- diff)
      then update_quantity_where (sql_plus (- diff)) new_part user d
      else d
    else d
  else if negb (String.eqb old_part "") && String.eqb new_part "" then
    (* PART REMOVED *)
    if in_int64 old_qty
    then update_quantity_where (sql_plus old_qty) old_part user d
    else d
  else if String.eqb old_part "" && negb (String.eqb new_part "") then
    (* PART ADDED *)
    if in_int64 new_qty
    then update_quantity_where (sql_minus_clamped new_qty) new_part user d
    else d
  else d.

(** [self.update()]: what the call does and the world it leaves.  The
    UPDATE of the row binds the new quantity: out of range, [execute]
    raises before the [try] of step 2 and nothing is committed. *)
Definition update_outcome (self : t) (w : world) : outcome unit * world :=
  let d := db w in
  match find (id_match (id self)) (service_activity d) with
  | None => (Return tt, w)
  | Some old_row =>
      let old_part := safe_str (of_text (ServiceRow.part_replaced old_row)) in
      let old_qty := safe_int (of_integer (ServiceRow.quantity old_row)) in
      let old_user :=
        safe_str (py_or (of_text (ServiceRow.user old_row)) (VStr "default_user")) in
      let new_part := safe_str (part_replaced (attrs self)) in
      let new_qty := safe_int (quantity (attrs self)) in
      let user := safe_str (user (attrs self)) in
      let d1 := set_service_activity
                  (map (fun r => if id_match (id self) r
                                 then row_of (ServiceRow.id r) (attrs self) new_qty new_part user
                                 else r)
                       (service_activity d)) d in
      let d2 := update_inventory old_part new_part user old_qty new_qty d1 in
      if in_int64 new_qty
      then (Return tt, emit service_activity_changed (set_db d2 w))
      else (Raise OverflowError, w)
  end.

(** The world that [self.update()] leaves, whether the call returned or
    raised. *)
Definition update (self : t) (w : world) : world := snd (update_outcome self w).

(** [self.delete()] *)
Definition delete (self : t) (w : world) : world :=
  let d := db w in
  emit service_activity_changed
    (set_db (set_service_activity
               (List.filter (fun r => negb (id_match (id self) r)) (service_activity d)) d) w).

End ServiceActivity.

(** ** ui/pages/service_activity_page.py *)

Module ServiceActivityPage.

(** [self._do_delete(item)]; [confirm] tells whether the user answered Yes
    in the confirmation box.  An exception inside the [try] (an attribute
    that is no [str], a quantity that [int] refuses, a quantity that
    [add_quantity] cannot bind) ends in the error box and leaves the
    database as it is at that point.  The page reloads are reads only. *)
Definition _do_delete (confirm : bool) (item : ServiceActivity.t) (w : world) : world :=
  if negb confirm then w
  else
    match ServiceActivity.part_replaced (ServiceActivity.attrs item) with
    | VStr s =>
        let part := strip s in
        match int (ServiceActivity.quantity (ServiceActivity.attrs item)) with
        | Some qty =>
            if negb (String.eqb part "") && (0 <? qty) then
              match InventoryItem.add_quantity_outcome part qty None w with
              | (Return _, w1) => ServiceActivity.delete item w1
              | (Raise _, w1) => w1
              end
            else ServiceActivity.delete item w
        | None => w
        end
    | _ => w
    end.

End ServiceActivityPage.

(** ** core/logic.py: authentication and the session *)

(** The [argon2.PasswordHasher] object [ph].  The library is not part of the
    repository: its three methods are the interface the code is written
    against. *)
Class PasswordHasher := {
  ph_hash : string -> outcome string;
  ph_verify : string -> string -> outcome bool;
  ph_check_needs_rehash : string -> outcome bool
}.

Section Logic.
Context {ph : PasswordHasher}.

(** [hash_password(password)] *)
Definition hash_password (password : string) : outcome string := ph_hash password.

(** [verify_password_argon2(stored_hash, password)] *)
Definition verify_password_argon2 (stored_hash password : string) : outcome bool :=
  match ph_verify stored_hash password with
  | Return b => Return b
  | Raise VerifyMismatchError => Return false
  | Raise VerificationError => Return false
  | Raise InvalidHash => Return false
  | Raise e => Raise e
  end.

(** [SELECT ... FROM users WHERE username = ?] and [fetchone]. *)
Definition find_user (username : string) (d : database) : option UserRow.t :=
  find (fun r => String.eqb (UserRow.username r) username) (users d).

(** [register_user(username, email, password)] *)
Definition register_user (username email password : string) (w : world)
    : outcome bool * world :=
  let d := db w in
  match find_user username d with
  | Some _ => (Return false, w)
  | None =>
      match hash_password password with
      | Raise e => (Raise e, w)
      | Return password_hash =>
          let new_id := users_seq d + 1 in
          let row := UserRow.mk new_id username (Some email) password_hash in
          (Return true,
           set_db (mk_database (inventory_items d) (inventory_items_seq d)
                     (service_activity d) (service_activity_seq d)
                     (users d ++ [row]) new_id) w)
      end
  end.

(** [_set_current_user(username)]: the statement [global _current_user]
    makes the assignment bind the module-level name [_current_user]. *)
Definition _set_current_user (username : string) (w : world) : world :=
  mk_world (db w) (emitted w) (current_user w) (Some username).

(** [get_current_user()]: reads the module-level name [current_user]. *)
Definition get_current_user (w : world) : string :=
  match current_user w with
  | Some u => if String.eqb u "" then "default_user" else u
  | None => "default_user"
  end.

(** [UPDATE users SET password_hash = ? WHERE id = ?] *)
Definition update_password_hash (new_hash : string) (user_id : Z) (d : database)
    : database :=
  set_users (map (fun r => if UserRow.id r =? user_id
                           then UserRow.set_password_hash new_hash r else r)
                 (users d)) d.

(** Step 2 of [login_user], the rehash inside its own [try]: an exception
    of [check_needs_rehash] or of [hash] is swallowed. *)
Definition upgrade_hash (stored_hash password : string) (user_id : Z) (d : database)
    : database :=
  match ph_check_needs_rehash stored_hash with
  | Return true =>
      match ph_hash password with
      | Return new_hash => update_password_hash new_hash user_id d
      | Raise _ => d
      end
  | Return false | Raise _ => d
  end.

(** [login_user(username, password)] *)
Definition login_user (username password : string) (w : world) : outcome bool * world :=
  match find_user username (db w) with
  | None => (Return false, w)
  | Some row =>
      let user_id := UserRow.id row in
      let stored_hash := UserRow.password_hash row in
      if String.eqb stored_hash "" then (Return false, w)
      else
        match verify_password_argon2 stored_hash password with
        | Return true =>
            let w1 := set_db (upgrade_hash stored_hash password user_id (db w)) w in
            (Return true, _set_current_user username w1)
        | Return false => (Return false, w)
        | Raise _ => (Return false, w)
        end
  end.

End Logic.

(** ** [datetime.strptime] on the formats of [compute_duration]

    CPython turns a format into a regular expression (module [_strptime]):
    each directive becomes a group of ordered alternatives, a run of white
    space in the format becomes [\s+], the expression is matched at the
    start of the data ignoring case, and the first match in backtracking
    order must end where the data ends.  The fields found are then checked
    by the [datetime] constructor. *)

Module Strptime.

Inductive directive :=
| DY | Dm | Dd | DH | DI | DM | DS | Dp
| Lit (c : ascii)
| WS.

(** The fields read so far; [_strptime] starts from 1900-01-01 00:00:00. *)
Record found := mk_found {
  fY : Z; fm : Z; fd : Z; fH : Z; fI : option Z; fM : Z; fS : Z;
  fp : option bool   (* [Some true] is pm *)
}.

Definition start : found := mk_found 1900 1 1 0 None 0 0 None.

(** A backtracking matcher: every way to match a prefix, best first. *)
Definition matcher (A : Type) := list ascii -> list (A * list ascii).

Definition ret {A} (a : A) : matcher A := fun s => [(a, s)].

Definition bind {A B} (p : matcher A) (f : A -> matcher B) : matcher B :=
  fun s => flat_map (fun ar => f (fst ar) (snd ar)) (p s).

Definition alt {A} (p q : matcher A) : matcher A := fun s => p s ++ q s.

(** One digit in the class [[lo-hi]]. *)
Definition one (lo hi : Z) : matcher Z := fun s =>
  match s with
  | c :: r => if is_digit c && (lo <=? digit_val c) && (digit_val c <=? hi)
              then [(digit_val c, r)] else []
  | [] => []
  end.

(** Two digits in the classes [[a-b][c-d]]. *)
Definition two (a b c d : Z) : matcher Z :=
  bind (one a b) (fun x => bind (one c d) (fun y => ret (10 * x + y))).

Definition lit (c : ascii) : matcher unit := fun s =>
  match s with
  | x :: r => if (x =? c)%char then [(tt, r)] else []
  | [] => []
  end.

(** A letter, ignoring case. *)
Definition letter (c : ascii) : matcher unit := fun s =>
  match s with
  | x :: r => if (lower_char x =? c)%char then [(tt, r)] else []
  | [] => []
  end.

(** [\s+], greedy: the longest run first, then the shorter ones. *)
Fixpoint spaces (s : list ascii) : list (unit * list ascii) :=
  match s with
  | c :: r => if is_space c then spaces r ++ [(tt, r)] else []
  | [] => []
  end.

Definition re_Y : matcher Z :=
  bind (one 0 9) (fun a => bind (one 0 9) (fun b => bind (one 0 9) (fun c =>
  bind (one 0 9) (fun d => ret (1000 * a + 100 * b + 10 * c + d))))).
(** [1[0-2]|0[1-9]|[1-9]] *)
Definition re_m : matcher Z := alt (two 1 1 0 2) (alt (two 0 0 1 9) (one 1 9)).
(** [3[0-1]|[1-2]\d|0[1-9]|[1-9]| [1-9]] *)
Definition re_d : matcher Z :=
  alt (two 3 3 0 1) (alt (two 1 2 0 9) (alt (two 0 0 1 9) (alt (one 1 9)
      (bind (lit " ") (fun _ => one 1 9))))).
(** [2[0-3]|[0-1]\d|\d] *)
Definition re_H : matcher Z := alt (two 2 2 0 3) (alt (two 0 1 0 9) (one 0 9)).
(** [1[0-2]|0[1-9]|[1-9]] *)
Definition re_I : matcher Z := alt (two 1 1 0 2) (alt (two 0 0 1 9) (one 1 9)).
(** [[0-5]\d|\d] *)
Definition re_M : matcher Z := alt (two 0 5 0 9) (one 0 9).
(** [6[0-1]|[0-5]\d|\d] *)
Definition re_S : matcher Z := alt (two 6 6 0 1) (alt (two 0 5 0 9) (one 0 9)).
(** [am|pm] *)
Definition re_p : matcher bool :=
  alt (bind (letter "a") (fun _ => bind (letter "m") (fun _ => ret false)))
      (bind (letter "p") (fun _ => bind (letter "m") (fun _ => ret true))).

Definition step (d : directive) (f : found) : matcher found :=
  match d with
  | DY => bind re_Y (fun v => ret (mk_found v (fm f) (fd f) (fH f) (fI f) (fM f) (fS f) (fp f)))
  | Dm => bind re_m (fun v => ret (mk_found (fY f) v (fd f) (fH f) (fI f) (fM f) (fS f) (fp f)))
  | Dd => bind re_d (fun v => ret (mk_found (fY f) (fm f) v (fH f) (fI f) (fM f) (fS f) (fp f)))
  | DH => bind re_H (fun v => ret (mk_found (fY f) (fm f) (fd f) v (fI f) (fM f) (fS f) (fp f)))
  | DI => bind re_I (fun v => ret (mk_found (fY f) (fm f) (fd f) (fH f) (Some v) (fM f) (fS f) (fp f)))
  | DM => bind re_M (fun v => ret (mk_found (fY f) (fm f) (fd f) (fH f) (fI f) v (fS f) (fp f)))
  | DS => bind re_S (fun v => ret (mk_found (fY f) (fm f) (fd f) (fH f) (fI f) (fM f) v (fp f)))
  | Dp => bind re_p (fun v => ret (mk_found (fY f) (fm f) (fd f) (fH f) (fI f) (fM f) (fS f) (Some v)))
  | Lit c => bind (lit c) (fun _ => ret f)
  | WS => bind spaces (fun _ => ret f)
  end.

Fixpoint run (fmt : list directive) (f : found) : matcher found :=
  match fmt with
  | [] => ret f
  | d :: fmt' => bind (step d f) (run fmt')
  end.

Definition is_leap (y : Z) : bool :=
  (y mod 4 =? 0) && (negb (y mod 100 =? 0) || (y mod 400 =? 0)).

Definition days_in_month (y m : Z) : Z :=
  if m =? 2 then (if is_leap y then 29 else 28)
  else if (m =? 4) || (m =? 6) || (m =? 9) || (m =? 11) then 30 else 31.

(** Days of the year before the first of month [m]. *)
Definition days_before_month (y m : Z) : Z :=
  fold_right Z.add 0 (map (days_in_month y) (map Z.of_nat (seq 1 (Z.to_nat (m - 1))))).

(** Days before the first of January of year [y]. *)
Definition days_before_year (y : Z) : Z :=
  let p := y - 1 in p * 365 + p / 4 - p / 100 + p / 400.

(** [date.toordinal()] *)
Definition toordinal (dt : datetime) : Z :=
  days_before_year (year dt) + days_before_month (year dt) (month dt) + day dt.

(** The hour of the day from [%H], or from [%I] and [%p]. *)
Definition hour_of (f : found) : Z :=
  match fI f with
  | None => fH f
  | Some h =>
      match fp f with
      | Some true => if h =? 12 then h else h + 12
      | Some false | None => if h =? 12 then 0 else h
      end
  end.

(** The [datetime] constructor on the fields found; [None] is [ValueError]. *)
Definition build (f : found) : option datetime :=
  if (1 <=? fY f) && (fY f <=? 9999) && (1 <=? fm f) && (fm f <=? 12) &&
     (1 <=? fd f) && (fd f <=? days_in_month (fY f) (fm f)) &&
     (fS f <=? 59)
  then Some (mk_datetime (fY f) (fm f) (fd f) (hour_of f) (fM f) (fS f))
  else None.

(** [datetime.strptime(data, fmt)]; [None] is [ValueError]. *)
Definition strptime (data : string) (fmt : list directive) : option datetime :=
  match run fmt start (list_ascii_of_string data) with
  | (f, []) :: _ => build f
  | _ => None
  end.

End Strptime.

Import Strptime.

(** ** core/logic.py: [compute_duration] *)

(** The three entries of [patterns], in order:
    ["%Y-%m-%d %I:%M %p"], ["%Y-%m-%d %H:%M"], ["%Y-%m-%d %H:%M:%S"]. *)
Definition patterns : list (list directive) :=
  [ [DY; Lit "-"; Dm; Lit "-"; Dd; WS; DI; Lit ":"; DM; WS; Dp];
    [DY; Lit "-"; Dm; Lit "-"; Dd; WS; DH; Lit ":"; DM];
    [DY; Lit "-"; Dm; Lit "-"; Dd; WS; DH; Lit ":"; DM; Lit ":"; DS] ].

(** The loop of [parse]: the first pattern that [strptime] accepts. *)
Fixpoint try_patterns (ts : string) (ps : list (list directive)) : option datetime :=
  match ps with
  | [] => None
  | p :: ps' =>
      match strptime ts p with
      | Some dt => Some dt
      | None => try_patterns ts ps'
      end
  end.

(** The string [ts] that [parse] builds from a date and a time. *)
Definition timestamp (d t : Py.value) : string := strip (str d +:+ " " +:+ str t).

(** The inner function [parse(d, t)]. *)
Definition parse (d t : Py.value) : option datetime :=
  match t with
  | VDateTime dt => Some dt
  | _ => try_patterns (timestamp d t) patterns
  end.

(** Seconds from 0001-01-01 00:00:00, so that [end - start] is a difference. *)
Definition seconds_of (dt : datetime) : Z :=
  toordinal dt * 86400 + hour dt * 3600 + minute dt * 60 + second dt.

(** [compute_duration(arr_date, arr_time, dep_date, dep_time)] *)
Definition compute_duration (arr_date arr_time dep_date dep_time : Py.value) : string :=
  match parse arr_date arr_time, parse dep_date dep_time with
  | Some start, Some end_ =>
      let diff := seconds_of end_ - seconds_of start in
      let mins := diff / 60 in
      let h := mins / 60 in
      let m := mins mod 60 in
      let hr_label := if h =? 1 then "hr" else "hrs" in
      let min_label := if m =? 1 then "min" else "mins" in
      str_int h +:+ hr_label +:+ ", " +:+ str_int m +:+ min_label
  | _, _ => "0hr, 0min"
  end.

Example compute_duration_examples :
  compute_duration (VStr "2024-01-01") (VStr "09:00") (VStr "2024-01-01") (VStr "10:01")
    = "1hr, 1min" /\
  compute_duration (VStr "2024-02-28") (VStr "23:30:00") (VStr "2024-03-01") (VStr "0:30:00")
    = "25hrs, 0mins" /\
  compute_duration (VStr "2024-01-01") (VStr "10:00") (VStr "2024-01-01") (VStr "9:59")
    = "-1hrs, 59mins" /\
  compute_duration (VStr "2023-02-29") (VStr "10:00") (VStr "2024-01-01") (VStr "9:59")
    = "0hr, 0min" /\
  compute_duration (VStr "2024-01-01") (VStr "12:15 am") (VStr "2024-01-01") (VStr "12:15 PM")
    = "12hrs, 0mins".
Proof. repeat split; vm_compute; reflexivity. Qed.

(** ** core/importers/inventory_importer.py *)

Module InventoryImporter.

Definition REQUIRED_HEADERS : list string :=
  [ "part number"; "qty"; "part location"; "model"; "part description";
    "quarterly inventory verification date"; "days since last verification";
    "notes"; "today's date" ].

(** The sheet that [wb[sheet_name]] yields: the cell values of row 1 and of
    the rows from 2 on. *)
Record worksheet := mk_worksheet {
  header_row : list Py.value;
  data_rows : list (list Py.value)
}.

(** [str(c.value).strip().lower() if c.value else ""] *)
Definition header_of (v : Py.value) : string :=
  if truthy v then lower (strip (str v)) else "".

Definition headers_of (ws : worksheet) : list string := map header_of (header_row ws).

(** [h in headers] *)
Definition mem (h : string) (headers : list string) : bool :=
  existsb (String.eqb h) headers.

(** [[h for h in REQUIRED_HEADERS if h not in headers]] *)
Definition missing_headers (headers : list string) : list string :=
  List.filter (fun h => negb (mem h headers)) REQUIRED_HEADERS.

(** [dict(pairs)]: a later pair replaces an earlier one with the same key. *)
Definition py_dict (pairs : list (string * Py.value)) : gmap string Py.value :=
  fold_left (fun m kv => <[fst kv := snd kv]> m) pairs ∅.

(** [row_dict.get(key)] *)
Definition get (row_dict : gmap string Py.value) (key : string) : Py.value :=
  default VNone (row_dict !! key).

(** The dictionary [item_data] without its ["user"] entry. *)
Definition item_data (headers : list string) (row : list Py.value)
    : InventoryItem.kwargs :=
  let row_dict := py_dict (zip headers row) in
  let raw_date := get row_dict "quarterly inventory verification date" in
  let clean_date :=
    match raw_date with
    | VDateTime dt => VDate dt
    | v => v
    end in
  InventoryItem.mk_kwargs
    (get row_dict "part number")
    (get row_dict "qty")
    (get row_dict "part location")
    (get row_dict "model")
    (get row_dict "part description")
    clean_date
    (if mem "category" headers then get row_dict "category" else VNone)
    (get row_dict "notes")
    None.

(** [any(v for k, v in item_data.items() if k != "user")] *)
Definition any_field (kw : InventoryItem.kwargs) : bool :=
  existsb truthy
    [ InventoryItem.part_number kw; InventoryItem.quantity kw;
      InventoryItem.part_location kw; InventoryItem.model kw;
      InventoryItem.part_description kw;
      InventoryItem.quarterly_inventory_verification_date kw;
      InventoryItem.notes kw; InventoryItem.category_id kw ].

(** The [for] loop over the data rows: [added] and the world after it.  An
    exception of [InventoryItem.create] leaves the loop and the function;
    the rows created before it are committed. *)
Fixpoint import_rows (headers : list string) (user : Py.value)
    (rows : list (list Py.value)) (added : Z) (w : world) : outcome Z * world :=
  match rows with
  | [] => (Return added, w)
  | row :: rows' =>
      if negb (existsb truthy row) then import_rows headers user rows' added w
      else
        let kw := item_data headers row in
        if negb (any_field kw) then import_rows headers user rows' added w
        else
          let kw' := InventoryItem.mk_kwargs
            (InventoryItem.part_number kw) (InventoryItem.quantity kw)
            (InventoryItem.part_location kw) (InventoryItem.model kw)
            (InventoryItem.part_description kw)
            (InventoryItem.quarterly_inventory_verification_date kw)
            (InventoryItem.category_id kw) (InventoryItem.notes kw) (Some user) in
          match InventoryItem.create_outcome kw' w with
          | (Return _, w') => import_rows headers user rows' (added + 1) w'
          | (Raise e, w') => (Raise e, w')
          end
  end.

(** [import_inventory_from_excel(path, sheet_name, user)] on the sheet that
    the path and the name designate: the pair returned, or the exception
    that left the loop, and the world. *)
Definition import_inventory_from_excel (ws : worksheet) (user : Py.value) (w : world)
    : outcome (Z * list string) * world :=
  let headers := headers_of ws in
  let missing := missing_headers headers in
  match missing with
  | _ :: _ => (Return (0, missing), w)
  | [] =>
      match import_rows headers user (data_rows ws) 0 w with
      | (Return added, w') => (Return (added, []), w')
      | (Raise e, w') => (Raise e, w')
      end
  end.

End InventoryImporter.

(** ** ui/components/filters/filter_proxy_models.py *)

Module ColumnFilterProxy.

(** A row object: its attributes by name. *)
Abbreviation item := (gmap string Py.value).

(** The proxy: [self.filters], [self.columns] and, when the source model
    has an [items] attribute, that list. *)
Record t := mk {
  filters : gmap string (gset string);
  columns : list string;
  source_items : option (list item)
}.

(** [set_filters(filters)]; [invalidateFilter] makes the view ask
    [filterAcceptsRow] again for every source row. *)
Definition set_filters (f : gmap string (gset string)) (p : t) : t :=
  mk f (columns p) (source_items p).

(** [val = getattr(item, col_name, ""); sval = "" if val is None else str(val)] *)
Definition sval (it : item) (col_name : string) : string :=
  match default (VStr "") (it !! col_name) with
  | VNone => ""
  | v => str v
  end.

(** One turn of the loop over [self.filters.items()]: [false] is the
    [return False]. *)
Definition passes (cols : list string) (it : item) (entry : string * gset string) : bool :=
  let '(col_name, allowed) := entry in
  if bool_decide (allowed = ∅) then true
  else if negb (bool_decide (col_name ∈ cols)) then true
  else bool_decide (sval it col_name ∈ allowed).

(** [filterAcceptsRow(source_row, source_parent)] *)
Definition filterAcceptsRow (p : t) (source_row : Z) : bool :=
  match source_items p with
  | None => true
  | Some items =>
      if (source_row <? 0) || (Z.of_nat (length items) <=? source_row) then true
      else
        match items !! Z.to_nat source_row with
        | Some it => forallb (passes (columns p) it) (map_to_list (filters p))
        | None => true
        end
  end.

(** The source rows that the proxy exposes. *)
Definition exposed_rows (p : t) : list Z :=
  match source_items p with
  | None => []
  | Some items =>
      List.filter (filterAcceptsRow p) (map Z.of_nat (seq 0 (length items)))
  end.

End ColumnFilterProxy.

(** ** core/utils.py: dates and times *)

(** The default [fmt] of [parse_date], ["%Y-%m-%d"], and the format of
    [parse_time], ["%I:%M %p"]. *)
Definition date_format : list directive := [DY; Lit "-"; Dm; Lit "-"; Dd].
Definition time_format : list directive := [DI; Lit ":"; DM; WS; Dp].

(** [parse_date(date_str)] with the default format. *)
Definition parse_date (date_str : string) : option datetime :=
  if String.eqb date_str "" then None else strptime date_str date_format.

(** [parse_time(time_str)] *)
Definition parse_time (time_str : string) : option datetime :=
  if String.eqb time_str "" then None else strptime (strip time_str) time_format.

(** [combine_datetime(date_str, time_str)] *)
Definition combine_datetime (date_str time_str : string) : option datetime :=
  match parse_date date_str, parse_time time_str with
  | Some d, Some t => Some (mk_datetime (year d) (month d) (day d) (hour t) (minute t) 0)
  | _, _ => None
  end.

(** [diff_hours_minutes(dt_start, dt_end)]; an argument [None] is a falsy
    one. *)
Definition diff_hours_minutes (dt_start dt_end : option datetime) : Z * Z :=
  match dt_start, dt_end with
  | Some s, Some e =>
      let diff := seconds_of e - seconds_of s in
      let minutes := Z.max 0 (diff / 60) in
      (minutes / 60, minutes mod 60)
  | _, _ => (0, 0)
  end.

(** [is_empty(value)] *)
Definition is_empty (value : Py.value) : bool := String.eqb (safe_str value) "".

(** [non_empty(value, field_name)] *)
Definition non_empty (value : Py.value) (field_name : string) : bool * string :=
  if is_empty value then (false, field_name +:+ " is required.") else (true, "").

(** [validate_date_string(date_str)] *)
Definition validate_date_string (date_str : string) : bool * string :=
  match parse_date date_str with
  | None => (false, "Invalid date: " +:+ date_str)
  | Some _ => (true, "")
  end.

(** [validate_time_string(time_str)] *)
Definition validate_time_string (time_str : string) : bool * string :=
  match parse_time time_str with
  | None => (false, "Invalid time: " +:+ time_str)
  | Some _ => (true, "")
  end.

(** ** Python sequences *)

(** [needle in hay] for two [str]. *)
Fixpoint str_contains (needle hay : string) : bool :=
  String.prefix needle hay ||
  match hay with
  | String _ hay' => str_contains needle hay'
  | EmptyString => false
  end.

(** [l[i]]: a negative index counts from the end; [None] is [IndexError]. *)
Definition list_index {A} (l : list A) (i : Z) : option A :=
  let n := Z.of_nat (length l) in
  if (0 <=? i) && (i <? n) then l !! Z.to_nat i
  else if (- n <=? i) && (i <? 0) then l !! Z.to_nat (n + i)
  else None.

(** ** core/models/inventory_model.py: reading and updating *)

Module InventoryObject.

(** An [InventoryItem] object as [__init__] leaves it. *)
Record t := mk {
  id : Py.value;
  part_number : string;
  quantity : Z;
  part_location : string;
  model : string;
  part_description : string;
  quarterly_inventory_verification_date : string;
  category_id : Py.value;
  notes : string;
  user : string
}.

Definition of_text (c : option string) : Py.value :=
  match c with Some s => VStr s | None => VNone end.

Definition of_integer (c : option Z) : Py.value :=
  match c with Some z => VInt z | None => VNone end.

(** [InventoryItem( *row)] on a row of the SELECT of [get_all_for_user]. *)
Definition of_row (r : InventoryRow.t) : t :=
  mk (VInt (InventoryRow.id r))
     (safe_str (of_text (InventoryRow.part_number r)))
     (safe_int (of_integer (InventoryRow.quantity r)))
     (safe_str (of_text (InventoryRow.part_location r)))
     (safe_str (of_text (InventoryRow.model r)))
     (safe_str (of_text (InventoryRow.part_description r)))
     (safe_str (of_text (InventoryRow.quarterly_inventory_verification_date r)))
     (of_text (InventoryRow.category_id r))
     (safe_str (of_text (InventoryRow.notes r)))
     (safe_str (VStr (InventoryRow.user r))).

(** [ORDER BY id]: an insertion sort that keeps the order of equal ids. *)
Fixpoint insert_by_id (r : InventoryRow.t) (l : list InventoryRow.t) : list InventoryRow.t :=
  match l with
  | [] => [r]
  | x :: l' => if InventoryRow.id r <? InventoryRow.id x then r :: x :: l'
               else x :: insert_by_id r l'
  end.

Definition order_by_id (l : list InventoryRow.t) : list InventoryRow.t :=
  fold_right insert_by_id [] l.

(** [InventoryItem.get_all_for_user(user)], the SELECT succeeding. *)
Definition get_all_for_user (user : string) (w : world) : list t :=
  map of_row
    (order_by_id
       (List.filter (fun r => bool_decide (InventoryRow.user r = user))
          (inventory_items (db w)))).

(** A value bound to a TEXT column: [None] is NULL. *)
Definition to_text (v : Py.value) : option string :=
  match v with VNone => None | v => Some (str v) end.

(** [InventoryItem.update(item_id, **kw)]: every column is rewritten;
    [category_id] is bound as it comes, an absent ["user"] reads as [None].
    A quantity out of range makes [execute] raise, and nothing is written. *)
Definition update (item_id : Z) (kw : InventoryItem.kwargs) (w : world)
    : outcome unit * world :=
  let d := db w in
  let rewrite (r : InventoryRow.t) :=
    InventoryRow.mk (InventoryRow.id r)
      (Some (safe_str (InventoryItem.part_number kw)))
      (Some (safe_int (InventoryItem.quantity kw)))
      (Some (safe_str (InventoryItem.part_location kw)))
      (Some (safe_str (InventoryItem.model kw)))
      (Some (safe_str (InventoryItem.part_description kw)))
      (Some (safe_str (InventoryItem.quarterly_inventory_verification_date kw)))
      (to_text (InventoryItem.category_id kw))
      (Some (safe_str (InventoryItem.notes kw)))
      (safe_str (default VNone (InventoryItem.user kw))) in
  if in_int64 (safe_int (InventoryItem.quantity kw)) then
    (Return tt,
     emit inventory_changed
       (set_db (set_inventory_items
                  (map (fun r => if InventoryRow.id r =? item_id then rewrite r else r)
                       (inventory_items d)) d) w))
  else (Raise OverflowError, w).

End InventoryObject.

(** ** ui/components/filters/filter_proxy_models.py: the other proxies *)

(** [InventoryFilterProxy] and [ServiceActivityFilterProxy]: the same
    method body in both classes. *)
Module AllowListProxy.

Abbreviation item := (gmap string Py.value).

(** [self.filters] and, when the source model is of the class the proxy
    expects, its [items]. *)
Record t := mk {
  filters : gmap string (gset string);
  source_items : option (list item)
}.

Definition set_filters (f : gmap string (gset string)) (p : t) : t :=
  mk f (source_items p).

(** One turn of the loop: there is no test on the column list here. *)
Definition passes (it : item) (entry : string * gset string) : bool :=
  let '(col_name, allowed) := entry in
  if bool_decide (allowed = ∅) then true
  else bool_decide (ColumnFilterProxy.sval it col_name ∈ allowed).

(** [filterAcceptsRow(source_row, source_parent)]; [src.items[source_row]]
    raises [IndexError] outside the list. *)
Definition filterAcceptsRow (p : t) (source_row : Z) : outcome bool :=
  match source_items p with
  | None => Return true
  | Some items =>
      match list_index items source_row with
      | None => Raise (OtherException "IndexError")
      | Some it => Return (forallb (passes it) (map_to_list (filters p)))
      end
  end.

End AllowListProxy.

Module MileageFilterProxy.

Abbreviation item := (gmap string Py.value).

(** [self._text_filters] and, when the source model has [get_item], the
    list that [get_item] reads.  The allow-lists inherited from
    [ColumnFilterProxy] stay empty and are not consulted. *)
Record t := mk {
  _text_filters : gmap string string;
  source_items : option (list item)
}.

(** [set_text_filter(column_key, text)] *)
Definition set_text_filter (column_key text : string) (p : t) : t :=
  let text := lower (strip text) in
  if String.eqb text "" then mk (delete column_key (_text_filters p)) (source_items p)
  else mk (<[column_key := text]> (_text_filters p)) (source_items p).

(** [clear_all_filters()] *)
Definition clear_all_filters (p : t) : t := mk ∅ (source_items p).

(** [BaseTableModel.get_item(row)] *)
Definition get_item (items : list item) (row : Z) : option item :=
  if (0 <=? row) && (row <? Z.of_nat (length items)) then items !! Z.to_nat row else None.

(** [sval = "" if val is None else str(val).lower()] *)
Definition sval (it : item) (col_key : string) : string :=
  match default (VStr "") (it !! col_key) with
  | VNone => ""
  | v => lower (str v)
  end.

(** [filterAcceptsRow(source_row, source_parent)] *)
Definition filterAcceptsRow (p : t) (source_row : Z) : bool :=
  match source_items p with
  | None => true
  | Some items =>
      match get_item items source_row with
      | None => true
      | Some it =>
          forallb (fun entry => str_contains (snd entry) (sval it (fst entry)))
                  (map_to_list (_text_filters p))
      end
  end.

End MileageFilterProxy.

(** ** core/models/mileage_model.py and [clear_all_mileage_entries] *)

Section Mileage.

(** The values of the REAL columns [start_miles] and [end_miles]; the
    modelled functions only carry them. *)
Context {real : Type}.

(** A row of [mileage]. *)
Record mileage_row := mk_mileage_row {
  m_id : Z;
  m_user : string;
  m_date : option string;
  m_start_miles : option real;
  m_end_miles : option real;
  m_start_location : option string;
  m_end_location : option string;
  m_purpose : option string
}.

(** The [mileage] table next to the rest of the process. *)
Record mileage_world := mk_mileage_world {
  base : world;
  mileage : list mileage_row;
  mileage_seq : Z
}.

(** [MileageEntry.create(date, start_miles, end_miles, start_location,
    end_location, purpose, user)] *)
Definition mileage_create (date : option string) (start_miles end_miles : option real)
    (start_location end_location purpose : option string) (user : string)
    (mw : mileage_world) : mileage_world :=
  let new_id := mileage_seq mw + 1 in
  mk_mileage_world (emit mileage_changed (base mw))
    (mileage mw ++ [mk_mileage_row new_id user date start_miles end_miles
                      start_location end_location purpose])
    new_id.

(** [MileageEntry.delete(id, user)] *)
Definition mileage_delete (id : Z) (user : string) (mw : mileage_world) : mileage_world :=
  mk_mileage_world (emit mileage_changed (base mw))
    (List.filter (fun r => negb ((m_id r =? id) && String.eqb (m_user r) user)) (mileage mw))
    (mileage_seq mw).

(** [MileageEntry.update(id, user, ...)] *)
Definition mileage_update (id : Z) (user : string) (date : option string)
    (start_miles end_miles : option real)
    (start_location end_location purpose : option string)
    (mw : mileage_world) : mileage_world :=
  mk_mileage_world (emit mileage_changed (base mw))
    (map (fun r => if (m_id r =? id) && String.eqb (m_user r) user
                   then mk_mileage_row (m_id r) (m_user r) date start_miles end_miles
                          start_location end_location purpose
                   else r) (mileage mw))
    (mileage_seq mw).

(** The order of two [date] cells under [ORDER BY date DESC]: a text sorts
    before a smaller text, NULL sorts last. *)
Definition date_before (a b : option string) : bool :=
  match a, b with
  | Some x, Some y => match String.compare x y with Gt => true | _ => false end
  | Some _, None => true
  | None, _ => false
  end.

(** [ORDER BY date DESC]; rows of equal date keep the order of the table. *)
Fixpoint insert_by_date (r : mileage_row) (l : list mileage_row) : list mileage_row :=
  match l with
  | [] => [r]
  | x :: l' => if date_before (m_date x) (m_date r) then x :: insert_by_date r l'
               else r :: x :: l'
  end.

Definition order_by_date_desc (l : list mileage_row) : list mileage_row :=
  fold_right insert_by_date [] l.

(** [MileageEntry.get_all_for_user(user)]: a [MileageEntry] object holds the
    columns of its row unchanged. *)
Definition mileage_get_all_for_user (user : string) (mw : mileage_world)
    : list mileage_row :=
  order_by_date_desc (List.filter (fun r => String.eqb (m_user r) user) (mileage mw)).

(** [clear_all_mileage_entries(user)] *)
Definition clear_all_mileage_entries (user : string) (mw : mileage_world) : mileage_world :=
  fold_left (fun acc e => mileage_delete (m_id e) user acc)
            (mileage_get_all_for_user user mw) mw.

End Mileage.
Arguments mileage_row : clear implicits.
Arguments mileage_world : clear implicits.

(** ** ui/pages/login_page.py and ui/pages/signup_page.py *)

(** What the page shows after the button was pressed. *)
Inductive dialog :=
| MissingInfo
| LoginSucceeded
| LoginFailed
| AccountCreated
| SignupFailed
| UnexpectedError (e : exn).

Section Pages.
Context {ph : PasswordHasher}.

(** [LoginPage.try_login()] on the texts of the two entries.  The page has
    no handler of its own: an exception of [login_user], which raises none,
    would leave [try_login] as it is. *)
Definition try_login (username_text password_text : string) (w : world) : dialog * world :=
  let username := strip username_text in
  let password := strip password_text in
  if String.eqb username "" || String.eqb password "" then (MissingInfo, w)
  else
    match login_user username password w with
    | (Return true, w') => (LoginSucceeded, w')
    | (Return false, w') => (LoginFailed, w')
    | (Raise e, w') => (UnexpectedError e, w')
    end.

(** [SignupPage.try_signup()] on the texts of the three entries. *)
Definition try_signup (username_text email_text password_text : string) (w : world)
    : dialog * world :=
  let username := strip username_text in
  let email := strip email_text in
  let password := strip password_text in
  if String.eqb username "" || String.eqb email "" || String.eqb password ""
  then (MissingInfo, w)
  else
    match register_user username email password w with
    | (Return true, w') => (AccountCreated, w')
    | (Return false, w') => (SignupFailed, w')
    | (Raise e, w') => (UnexpectedError e, w')
    end.

End Pages.

(** ** core/importers/sa_importer.py *)

Module ServiceImporter.

(** [sep.join(l)] *)
Fixpoint join (sep : string) (l : list string) : string :=
  match l with
  | [] => ""
  | [x] => x
  | x :: l' => x +:+ sep +:+ join sep l'
  end.

(** [re.sub(r"\s+", " ", h)]: [in_run] tells whether the previous character
    was white space. *)
Fixpoint collapse (h : string) (in_run : bool) : string :=
  match h with
  | EmptyString => EmptyString
  | String c h' =>
      if is_space c
      then (if in_run then collapse h' true else String " " (collapse h' true))
      else String c (collapse h' false)
  end.

(** [HEADER_ALIASES], in the order of the literal. *)
Definition HEADER_ALIASES : list (string * list string) :=
  [ ("departure time",
     ["departure time"; "depature time"; "depature time"; "depature  time"]);
    ("call duration", ["call duration"; "call  duration"]);
    ("technician last name", ["technician last name"; "technician"; "tech last name"]);
    ("service log / comments", ["service log / comments"; "comments"; "service log"]);
    ("serial number",
     ["serial number"; "serial #";
      "serial" +:+ String (ascii_of_N 10) "number"]);
    ("arrival time",
     ["arrival time"; "arrival" +:+ String (ascii_of_N 10) "time"]) ].

(** [header_map], in the order of the literal: Excel name, field name. *)
Definition header_map : list (string * string) :=
  [ ("area", "area"); ("customer", "customer"); ("serial number", "serial_number");
    ("meter", "meter"); ("description of malfunction", "malfunction");
    ("arrival date", "arrival_date"); ("arrival time", "arrival_time");
    ("remedial action performed", "remedial_action"); ("qty", "quantity");
    ("part replaced", "part_replaced"); ("departure date", "departure_date");
    ("departure time", "departure_time"); ("call duration", "call_duration");
    ("technician last name", "technician"); ("service log / comments", "comments") ].

Definition PRIMARY_FIELDS : list string :=
  [ "area"; "customer"; "malfunction"; "arrival_date"; "departure_date" ].

(** [v not in (None, "", " ")] *)
Definition meaningful (v : Py.value) : bool :=
  match v with
  | VNone => false
  | VStr s => negb (String.eqb s "" || String.eqb s " ")
  | _ => true
  end.

(** The inner function [norm(v)]. *)
Definition norm (v : Py.value) : Py.value :=
  match v with
  | VDateTime dt =>
      if (hour dt =? 0) && (minute dt =? 0) && (second dt =? 0)
      then VStr (str_date dt) else VStr (str (VDateTime dt))
  | v => v
  end.

(** What the page shows when the function is left. *)
Inductive report :=
| Cancelled
| ImportError (message : string)
| ImportComplete (added : Z).

Section WithNormalForm.

(** [unicodedata.normalize("NFKC", s)], which the model of strings cannot
    compute: a parameter. *)
Variable nfkc : string -> string.

(** The inner function [normalize_header(h)]. *)
Definition normalize_header (h : Py.value) : string :=
  if truthy h then lower (strip (collapse (nfkc (str h)) false)) else "".

(** [alias_lookup]: a later variant replaces an earlier equal key. *)
Definition alias_lookup : gmap string string :=
  fold_left (fun m cv =>
               fold_left (fun m' v => <[normalize_header (VStr v) := fst cv]> m')
                         (snd cv) m)
            HEADER_ALIASES ∅.

(** [normalized_excel_headers] *)
Definition normalized_excel_headers (ws : InventoryImporter.worksheet) : list string :=
  map (fun c => let h := normalize_header c in default h (alias_lookup !! h))
      (InventoryImporter.header_row ws).

(** [missing] *)
Definition missing_columns (headers : list string) : list string :=
  List.filter (fun h => negb (InventoryImporter.mem h headers)) (map fst header_map).

(** [row_has_real_data(row_dict)] *)
Definition row_has_real_data (row_dict : gmap string Py.value) : bool :=
  existsb (fun key => meaningful (InventoryImporter.get row_dict key)) PRIMARY_FIELDS.

(** The dictionary [clean] that is handed to [ServiceActivity.create]. *)
Definition clean (headers : list string) (user : Py.value) (row : list Py.value)
    : ServiceActivity.fields :=
  let excel_row := InventoryImporter.py_dict (zip headers row) in
  let field (excel_name : string) := norm (InventoryImporter.get excel_row excel_name) in
  let arrival_date := field "arrival date" in
  let arrival_time := field "arrival time" in
  let departure_date := field "departure date" in
  let departure_time := field "departure time" in
  ServiceActivity.mk_fields
    (field "area") (field "customer") (field "serial number") (field "meter")
    (field "description of malfunction") arrival_date arrival_time
    (field "remedial action performed") (field "qty") (field "part replaced")
    departure_date departure_time
    (VStr (compute_duration arrival_date arrival_time departure_date departure_time))
    (field "technician last name") (field "service log / comments") user.

(** The loop over the data rows.  An exception of [ServiceActivity.create]
    leaves the loop; the rows created before it are committed. *)
Fixpoint import_rows (headers : list string) (user : Py.value)
    (rows : list (list Py.value)) (added : Z) (w : world) : outcome Z * world :=
  match rows with
  | [] => (Return added, w)
  | row :: rows' =>
      if negb (existsb meaningful row) then import_rows headers user rows' added w
      else if negb (row_has_real_data (InventoryImporter.py_dict (zip headers row)))
      then import_rows headers user rows' added w
      else
        match ServiceActivity.create_outcome (clean headers user row) w with
        | (Return _, w') => import_rows headers user rows' (added + 1) w'
        | (Raise e, w') => (Raise e, w')
        end
  end.

(** [import_from_excel(self)]: [path] is what the file dialog returned, [ok]
    what the sheet dialog returned, [ws] the sheet chosen in the workbook
    that opened, [user] is [self.user].  The handler of the function shows
    the text of an exception that left the loop, which is the
    [OverflowError] of a bound quantity. *)
Definition import_from_excel (path : string) (ok : bool)
    (ws : InventoryImporter.worksheet) (user : Py.value) (w : world) : report * world :=
  if String.eqb path "" then (Cancelled, w)
  else if negb ok then (Cancelled, w)
  else
    let headers := normalized_excel_headers ws in
    let missing := missing_columns headers in
    match missing with
    | _ :: _ =>
        (ImportError ("The file is missing expected columns:" +:+ String (ascii_of_N 10) ""
                      +:+ join ", " missing), w)
    | [] =>
        match import_rows headers user (InventoryImporter.data_rows ws) 0 w with
        | (Return added, w') => (ImportComplete added, emit service_activity_changed w')
        | (Raise _, w') =>
            (ImportError ("An error occurred:" +:+ String (ascii_of_N 10) ""
                          +:+ overflow_text), w')
        end
    end.

End WithNormalForm.

End ServiceImporter.

(** * Properties *)

(** ** A hasher to run the examples on

    [toy_argon2] follows the control flow of [PasswordHasher.verify] in
    argon2-cffi: the stored hash is encoded as ASCII first (a character
    above 127 raises [UnicodeEncodeError]), its nine-character header must
    name an Argon2 variant ([InvalidHash] otherwise), and the digest is
    compared last ([VerifyMismatchError]).  The digest itself is replaced by
    the plain password, and the cost parameters by their printed form. *)

Definition argon2_header : string := "$argon2id$v=19$m=65536,t=3,p=2$".

Definition is_ascii_str (s : string) : bool :=
  forallb (fun c => (N_of_ascii c <? 128)%N) (list_ascii_of_string s).

Definition toy_argon2 : PasswordHasher := {|
  ph_hash := fun password => Return (argon2_header +:+ password);
  ph_verify := fun stored_hash password =>
    if negb (is_ascii_str stored_hash) then Raise (OtherException "UnicodeEncodeError")
    else if negb (String.prefix "$argon2id" stored_hash) then Raise InvalidHash
    else if String.eqb (substring 0 10 stored_hash) "$argon2id$"
         then (if String.eqb stored_hash (argon2_header +:+ password)
                  || String.eqb stored_hash ("$argon2id$v=19$m=1024,t=1,p=1$" +:+ password)
               then Return true else Raise VerifyMismatchError)
         else Raise VerificationError;
  ph_check_needs_rehash := fun stored_hash =>
    Return (negb (String.prefix argon2_header stored_hash))
|}.

(** A database with the user alice, whose password is "secret". *)
Definition alice_row : UserRow.t :=
  UserRow.mk 1 "alice" (Some "alice@example.org") (argon2_header +:+ "secret").

Definition alice_db : database := mk_database [] 0 [] 0 [alice_row] 1.

(** ** Registration and login *)

Lemma find_user_Some (username : string) (d : database) :
  (exists r, In r (users d) /\ UserRow.username r = username) ->
  exists r, find_user username d = Some r.
Proof.
  intros [r [Hin Hname]]. unfold find_user.
  destruct (find _ (users d)) as [r'|] eqn:Hfind; [eauto|].
  apply (find_none _ _ Hfind) in Hin.
  rewrite Hname, String.eqb_refl in Hin. discriminate.
Qed.

(** C7: registering a username that is already in [users] returns [False]
    and leaves everything as it was: no row is inserted and no row changes. *)
Theorem register_user_existing_username
    (ph : PasswordHasher) (username email password : string) (w : world) :
  (exists r, In r (users (db w)) /\ UserRow.username r = username) ->
  register_user username email password w = (Return false, w).
Proof.
  intros H. apply find_user_Some in H as [r Hr].
  unfold register_user. now rewrite Hr.
Qed.

Lemma register_user_existing_username_witness :
  register_user (ph := toy_argon2) "alice" "eve@example.org" "hunter2"
    (initial_world alice_db)
  = (Return false, initial_world alice_db).
Proof.
  apply (register_user_existing_username toy_argon2).
  exists alice_row. split; [left; reflexivity | reflexivity].
Defined.

(** A fresh username is inserted with the hash of the password. *)
Lemma register_user_fresh_username
    (ph : PasswordHasher) (username email password h : string) (w : world) :
  find_user username (db w) = None ->
  ph_hash password = Return h ->
  let '(r, w') := register_user username email password w in
  r = Return true /\
  users (db w') = users (db w) ++ [UserRow.mk (users_seq (db w) + 1) username (Some email) h].
Proof.
  intros Hnone Hh. unfold register_user, hash_password. rewrite Hnone, Hh. now split.
Qed.

(** [verify_password_argon2] lets through exactly the exceptions outside the
    three classes it names. *)
Lemma verify_password_argon2_raises
    (ph : PasswordHasher) (stored_hash password : string) (e : exn) :
  verify_password_argon2 stored_hash password = Raise e <->
  ph_verify stored_hash password = Raise e /\ exists name, e = OtherException name.
Proof.
  unfold verify_password_argon2.
  destruct (ph_verify stored_hash password) as [b|e0].
  - split; [discriminate | intros [H _]; discriminate].
  - destruct e0 as [| | |name]; split.
    + discriminate.
    + intros [H [n ->]]; discriminate H.
    + discriminate.
    + intros [H [n ->]]; discriminate H.
    + discriminate.
    + intros [H [n ->]]; discriminate H.
    + intros H. injection H as <-. eauto.
    + intros [H _]. exact H.
Qed.

(** C8, as the code has it: [verify_password_argon2] returns what
    [ph.verify] returns, returns [False] when [ph.verify] raises
    [VerifyMismatchError], [VerificationError] or [InvalidHash], and raises
    only what [ph.verify] raises outside these classes; [login_user] always
    returns, and returns [False] with the world unchanged for an unknown
    username, for an empty stored hash and whenever the verification does
    not return [True], an exception included. *)
Theorem authentication_failures_as_code
    (ph : PasswordHasher) (stored_hash username password : string) (w : world) :
  (forall b, ph_verify stored_hash password = Return b ->
     verify_password_argon2 stored_hash password = Return b) /\
  (forall e, ph_verify stored_hash password = Raise e ->
     e = VerifyMismatchError \/ e = VerificationError \/ e = InvalidHash ->
     verify_password_argon2 stored_hash password = Return false) /\
  (forall e, verify_password_argon2 stored_hash password = Raise e ->
     ph_verify stored_hash password = Raise e /\ exists name, e = OtherException name) /\
  (exists b, fst (login_user username password w) = Return b) /\
  (find_user username (db w) = None ->
     login_user username password w = (Return false, w)) /\
  (forall r, find_user username (db w) = Some r -> UserRow.password_hash r = "" ->
     login_user username password w = (Return false, w)) /\
  (forall r, find_user username (db w) = Some r ->
     verify_password_argon2 (UserRow.password_hash r) password <> Return true ->
     login_user username password w = (Return false, w)).
Proof.
  repeat split.
  - intros b Hb. unfold verify_password_argon2. now rewrite Hb.
  - intros e He Hcls. unfold verify_password_argon2. rewrite He.
    destruct Hcls as [->|[->| ->]]; reflexivity.
  - apply verify_password_argon2_raises in H. tauto.
  - apply verify_password_argon2_raises in H. tauto.
  - unfold login_user. destruct (find_user username (db w)) as [r|]; [|eauto].
    destruct (String.eqb _ ""); [eauto|].
    destruct (verify_password_argon2 _ password) as [[|]|e]; eauto.
  - intros Hnone. unfold login_user. now rewrite Hnone.
  - intros r Hr Hempty. unfold login_user. now rewrite Hr, Hempty.
  - intros r Hr Hver. unfold login_user. rewrite Hr.
    destruct (String.eqb _ ""); [reflexivity|].
    destruct (verify_password_argon2 _ password) as [[|]|e]; congruence.
Qed.

(** The character U+00E9 as a stored hash. *)
Definition non_ascii_hash : string := String (ascii_of_N 233) EmptyString.

(** C8, as stated, fails: on a stored hash that is not ASCII the hasher
    raises outside the three classes named, and [verify_password_argon2]
    raises too. *)
Lemma verify_password_argon2_can_raise :
  verify_password_argon2 (ph := toy_argon2) non_ascii_hash "secret"
  = Raise (OtherException "UnicodeEncodeError").
Proof. reflexivity. Qed.

(** [login_user] never binds the name that [get_current_user] reads. *)
Lemma login_user_current_user
    (ph : PasswordHasher) (username password : string) (w : world) :
  current_user (snd (login_user username password w)) = current_user w.
Proof.
  unfold login_user. destruct (find_user username (db w)) as [r|]; [|reflexivity].
  destruct (String.eqb _ ""); [reflexivity|].
  destruct (verify_password_argon2 _ password) as [[|]|e]; reflexivity.
Qed.

(** No login changes what [get_current_user] answers: [login_user] binds
    [_current_user] at most, and [get_current_user] reads [current_user]. *)
Lemma login_user_get_current_user
    (ph : PasswordHasher) (username password : string) (w : world) :
  get_current_user (snd (login_user username password w)) = get_current_user w.
Proof. unfold get_current_user. now rewrite login_user_current_user. Qed.

(** C1 at a successful login of alice in a fresh process: [login_user]
    returns [True] and binds [_current_user], yet [get_current_user], which
    reads [current_user], still answers "default_user". *)
Theorem login_then_get_current_user_default :
  let '(r, w) := login_user (ph := toy_argon2) "alice" "secret" (initial_world alice_db) in
  r = Return true /\
  _current_user w = Some "alice" /\
  current_user w = None /\
  get_current_user w = "default_user".
Proof. vm_compute. repeat split. Qed.

(** A login with stale parameters succeeds and replaces the stored hash. *)
Example login_rehash :
  let stale := UserRow.mk 1 "alice" None ("$argon2id$v=19$m=1024,t=1,p=1$" +:+ "secret") in
  let '(r, w) := login_user (ph := toy_argon2) "alice" "secret"
                   (initial_world (mk_database [] 0 [] 0 [stale] 1)) in
  r = Return true /\
  users (db w) = [UserRow.mk 1 "alice" None (argon2_header +:+ "secret")].
Proof. vm_compute. repeat split. Qed.

(** ** Service activities and the inventory *)

Definition no_fields : ServiceActivity.fields :=
  ServiceActivity.mk_fields VNone VNone VNone VNone VNone VNone VNone VNone
    VNone VNone VNone VNone VNone VNone VNone VNone.

(** A service call of [user] that replaces [quantity] of [part]. *)
Definition uses (part : string) (quantity : Py.value) (user : string)
    : ServiceActivity.fields :=
  ServiceActivity.mk_fields (VStr "North") (VStr "ACME") VNone VNone VNone
    (VStr "2024-01-01") (VStr "09:00") VNone quantity (VStr part)
    (VStr "2024-01-01") (VStr "17:30") (VStr "8hrs, 30mins") VNone VNone (VStr user).

(** The object [item] with its part and quantity edited, as the form does. *)
Definition edit (part : string) (quantity : Py.value) (item : ServiceActivity.t)
    : ServiceActivity.t :=
  let f := ServiceActivity.attrs item in
  ServiceActivity.mk (ServiceActivity.id item)
    (ServiceActivity.mk_fields
       (ServiceActivity.area f) (ServiceActivity.customer f)
       (ServiceActivity.serial_number f) (ServiceActivity.meter f)
       (ServiceActivity.malfunction f) (ServiceActivity.arrival_date f)
       (ServiceActivity.arrival_time f) (ServiceActivity.remedial_action f)
       quantity (VStr part)
       (ServiceActivity.departure_date f) (ServiceActivity.departure_time f)
       (ServiceActivity.call_duration f) (ServiceActivity.technician f)
       (ServiceActivity.comments f) (ServiceActivity.user f)).

(** An inventory with the single row (part "X1", [q]) of [user]. *)
Definition x1_inventory (q : Z) (user : string) : database :=
  mk_database
    [InventoryRow.mk 1 (Some "X1") (Some q) (Some "Van") (Some "M1") (Some "Fuser")
       (Some "2024-01-01") (Some "") (Some "") user]
    1 [] 0 [] 0.

(** The [quantity] column of [inventory_items]. *)
Definition quantities (w : world) : list (option Z) :=
  map InventoryRow.quantity (inventory_items (db w)).

Lemma inv_match_set_quantity (part user : string) (q : option Z) (r : InventoryRow.t) :
  inv_match part user (InventoryRow.set_quantity q r) = inv_match part user r.
Proof. reflexivity. Qed.

Lemma set_quantity_same (r : InventoryRow.t) :
  InventoryRow.set_quantity (InventoryRow.quantity r) r = r.
Proof. now destruct r. Qed.

Lemma find_None_forall {A} (f : A -> bool) (l : list A) :
  (forall x, In x l -> f x = false) -> find f l = None.
Proof.
  induction l as [|a l IH]; intros H; simpl; [reflexivity|].
  rewrite (H a) by now left. apply IH. intros x Hx. apply H. now right.
Qed.

Lemma map_if_none {A} (f : A -> bool) (g : A -> A) (l : list A) :
  (forall x, In x l -> f x = false) -> map (fun x => if f x then g x else x) l = l.
Proof.
  induction l as [|a l IH]; intros H; simpl; [reflexivity|].
  rewrite (H a) by now left. f_equal. apply IH. intros x Hx. apply H. now right.
Qed.

Lemma Forall2_map_if {A} (f : A -> bool) (g : A -> A) (l : list A) :
  Forall2 (fun r r' => f r = false -> r' = r) l (map (fun r => if f r then g r else r) l).
Proof.
  induction l as [|a l IH]; simpl; constructor; auto. intros E. now rewrite E.
Qed.

Lemma Forall2_same {A} (P : A -> A -> Prop) (l : list A) :
  (forall a, P a a) -> Forall2 P l l.
Proof. intros H. induction l; constructor; auto. Qed.

Lemma find_app_first {A} (f : A -> bool) (pre post : list A) (r : A) :
  (forall x, In x pre -> f x = false) -> f r = true ->
  find f (pre ++ r :: post) = Some r.
Proof.
  intros Hpre Hr. induction pre as [|a pre IH]; simpl.
  - now rewrite Hr.
  - rewrite (Hpre a) by now left. apply IH. intros x Hx. apply Hpre. now right.
Qed.

Lemma lookup_map_middle {A B} (g : A -> B) (pre post : list A) (r : A) :
  map g (pre ++ r :: post) !! length pre = Some (g r).
Proof. induction pre as [|a pre IH]; simpl; [reflexivity | exact IH]. Qed.

Lemma in_int64_spec (z : Z) :
  in_int64 z = true <-> -9223372036854775808 <= z <= 9223372036854775807.
Proof. unfold in_int64. rewrite andb_true_iff, !Z.leb_le. tauto. Qed.

Lemma in_int64_false (z : Z) :
  in_int64 z = false <-> z < -9223372036854775808 \/ 9223372036854775807 < z.
Proof.
  unfold in_int64. rewrite andb_false_iff, !Z.leb_gt. tauto.
Qed.

(** A quantity that the INSERT cannot bind: [create] raises and leaves the
    world as it was. *)
Lemma create_out_of_range (data : ServiceActivity.fields) (w : world) :
  in_int64 (safe_int (ServiceActivity.quantity data)) = false ->
  ServiceActivity.create_outcome data w = (Raise OverflowError, w).
Proof.
  intros H. unfold ServiceActivity.create_outcome. cbv zeta. now rewrite H.
Qed.

(** Otherwise it returns, with the row inserted and the inventory block
    run. *)
Lemma create_in_range (data : ServiceActivity.fields) (w : world) :
  in_int64 (safe_int (ServiceActivity.quantity data)) = true ->
  ServiceActivity.create_outcome data w
  = (Return tt,
     let d := db w in
     let part := safe_str (ServiceActivity.part_replaced data) in
     let user := safe_str (ServiceActivity.py_or (ServiceActivity.user data)
                             (VStr "default_user")) in
     let new_id := service_activity_seq d + 1 in
     emit service_activity_changed
       (set_db
          (ServiceActivity.create_inventory part user
             (safe_int (ServiceActivity.quantity data))
             (mk_database (inventory_items d) (inventory_items_seq d)
                (service_activity d ++
                 [ServiceActivity.row_of new_id data
                    (safe_int (ServiceActivity.quantity data)) part user])
                new_id (users d) (users_seq d))) w)).
Proof.
  intros H. unfold ServiceActivity.create_outcome. cbv zeta. now rewrite H.
Qed.

(** The two cases of [ServiceActivity.create] in a goal. *)
Ltac create_cases data w :=
  unfold ServiceActivity.create;
  let E := fresh "Hrange" in
  destruct (in_int64 (safe_int (ServiceActivity.quantity data))) eqn:E;
  [rewrite (create_in_range data w E) | rewrite (create_out_of_range data w E)];
  cbv zeta; cbn [snd].

(** C9 as the code has it: when [part_replaced] is not empty and the
    quantity is missing, zero or negative, and within the 64 bits that the
    INSERT binds, [create] takes one unit from the quantity of the inventory
    row that the SELECT finds (the first row of that part and user, holding
    NULL, which counts as 0, or a 64-bit integer), clamped at zero, and
    writes the result into every row of that part and user; the rows of
    another part or user keep their quantity.  With one row of that part and
    user, that row loses exactly one unit, clamped at zero. *)
Theorem create_non_positive_quantity_uses_one
    (data : ServiceActivity.fields) (w : world)
    (pre post : list InventoryRow.t) (r : InventoryRow.t) :
  let part := safe_str (ServiceActivity.part_replaced data) in
  let user := safe_str (ServiceActivity.py_or (ServiceActivity.user data)
                          (VStr "default_user")) in
  let q' := Some (Z.max 0 (default 0 (InventoryRow.quantity r) - 1)) in
  part <> "" ->
  -9223372036854775808 <= safe_int (ServiceActivity.quantity data) <= 0 ->
  inventory_items (db w) = pre ++ r :: post ->
  (forall x, In x pre -> inv_match part user x = false) ->
  inv_match part user r = true ->
  (forall q, InventoryRow.quantity r = Some q ->
     -9223372036854775808 <= q <= 9223372036854775807) ->
  inventory_items (db (ServiceActivity.create data w)) !! length pre
    = Some (InventoryRow.set_quantity q' r) /\
  inventory_items (db (ServiceActivity.create data w))
    = map (fun x => if inv_match part user x then InventoryRow.set_quantity q' x else x)
          (inventory_items (db w)) /\
  ((forall x, In x post -> inv_match part user x = false) ->
   inventory_items (db (ServiceActivity.create data w))
     = pre ++ InventoryRow.set_quantity q' r :: post).
Proof.
  intros part user q' Hpart Hqty Hinv Hpre Hr _.
  assert (Hstep : inventory_items (db (ServiceActivity.create data w))
    = map (fun x => if inv_match part user x then InventoryRow.set_quantity q' x else x)
          (inventory_items (db w))).
  { create_cases data w; [|apply in_int64_false in Hrange; lia].
    unfold ServiceActivity.create_inventory. cbn [db set_db emit].
    fold part user.
    destruct (String.eqb_spec part "") as [He|_]; [contradiction|]. cbn [negb].
    cbn [inventory_items]. rewrite Hinv, (find_app_first _ pre post r Hpre Hr).
    replace (negb (safe_int (ServiceActivity.quantity data) =? 0)
             && (0 <? safe_int (ServiceActivity.quantity data))) with false
      by (symmetry; apply andb_false_iff; right; apply Z.ltb_ge; lia).
    unfold update_quantity_where, set_inventory_items. cbn [inventory_items].
    apply map_ext. intros x. destruct (inv_match part user x); [|reflexivity].
    f_equal. subst q'. destruct (InventoryRow.quantity r) as [q|]; [|reflexivity].
    cbn [default]. destruct (Z.eqb_spec q 0) as [->|_]; reflexivity. }
  split; [|split; [exact Hstep|]].
  - rewrite Hstep, Hinv, lookup_map_middle. now rewrite Hr.
  - intros Hpost. rewrite Hstep, Hinv, map_app. cbn [map]. rewrite Hr.
    rewrite (map_if_none _ _ pre Hpre), (map_if_none _ _ post Hpost). reflexivity.
Qed.

Lemma create_non_positive_quantity_uses_one_witness :
  let w := initial_world (x1_inventory 10 "alice") in
  let w' := ServiceActivity.create (uses "X1" (VStr "-2") "alice") w in
  quantities w = [Some 10] /\ quantities w' = [Some 9].
Proof.
  pose proof (create_non_positive_quantity_uses_one
    (uses "X1" (VStr "-2") "alice") (initial_world (x1_inventory 10 "alice"))
    [] [] (InventoryRow.mk 1 (Some "X1") (Some 10) (Some "Van") (Some "M1")
             (Some "Fuser") (Some "2024-01-01") (Some "") (Some "") "alice")) as H.
  cbv zeta in H.
  destruct H as (_ & H & _).
  - discriminate.
  - vm_compute. split; discriminate.
  - reflexivity.
  - intros x [].
  - reflexivity.
  - intros q Hq. injection Hq as <-. lia.
  - cbv zeta. unfold quantities. rewrite H. split; reflexivity.
Defined.

(** Two rows of the part "X1", entered one after the other with 10 and 50
    units. *)
Definition x1_twice : world :=
  let row (q : Z) :=
    InventoryItem.mk_kwargs (VStr "X1") (VInt q) (VStr "Van") VNone VNone VNone VNone
      VNone (Some (VStr "default_user")) in
  InventoryItem.create (row 50) (InventoryItem.create (row 10) (initial_world empty_database)).

(** C9 as stated fails where two rows carry the part: a call entered with
    the quantity 0 takes the unit from the first row, 10 becoming 9, and the
    UPDATE writes that 9 into the second row too, which does not go from 50
    to 49.  It also fails for a negative quantity below the 64-bit range,
    the text of a form field as it is: the INSERT raises, and the row of
    the part keeps its 10. *)
Lemma create_non_positive_quantity_second_row :
  let w' := ServiceActivity.create (uses "X1" (VInt 0) "default_user") x1_twice in
  let w := initial_world (x1_inventory 10 "default_user") in
  let low := uses "X1" (VStr "-9223372036854775809") "default_user" in
  (quantities x1_twice = [Some 10; Some 50] /\
   quantities w' = [Some 9; Some 9] /\
   quantities w' <> [Some 9; Some 49]) /\
  (safe_int (ServiceActivity.quantity low) < 0 /\
   ServiceActivity.create_outcome low w = (Raise OverflowError, w) /\
   quantities (ServiceActivity.create low w) = [Some 10]).
Proof. vm_compute. repeat split; discriminate. Qed.

(** C10: [update] on an object whose id is in no row of [service_activity]
    returns at once: no table changes and no signal is emitted. *)
Theorem update_unknown_id
    (i : Z) (attrs : ServiceActivity.fields) (w : world) :
  (forall r, In r (service_activity (db w)) -> ServiceRow.id r <> i) ->
  ServiceActivity.update (ServiceActivity.mk (Some i) attrs) w = w.
Proof.
  intros Habsent. unfold ServiceActivity.update, ServiceActivity.update_outcome.
  cbv zeta. cbn [ServiceActivity.id].
  destruct (find _ (service_activity (db w))) as [r|] eqn:Hfind; [|reflexivity].
  apply find_some in Hfind as [Hin Hid]. cbn in Hid.
  apply Z.eqb_eq in Hid. now apply Habsent in Hin.
Qed.

Lemma update_unknown_id_witness :
  let w := ServiceActivity.create (uses "X1" (VInt 3) "alice")
             (initial_world (x1_inventory 10 "alice")) in
  ServiceActivity.update (ServiceActivity.mk (Some 42) (uses "X1" (VInt 9) "alice")) w = w.
Proof.
  cbv zeta. apply update_unknown_id.
  intros r [<-|[]]. discriminate.
Defined.

(** An object without an id matches no row either. *)
Lemma update_no_id (attrs : ServiceActivity.fields) (w : world) :
  ServiceActivity.update (ServiceActivity.mk None attrs) w = w.
Proof.
  unfold ServiceActivity.update, ServiceActivity.update_outcome. cbv zeta.
  cbn [ServiceActivity.id ServiceActivity.id_match].
  destruct (find _ (service_activity (db w))) as [r|] eqn:Hfind; [|reflexivity].
  apply find_some in Hfind as [_ Hid]. discriminate.
Qed.

(** *** The quantity invariant *)

(** A quantity that is present and not negative. *)
Definition nonneg (q : option Z) : Prop := exists z, q = Some z /\ 0 <= z.

(** Row by row, a quantity that was non-negative in [d] still is in [d']. *)
Definition keeps_nonneg (d d' : database) : Prop :=
  Forall2 (fun r r' => nonneg (InventoryRow.quantity r) -> nonneg (InventoryRow.quantity r'))
          (inventory_items d) (inventory_items d').

Lemma keeps_nonneg_refl (d : database) : keeps_nonneg d d.
Proof.
  unfold keeps_nonneg. induction (inventory_items d); constructor; auto.
Qed.

Lemma keeps_nonneg_same_items (d d' : database) :
  inventory_items d = inventory_items d' -> keeps_nonneg d d'.
Proof.
  unfold keeps_nonneg. intros <-. induction (inventory_items d); constructor; auto.
Qed.

Lemma keeps_nonneg_trans (d1 d2 d3 : database) :
  keeps_nonneg d1 d2 -> keeps_nonneg d2 d3 -> keeps_nonneg d1 d3.
Proof.
  unfold keeps_nonneg. generalize (inventory_items d1) (inventory_items d2)
    (inventory_items d3). intros l1 l2 l3 H12. revert l3.
  induction H12 as [|a b l1 l2 Hab _ IH]; intros l3 H23; inversion H23; subst;
    constructor; auto.
Qed.

Lemma update_quantity_where_keeps_nonneg
    (f : option Z -> option Z) (part user : string) (d : database) :
  (forall q, nonneg q -> nonneg (f q)) ->
  keeps_nonneg d (update_quantity_where f part user d).
Proof.
  intros Hf. unfold keeps_nonneg, update_quantity_where, set_inventory_items.
  cbn [inventory_items]. induction (inventory_items d) as [|r l IH]; simpl;
    constructor; auto.
  destruct (inv_match part user r); [apply Hf | auto].
Qed.

Lemma sql_minus_clamped_nonneg (n : Z) (q : option Z) :
  nonneg q -> nonneg (sql_minus_clamped n q).
Proof. intros [z [-> _]]. exists (Z.max (z - n) 0). split; [reflexivity | lia]. Qed.

Lemma sql_plus_nonneg (n : Z) (q : option Z) :
  0 <= n -> nonneg q -> nonneg (sql_plus n q).
Proof. intros Hn [z [-> Hz]]. exists (z + n). split; [reflexivity | lia]. Qed.

(** X16: [create] keeps every non-negative quantity non-negative, whatever the
    quantity stated. *)
Lemma create_keeps_nonneg (data : ServiceActivity.fields) (w : world) :
  keeps_nonneg (db w) (db (ServiceActivity.create data w)).
Proof.
  create_cases data w; [|apply keeps_nonneg_refl].
  unfold ServiceActivity.create_inventory. cbn [db set_db emit].
  destruct (negb _); [|now apply keeps_nonneg_same_items].
  cbn [inventory_items].
  destruct (find _ (inventory_items (db w))); [|now apply keeps_nonneg_same_items].
  match goal with |- keeps_nonneg _ (update_quantity_where ?f ?p ?u ?d) =>
    apply (keeps_nonneg_trans _ d); [now apply keeps_nonneg_same_items |
      apply update_quantity_where_keeps_nonneg] end.
  intros q _. eexists. split; [reflexivity | lia].
Qed.

(** The inventory step of [update] keeps the invariant when the quantity
    recorded in the old row is not negative. *)
Lemma update_inventory_keeps_nonneg
    (old_part new_part user : string) (old_qty new_qty : Z) (d : database) :
  0 <= old_qty ->
  keeps_nonneg d (ServiceActivity.update_inventory old_part new_part user old_qty new_qty d).
Proof.
  intros Hold.
  assert (Hminus : forall n p u d0,
            keeps_nonneg d0 (update_quantity_where (sql_minus_clamped n) p u d0)).
  { intros. apply update_quantity_where_keeps_nonneg. intros.
    now apply sql_minus_clamped_nonneg. }
  assert (Hplus : forall n p u d0, 0 <= n ->
            keeps_nonneg d0 (update_quantity_where (sql_plus n) p u d0)).
  { intros. apply update_quantity_where_keeps_nonneg. intros.
    now apply sql_plus_nonneg. }
  unfold ServiceActivity.update_inventory. cbv zeta.
  destruct (negb (String.eqb old_part "") && negb (String.eqb old_part new_part)).
  { destruct (in_int64 old_qty); [|apply keeps_nonneg_refl].
    destruct (negb (String.eqb new_part "")); [|now apply Hplus].
    destruct (in_int64 new_qty); [|now apply Hplus].
    eapply keeps_nonneg_trans; [apply (Hplus old_qty old_part user d Hold) | apply Hminus]. }
  destruct (String.eqb old_part new_part && negb (String.eqb new_part "")).
  { destruct (0 <? new_qty - old_qty).
    { destruct (in_int64 _); [apply Hminus | apply keeps_nonneg_refl]. }
    destruct (Z.ltb_spec (new_qty - old_qty) 0); [|apply keeps_nonneg_refl].
    destruct (in_int64 _); [apply Hplus; lia | apply keeps_nonneg_refl]. }
  destruct (negb (String.eqb old_part "") && String.eqb new_part "").
  { destruct (in_int64 old_qty); [now apply Hplus | apply keeps_nonneg_refl]. }
  destruct (String.eqb old_part "" && negb (String.eqb new_part ""));
    [|apply keeps_nonneg_refl].
  destruct (in_int64 new_qty); [apply Hminus | apply keeps_nonneg_refl].
Qed.

(** X17: [update] keeps the invariant when the row it replaces records a
    quantity that is not negative. *)
Lemma update_keeps_nonneg (self : ServiceActivity.t) (w : world) :
  (forall r, find (ServiceActivity.id_match (ServiceActivity.id self))
               (service_activity (db w)) = Some r ->
             0 <= safe_int (ServiceActivity.of_integer (ServiceRow.quantity r))) ->
  keeps_nonneg (db w) (db (ServiceActivity.update self w)).
Proof.
  intros Hold. unfold ServiceActivity.update, ServiceActivity.update_outcome. cbv zeta.
  destruct (find _ (service_activity (db w))) as [r|]; [|apply keeps_nonneg_refl].
  destruct (in_int64 _); cbn [snd]; [|apply keeps_nonneg_refl].
  cbn [db set_db emit].
  eapply keeps_nonneg_trans;
    [|apply update_inventory_keeps_nonneg; apply Hold; reflexivity].
  now apply keeps_nonneg_same_items.
Qed.

(** C2 at a service call whose recorded quantity is negative.  The form
    text "-5" is stored as -5 by [create] (which takes one unit, clamped:
    1 becomes 0); editing the call to remove the part then runs the first
    branch of [update] (an old part that differs from the new one), which
    adds the recorded -5 without a clamp: the inventory quantity ends at -5. *)
Theorem update_part_removed_goes_negative :
  let w0 := initial_world (x1_inventory 1 "default_user") in
  let w1 := ServiceActivity.create (uses "X1" (VStr "-5") "default_user") w0 in
  match ServiceActivity.get_by_id (Some 1) w1 with
  | Some item =>
      quantities w0 = [Some 1] /\
      quantities w1 = [Some 0] /\
      ServiceActivity.quantity (ServiceActivity.attrs item) = VInt (-5) /\
      quantities (ServiceActivity.update (edit "" (VInt 0) item) w1) = [Some (-5)]
  | None => False
  end.
Proof. vm_compute. repeat split. Qed.

(** Replacing the part by another one returns the recorded quantity the
    same way. *)
Example update_part_changed_goes_negative :
  let w0 := initial_world (x1_inventory 1 "default_user") in
  let w1 := ServiceActivity.create (uses "X1" (VStr "-5") "default_user") w0 in
  match ServiceActivity.get_by_id (Some 1) w1 with
  | Some item => quantities (ServiceActivity.update (edit "Y2" (VInt 1) item) w1) = [Some (-5)]
  | None => False
  end.
Proof. vm_compute. reflexivity. Qed.

(** *** Create, then delete *)

(** [_do_delete] restocks without naming the user, so [add_quantity]
    addresses the rows of "default_user".  The pages list and write the
    calls of the user that [get_current_user] returns, which is
    "default_user" itself, the getter reading a name that no code assigns;
    a call stored under another name, which the pages do not produce, would
    be deleted without its stock coming back. *)
Example create_then_delete_other_user :
  let w0 := initial_world (x1_inventory 10 "alice") in
  let w1 := ServiceActivity.create (uses "X1" (VInt 3) "alice") w0 in
  match ServiceActivity.get_by_id (Some 1) w1 with
  | Some item =>
      let w2 := ServiceActivityPage._do_delete true item w1 in
      ServiceActivity.user (ServiceActivity.attrs item) = VStr "alice" /\
      quantities w0 = [Some 10] /\
      quantities w1 = [Some 7] /\
      quantities w2 = [Some 7] /\
      service_activity (db w2) = []
  | None => False
  end.
Proof. vm_compute. repeat split. Qed.

(** For the user "default_user" the round trip restores the quantity. *)
Example create_then_delete_default_user :
  let w0 := initial_world (x1_inventory 10 "default_user") in
  let w1 := ServiceActivity.create (uses "X1" (VInt 3) "default_user") w0 in
  match ServiceActivity.get_by_id (Some 1) w1 with
  | Some item =>
      let w2 := ServiceActivityPage._do_delete true item w1 in
      quantities w1 = [Some 7] /\ quantities w2 = [Some 10] /\
      db w2 = mk_database (inventory_items (db w0)) 1 [] 1 [] 0
  | None => False
  end.
Proof. vm_compute. repeat split. Qed.

(** Answering No in the confirmation box changes nothing. *)
Lemma do_delete_declined (item : ServiceActivity.t) (w : world) :
  ServiceActivityPage._do_delete false item w = w.
Proof. reflexivity. Qed.

(** ** The duration of a call *)

Lemma try_patterns_None (ts : string) (ps : list (list directive)) :
  (forall p, In p ps -> strptime ts p = None) -> try_patterns ts ps = None.
Proof.
  induction ps as [|p ps IH]; intros H; simpl; [reflexivity|].
  rewrite (H p) by now left. apply IH. intros q Hq. apply H. now right.
Qed.

Lemma try_patterns_Some (ts : string) (ps : list (list directive)) (dt : datetime) :
  try_patterns ts ps = Some dt -> exists p, In p ps /\ strptime ts p = Some dt.
Proof.
  induction ps as [|p ps IH]; simpl; [discriminate|].
  destruct (strptime ts p) as [dt'|] eqn:Hp.
  - intros [= <-]. exists p. split; [now left | exact Hp].
  - intros H. destruct (IH H) as [q [Hq Hs]]. exists q. split; [now right | exact Hs].
Qed.

(** C4: from 9:00 AM to 5:30 PM of one day is "8hrs, 30mins"; and when
    the arrival strings or the departure strings match none of the three
    patterns, the answer is "0hr, 0min". *)
Theorem compute_duration_spec :
  compute_duration (VStr "2024-01-01") (VStr "9:00 AM")
                   (VStr "2024-01-01") (VStr "5:30 PM") = "8hrs, 30mins" /\
  forall arr_date arr_time dep_date dep_time : string,
    (forall p, In p patterns ->
       strptime (timestamp (VStr arr_date) (VStr arr_time)) p = None) \/
    (forall p, In p patterns ->
       strptime (timestamp (VStr dep_date) (VStr dep_time)) p = None) ->
    compute_duration (VStr arr_date) (VStr arr_time) (VStr dep_date) (VStr dep_time)
      = "0hr, 0min".
Proof.
  split; [vm_compute; reflexivity|].
  intros arr_date arr_time dep_date dep_time H.
  unfold compute_duration, parse.
  destruct H as [H|H]; rewrite (try_patterns_None _ _ H).
  - reflexivity.
  - now destruct (try_patterns _ patterns).
Qed.

Lemma compute_duration_spec_witness :
  compute_duration (VStr "2024-01-01") (VStr "9:00 AM")
                   (VStr "2024-13-01") (VStr "5:30 PM") = "0hr, 0min".
Proof.
  apply (proj2 compute_duration_spec). right.
  intros p [<-|[<-|[<-|[]]]]; reflexivity.
Defined.

(** ** The inventory importer *)

Lemma mem_In (h : string) (headers : list string) :
  InventoryImporter.mem h headers = true <-> In h headers.
Proof.
  unfold InventoryImporter.mem. rewrite existsb_exists. split.
  - intros [x [Hx Heq]]. apply String.eqb_eq in Heq. now subst.
  - intros H. exists h. split; [exact H | apply String.eqb_refl].
Qed.

Lemma missing_headers_In (headers : list string) (h : string) :
  In h (InventoryImporter.missing_headers headers) <->
  In h InventoryImporter.REQUIRED_HEADERS /\ ~ In h headers.
Proof.
  unfold InventoryImporter.missing_headers. rewrite filter_In, negb_true_iff.
  split; intros [Hreq H]; (split; [exact Hreq|]).
  - intros Hin. apply mem_In in Hin. congruence.
  - destruct (InventoryImporter.mem h headers) eqn:E; [|reflexivity].
    apply mem_In in E. contradiction.
Qed.

(** C6: when the header row lacks a required header, the importer returns
    0 and the missing required headers (those of [REQUIRED_HEADERS] that are
    not among the normalised headers, in the order of [REQUIRED_HEADERS]),
    and the world, the database with it, is as before the call. *)
Theorem import_missing_header
    (ws : InventoryImporter.worksheet) (user : Py.value) (w : world) :
  (exists h, In h InventoryImporter.REQUIRED_HEADERS /\
             ~ In h (InventoryImporter.headers_of ws)) ->
  let missing := InventoryImporter.missing_headers (InventoryImporter.headers_of ws) in
  InventoryImporter.import_inventory_from_excel ws user w = (Return (0, missing), w) /\
  missing <> [] /\
  (forall h, In h missing <->
     In h InventoryImporter.REQUIRED_HEADERS /\ ~ In h (InventoryImporter.headers_of ws)) /\
  missing = List.filter (fun h => negb (InventoryImporter.mem h (InventoryImporter.headers_of ws)))
              InventoryImporter.REQUIRED_HEADERS.
Proof.
  intros [h Hh]. cbv zeta. apply missing_headers_In in Hh.
  split; [|split; [|split]].
  - unfold InventoryImporter.import_inventory_from_excel.
    destruct (InventoryImporter.missing_headers _); [destruct Hh | reflexivity].
  - intros E. rewrite E in Hh. destruct Hh.
  - intros h'. apply missing_headers_In.
  - reflexivity.
Qed.

(** A sheet with every required header but "qty" (the case and the outer
    blanks of a header do not matter) and one data row. *)
Definition sheet_without_qty : InventoryImporter.worksheet :=
  InventoryImporter.mk_worksheet
    [ VStr "Part Number"; VStr " Part Location "; VStr "MODEL"; VStr "Part Description";
      VStr "Quarterly Inventory Verification Date"; VStr "Days Since Last Verification";
      VStr "Notes"; VStr "Today's Date" ]
    [ [ VStr "X1"; VStr "Van"; VStr "M1"; VStr "Fuser"; VNone; VNone; VNone; VNone ] ].

Lemma import_missing_header_witness :
  InventoryImporter.import_inventory_from_excel sheet_without_qty (VStr "alice")
    (initial_world empty_database)
  = (Return (0, ["qty"]), initial_world empty_database).
Proof.
  refine (proj1 (import_missing_header sheet_without_qty (VStr "alice")
                   (initial_world empty_database) _)).
  exists "qty". split.
  - right; left; reflexivity.
  - vm_compute. intros H. repeat (destruct H as [H|H]; [discriminate H|]). exact H.
Defined.

(** With every required header present the rows are inserted, blank rows
    skipped. *)
Example import_complete_sheet :
  let ws := InventoryImporter.mk_worksheet
    [ VStr "Part Number"; VStr "QTY"; VStr "Part Location"; VStr "Model";
      VStr "Part Description"; VStr "Quarterly Inventory Verification Date";
      VStr "Days Since Last Verification"; VStr "Notes"; VStr "Today's Date" ]
    [ [ VStr "X1"; VInt 10; VStr "Van"; VStr "M1"; VStr "Fuser";
        VDateTime (mk_datetime 2024 1 5 0 0 0); VNone; VNone; VNone ];
      [ VNone; VNone; VNone; VNone; VNone; VNone; VNone; VNone; VNone ];
      [ VStr "Y2"; VStr "abc"; VNone; VNone; VNone; VNone; VNone; VNone; VNone ] ] in
  let '(r, w) := InventoryImporter.import_inventory_from_excel ws (VStr "alice")
                   (initial_world empty_database) in
  r = Return (2, []) /\
  map (fun x => (InventoryRow.part_number x, InventoryRow.quantity x,
                 InventoryRow.quarterly_inventory_verification_date x, InventoryRow.user x))
      (inventory_items (db w))
  = [ (Some "X1", Some 10, Some "2024-01-05", "alice");
      (Some "Y2", Some 0, Some "", "alice") ].
Proof. vm_compute. repeat split. Qed.

(** A quantity that SQLite cannot bind ends the import with the exception of
    that row: the rows before it are in the table, those after it are not. *)
Example import_sheet_quantity_out_of_range :
  let ws := InventoryImporter.mk_worksheet
    [ VStr "Part Number"; VStr "QTY"; VStr "Part Location"; VStr "Model";
      VStr "Part Description"; VStr "Quarterly Inventory Verification Date";
      VStr "Days Since Last Verification"; VStr "Notes"; VStr "Today's Date" ]
    [ [ VStr "X1"; VInt 10; VNone; VNone; VNone; VNone; VNone; VNone; VNone ];
      [ VStr "Y2"; VInt 9223372036854775808; VNone; VNone; VNone; VNone; VNone; VNone;
        VNone ];
      [ VStr "Z3"; VInt 1; VNone; VNone; VNone; VNone; VNone; VNone; VNone ] ] in
  let '(r, w) := InventoryImporter.import_inventory_from_excel ws (VStr "alice")
                   (initial_world empty_database) in
  r = Raise OverflowError /\
  map InventoryRow.part_number (inventory_items (db w)) = [Some "X1"].
Proof. vm_compute. repeat split. Qed.

(** ** The allow-list filter proxy *)

Section ColumnFilter.
Import ColumnFilterProxy.

Lemma passes_true (cols : list string) (it : item) (col_name : string)
    (allowed : gset string) :
  passes cols it (col_name, allowed) = true <->
  (allowed <> ∅ -> col_name ∈ cols -> sval it col_name ∈ allowed).
Proof.
  unfold passes. repeat case_bool_decide; simpl; split; intros; auto; try tauto; try done.
Qed.

Lemma loop_true (cols : list string) (it : item) (f : gmap string (gset string)) :
  forallb (passes cols it) (map_to_list f) = true <->
  (forall col_name allowed, f !! col_name = Some allowed ->
     allowed <> ∅ -> col_name ∈ cols -> sval it col_name ∈ allowed).
Proof.
  rewrite forallb_forall. split.
  - intros H col_name allowed Hlook. apply passes_true, H.
    apply list_elem_of_In, elem_of_map_to_list. exact Hlook.
  - intros H [col_name allowed] Hin. apply passes_true.
    apply list_elem_of_In, elem_of_map_to_list in Hin. now apply H.
Qed.

(** Five rows: three of model "A", two of model "B". *)
Definition model_row (part model : string) : item :=
  {[ "part_number" := VStr part; "model" := VStr model; "quantity" := VInt 1 ]}.

Definition five_rows : list item :=
  [ model_row "P1" "A"; model_row "P2" "B"; model_row "P3" "A";
    model_row "P4" "B"; model_row "P5" "A" ].

Definition model_A : gmap string (gset string) := {[ "model" := {[ "A" ]} ]}.

Definition five_row_proxy : t :=
  mk model_A ["part_number"; "quantity"; "model"] (Some five_rows).

(** C5, as the code has it: a source row is accepted if and only if every
    filtered column that the proxy lists in [columns] and whose allow-set
    is not empty has the stringified attribute of the row in its allow-set;
    an empty allow-set constrains nothing.  With the filter
    {"model": {"A"}} on the five rows, "model" being a column of the proxy,
    exactly the three rows of model "A" are exposed, and with the filters
    cleared all five are. *)
Theorem filterAcceptsRow_spec :
  (forall (p : t) (items : list item) (row : nat) (it : item),
     source_items p = Some items ->
     items !! row = Some it ->
     (filterAcceptsRow p (Z.of_nat row) = true <->
      forall col_name allowed,
        filters p !! col_name = Some allowed ->
        allowed <> ∅ -> col_name ∈ columns p -> sval it col_name ∈ allowed)) /\
  exposed_rows five_row_proxy = [0; 2; 4] /\
  length (exposed_rows five_row_proxy) = 3%nat /\
  exposed_rows (set_filters ∅ five_row_proxy) = [0; 1; 2; 3; 4] /\
  exposed_rows (set_filters {[ "model" := ∅ ]} five_row_proxy) = [0; 1; 2; 3; 4].
Proof.
  split; [|repeat split; vm_compute; reflexivity].
  intros p items row it Hsrc Hrow. unfold filterAcceptsRow. rewrite Hsrc.
  assert (Hlt : (row < length items)%nat) by (eapply lookup_lt_Some; exact Hrow).
  replace ((Z.of_nat row <? 0) || (Z.of_nat (length items) <=? Z.of_nat row)) with false
    by (symmetry; apply orb_false_iff; split; [apply Z.ltb_ge | apply Z.leb_gt]; lia).
  rewrite Nat2Z.id, Hrow. apply loop_true.
Qed.

Lemma filterAcceptsRow_spec_witness :
  filterAcceptsRow five_row_proxy 0 = true.
Proof.
  apply (proj1 filterAcceptsRow_spec five_row_proxy five_rows 0%nat
           (model_row "P1" "A") eq_refl eq_refl).
  intros col_name allowed Hlook _ _.
  change (filters five_row_proxy) with model_A in Hlook. unfold model_A in Hlook.
  apply lookup_singleton_Some in Hlook as [<- <-].
  apply elem_of_singleton. vm_compute. reflexivity.
Defined.

(** A proxy whose [columns] do not list "model". *)
Definition unlisted_column_proxy : t :=
  mk model_A ["part_number"; "quantity"] (Some [model_row "P2" "B"]).

(** C5, as stated, fails: the filter {"model": {"A"}} does not hide a row
    of model "B" when "model" is not among the proxy's columns; the row is
    accepted although one filtered column with a non-empty allow-set does
    not hold its value. *)
Lemma filterAcceptsRow_unlisted_column :
  filterAcceptsRow unlisted_column_proxy 0 = true /\
  ~ (forall col_name allowed,
       filters unlisted_column_proxy !! col_name = Some allowed ->
       allowed <> ∅ -> sval (model_row "P2" "B") col_name ∈ allowed).
Proof.
  split; [vm_compute; reflexivity|].
  intros H. specialize (H "model" {[ "A" ]}).
  assert (Hval : sval (model_row "P2" "B") "model" = "B") by (vm_compute; reflexivity).
  rewrite Hval, elem_of_singleton in H.
  discriminate H.
  - change (filters unlisted_column_proxy) with model_A. apply lookup_singleton_eq.
  - apply non_empty_singleton_L.
Qed.

(** A row outside the list, and any row of a source model without [items],
    is accepted. *)
Lemma filterAcceptsRow_out_of_range (p : t) (items : list item) (source_row : Z) :
  source_items p = Some items ->
  source_row < 0 \/ Z.of_nat (length items) <= source_row ->
  filterAcceptsRow p source_row = true.
Proof.
  intros Hsrc Hrange. unfold filterAcceptsRow. rewrite Hsrc.
  replace ((source_row <? 0) || (Z.of_nat (length items) <=? source_row)) with true;
    [reflexivity|].
  symmetry. apply orb_true_iff.
  destruct Hrange; [left; apply Z.ltb_lt | right; apply Z.leb_le]; lia.
Qed.

Lemma filterAcceptsRow_no_items (p : t) (source_row : Z) :
  source_items p = None -> filterAcceptsRow p source_row = true.
Proof. intros Hsrc. unfold filterAcceptsRow. now rewrite Hsrc. Qed.

End ColumnFilter.

(** ** Normalisation of values *)

Lemma rstrip_idempotent (s : string) : rstrip (rstrip s) = rstrip s.
Proof.
  induction s as [|c s IH]; [reflexivity|]. simpl.
  destruct (rstrip s) as [|a r] eqn:E.
  - destruct (is_space c) eqn:Ec; simpl; [reflexivity | now rewrite Ec].
  - change (rstrip (String c (String a r)))
      with (match rstrip (String a r) with
            | EmptyString => if is_space c then EmptyString else String c EmptyString
            | r0 => String c r0 end).
    now rewrite IH.
Qed.

Lemma lstrip_head (s : string) :
  lstrip s = EmptyString \/ exists c s', lstrip s = String c s' /\ is_space c = false.
Proof.
  induction s as [|c s IH]; [now left|]. simpl.
  destruct (is_space c) eqn:Ec; [exact IH | right; eauto].
Qed.

Lemma lstrip_rstrip_lstrip (s : string) : lstrip (rstrip (lstrip s)) = rstrip (lstrip s).
Proof.
  destruct (lstrip_head s) as [->|[c [s' [-> Hc]]]]; [reflexivity|].
  simpl. destruct (rstrip s'); simpl; rewrite ?Hc; simpl; rewrite ?Hc; reflexivity.
Qed.

Lemma strip_idempotent (s : string) : strip (strip s) = strip s.
Proof. unfold strip. now rewrite lstrip_rstrip_lstrip, rstrip_idempotent. Qed.

Lemma safe_str_twice (v : Py.value) : safe_str (VStr (safe_str v)) = safe_str v.
Proof. destruct v; simpl; try reflexivity; apply strip_idempotent. Qed.

(** X1: [safe_str] is idempotent: a value that went through it once, as every
    column written by [create] and [update] did, is left as it is by the
    [safe_str] of [__init__] when the row is read back. *)
Theorem safe_str_idempotent (v : Py.value) :
  safe_str (VStr (safe_str v)) = safe_str v.
Proof. destruct v; simpl; try reflexivity; apply strip_idempotent. Qed.

(** *** Printing an integer and reading it back *)

(** The value of a decimal numeral, most significant digit first. *)
Fixpoint uint_value (d : Decimal.uint) (acc : Z) : Z :=
  match d with
  | Decimal.Nil => acc
  | Decimal.D0 d => uint_value d (10 * acc)
  | Decimal.D1 d => uint_value d (10 * acc + 1)
  | Decimal.D2 d => uint_value d (10 * acc + 2)
  | Decimal.D3 d => uint_value d (10 * acc + 3)
  | Decimal.D4 d => uint_value d (10 * acc + 4)
  | Decimal.D5 d => uint_value d (10 * acc + 5)
  | Decimal.D6 d => uint_value d (10 * acc + 6)
  | Decimal.D7 d => uint_value d (10 * acc + 7)
  | Decimal.D8 d => uint_value d (10 * acc + 8)
  | Decimal.D9 d => uint_value d (10 * acc + 9)
  end.

Lemma int_digits_string_of_uint (d : Decimal.uint) (acc : Z) :
  int_digits (NilEmpty.string_of_uint d) acc true = Some (uint_value d acc).
Proof.
  revert acc. induction d; intros acc; [reflexivity|..];
    cbn [NilEmpty.string_of_uint int_digits uint_value];
    match goal with |- context [is_digit ?c] =>
      change (is_digit c) with true; cbv iota end;
    rewrite IHd; do 2 f_equal; unfold digit_val; cbn; lia.
Qed.

Lemma uint_value_of_uint_acc (d : Decimal.uint) (acc : positive) :
  uint_value d (Z.pos acc) = Z.pos (Pos.of_uint_acc d acc).
Proof.
  revert acc. induction d; intros acc; [reflexivity|..];
    cbn [uint_value Pos.of_uint_acc];
    match goal with
    | |- uint_value _ ?z = _ =>
        match goal with |- _ = Z.pos (Pos.of_uint_acc _ ?p) =>
          replace z with (Z.pos p) by lia end
    end; apply IHd.
Qed.

Lemma uint_value_of_uint (d : Decimal.uint) :
  uint_value d 0 = Z.of_N (Pos.of_uint d).
Proof.
  induction d; [reflexivity|..]; cbn [uint_value Pos.of_uint];
    try (rewrite Z.mul_0_r; exact IHd);
    rewrite Z.mul_0_r, Z.add_0_l;
    match goal with |- uint_value _ ?k = _ =>
      change k with (Z.pos (Z.to_pos k)) end;
    rewrite uint_value_of_uint_acc; reflexivity.
Qed.

(** A numeral printed by [str] has no blank to strip and no sign. *)
Definition all_digits (s : string) : bool := forallb is_digit (list_ascii_of_string s).

Lemma string_of_uint_all_digits (d : Decimal.uint) :
  all_digits (NilEmpty.string_of_uint d) = true.
Proof. unfold all_digits. induction d; simpl; auto. Qed.

Lemma is_digit_not_int_space (c : ascii) : is_digit c = true -> is_int_space c = false.
Proof.
  unfold is_digit, is_int_space. intros H.
  apply andb_true_iff in H as [H1 H2].
  apply N.leb_le in H1. apply N.leb_le in H2.
  repeat (apply orb_false_iff; split);
    try (apply andb_false_iff; first [left; apply N.leb_gt; lia | right; apply N.leb_gt; lia]);
    apply N.eqb_neq; lia.
Qed.

Lemma int_rstrip_all_digits (s : string) : all_digits s = true -> int_rstrip s = s.
Proof.
  unfold all_digits. induction s as [|c s IH]; [reflexivity|]. simpl.
  intros H. apply andb_true_iff in H as [Hc Hs].
  rewrite (IH Hs). destruct s; [now rewrite (is_digit_not_int_space c Hc) | reflexivity].
Qed.

Lemma int_strip_all_digits (s : string) :
  all_digits s = true -> int_rstrip (int_lstrip s) = s.
Proof.
  intros H.
  replace (int_lstrip s) with s; [now apply int_rstrip_all_digits|].
  destruct s as [|c s]; [reflexivity|]. simpl.
  unfold all_digits in H. simpl in H. apply andb_true_iff in H as [Hc _].
  now rewrite (is_digit_not_int_space c Hc).
Qed.

Lemma count_digits_length (s : string) : (count_digits s <= String.length s)%nat.
Proof.
  induction s as [|c s IH]; cbn [count_digits String.length]; [lia|].
  destruct (is_digit c); lia.
Qed.

Lemma int_literal_short (r : string) :
  (String.length r <= 4300)%nat -> int_literal r = int_digits r 0 false.
Proof.
  intros H. unfold int_literal, max_str_digits.
  pose proof (count_digits_length r).
  destruct (Nat.ltb_spec 4300 (count_digits r)); [lia | reflexivity].
Qed.

Lemma int_of_str_digits (d : Decimal.uint) :
  d <> Decimal.Nil ->
  (String.length (NilEmpty.string_of_uint d) <= 4300)%nat ->
  int_of_str (NilEmpty.string_of_uint d) = Some (uint_value d 0).
Proof.
  intros Hd Hlen. unfold int_of_str.
  rewrite (int_strip_all_digits _ (string_of_uint_all_digits d)).
  assert (Hlit : int_literal (NilEmpty.string_of_uint d) = Some (uint_value d 0)).
  { rewrite (int_literal_short _ Hlen).
    destruct d; [contradiction|..];
      (etransitivity; [|apply int_digits_string_of_uint]); reflexivity. }
  destruct d; [contradiction|..]; exact Hlit.
Qed.

Lemma to_uint_not_Nil (p : positive) : Pos.to_uint p <> Decimal.Nil.
Proof.
  intros H. pose proof (DecimalPos.Unsigned.of_to p) as Hof.
  rewrite H in Hof. discriminate Hof.
Qed.

Lemma string_of_uint_not_Nil (d : Decimal.uint) :
  d <> Decimal.Nil -> NilZero.string_of_uint d = NilEmpty.string_of_uint d.
Proof. now destruct d. Qed.

(** X2: Reading back the text of an integer gives the integer, for an integer
    of at most 4300 digits, the size up to which CPython converts between
    [int] and [str]: the form shows [str(item.quantity)] and [safe_int]
    recovers the quantity from that text. *)
Theorem safe_int_of_str (z : Z) :
  (String.length (str (VInt (Z.abs z))) <= 4300)%nat ->
  safe_int (VStr (str (VInt z))) = z.
Proof.
  unfold safe_int, int, str, str_int. intros Hlen'.
  destruct z as [|p|p]; [reflexivity|..];
    (assert (Hlen : (String.length (NilEmpty.string_of_uint (Pos.to_uint p)) <= 4300)%nat)
       by (rewrite <- (string_of_uint_not_Nil _ (to_uint_not_Nil p)); exact Hlen'));
    clear Hlen'; cbn [Z.to_int NilZero.string_of_int];
    rewrite (string_of_uint_not_Nil _ (to_uint_not_Nil p)).
  - rewrite (int_of_str_digits _ (to_uint_not_Nil p) Hlen), uint_value_of_uint.
    now rewrite DecimalPos.Unsigned.of_to.
  - unfold int_of_str.
    assert (Hs : int_rstrip (int_lstrip (String "-" (NilEmpty.string_of_uint (Pos.to_uint p))))
                 = String "-" (NilEmpty.string_of_uint (Pos.to_uint p))).
    { cbn [int_lstrip]. change (is_int_space "-") with false. cbv iota.
      cbn [int_rstrip]. rewrite (int_rstrip_all_digits _ (string_of_uint_all_digits _)).
      pose proof (to_uint_not_Nil p).
      destruct (Pos.to_uint p); [contradiction|..]; reflexivity. }
    rewrite Hs. cbv iota beta.
    rewrite (int_literal_short _ Hlen).
    assert (Hd' : int_digits (NilEmpty.string_of_uint (Pos.to_uint p)) 0 false
                  = Some (uint_value (Pos.to_uint p) 0)).
    { pose proof (to_uint_not_Nil p) as Hn.
      destruct (Pos.to_uint p); [contradiction|..];
        (etransitivity; [|apply int_digits_string_of_uint]); reflexivity. }
    rewrite Hd', uint_value_of_uint, DecimalPos.Unsigned.of_to. reflexivity.
Qed.

Lemma safe_int_of_str_witness :
  safe_int (VStr (str (VInt (-9223372036854775808)))) = -9223372036854775808.
Proof. apply safe_int_of_str. vm_compute. lia. Defined.

(** ** Dates, times and durations *)

(** A moment that the [datetime] constructor accepts. *)
Definition valid_datetime (dt : datetime) : Prop :=
  1 <= year dt <= 9999 /\ 1 <= month dt <= 12 /\
  1 <= day dt <= days_in_month (year dt) (month dt) /\
  0 <= hour dt <= 23 /\ 0 <= minute dt <= 59 /\ 0 <= second dt <= 59.

Section Matchers.

(** Every result of a matcher satisfies [P]. *)
Definition yields {A} (P : A -> Prop) (m : matcher A) : Prop :=
  forall s a r, In (a, r) (m s) -> P a.

Lemma yields_ret {A} (P : A -> Prop) (a : A) : P a -> yields P (Strptime.ret a).
Proof. intros Ha s a' r [[= <- _]|[]]. exact Ha. Qed.

Lemma yields_bind {A B} (P : A -> Prop) (Q : B -> Prop) (m : matcher A)
    (f : A -> matcher B) :
  yields P m -> (forall a, P a -> yields Q (f a)) -> yields Q (Strptime.bind m f).
Proof.
  intros Hm Hf s b r Hin. unfold Strptime.bind in Hin.
  apply in_flat_map in Hin as [[a r'] [Ha Hb]].
  exact (Hf a (Hm _ _ _ Ha) _ _ _ Hb).
Qed.

Lemma yields_alt {A} (P : A -> Prop) (p q : matcher A) :
  yields P p -> yields P q -> yields P (alt p q).
Proof.
  intros Hp Hq s a r Hin. unfold alt in Hin.
  apply in_app_or in Hin as [H|H]; [exact (Hp _ _ _ H) | exact (Hq _ _ _ H)].
Qed.

Lemma yields_weaken {A} (P Q : A -> Prop) (m : matcher A) :
  (forall a, P a -> Q a) -> yields P m -> yields Q m.
Proof. intros HPQ Hm s a r Hin. exact (HPQ _ (Hm _ _ _ Hin)). Qed.

Lemma yields_one (lo hi : Z) : yields (fun v => lo <= v <= hi) (one lo hi).
Proof.
  intros s a r Hin. unfold one in Hin. destruct s as [|c s]; [destruct Hin|].
  destruct (is_digit c && (lo <=? digit_val c) && (digit_val c <=? hi)) eqn:E;
    [|destruct Hin].
  destruct Hin as [[= <- _]|[]].
  apply andb_true_iff in E as [E E3]. apply andb_true_iff in E as [_ E2].
  apply Z.leb_le in E2. apply Z.leb_le in E3. lia.
Qed.

Lemma yields_two (a b c d : Z) :
  yields (fun v => 10 * a + c <= v <= 10 * b + d) (two a b c d).
Proof.
  unfold two. eapply yields_bind; [apply yields_one|]. intros x Hx.
  eapply yields_bind; [apply yields_one|]. intros y Hy.
  apply yields_ret. cbv beta in *. lia.
Qed.

Ltac range :=
  repeat first
    [ apply yields_alt
    | eapply yields_weaken; [|apply yields_two]; cbv beta; intros; lia
    | eapply yields_weaken; [|apply yields_one]; cbv beta; intros; lia ].

Lemma yields_re_H : yields (fun v => 0 <= v <= 23) re_H.
Proof. unfold re_H. range. Qed.

Lemma yields_re_I : yields (fun v => 1 <= v <= 12) re_I.
Proof. unfold re_I. range. Qed.

Lemma yields_re_M : yields (fun v => 0 <= v <= 59) re_M.
Proof. unfold re_M. range. Qed.

Lemma yields_re_S : yields (fun v => 0 <= v <= 61) re_S.
Proof. unfold re_S. range. Qed.

(** The time fields read so far are in the range of their directive. *)
Definition time_in_range (f : found) : Prop :=
  0 <= fH f <= 23 /\ (forall h, fI f = Some h -> 1 <= h <= 12) /\
  0 <= fM f <= 59 /\ 0 <= fS f <= 61.

Lemma yields_any {A} (m : matcher A) : yields (fun _ => True) m.
Proof. intros s a r _. exact I. Qed.

Lemma step_time_in_range (d : directive) (f : found) :
  time_in_range f -> yields time_in_range (step d f).
Proof.
  intros (HH & HI & HM & HS). destruct d; cbn [step].
  - eapply yields_bind; [apply yields_any|]. intros v _. now apply yields_ret.
  - eapply yields_bind; [apply yields_any|]. intros v _. now apply yields_ret.
  - eapply yields_bind; [apply yields_any|]. intros v _. now apply yields_ret.
  - eapply yields_bind; [apply yields_re_H|]. intros v Hv. now apply yields_ret.
  - eapply yields_bind; [apply yields_re_I|]. intros v Hv. apply yields_ret.
    unfold time_in_range; cbn. split; [lia|]. split; [|split; lia].
    intros h' [= <-]. cbv beta in Hv. lia.
  - eapply yields_bind; [apply yields_re_M|]. intros v Hv. now apply yields_ret.
  - eapply yields_bind; [apply yields_re_S|]. intros v Hv. now apply yields_ret.
  - eapply yields_bind; [apply yields_any|]. intros v _. now apply yields_ret.
  - eapply yields_bind; [apply yields_any|]. intros v _. now apply yields_ret.
  - eapply yields_bind; [apply yields_any|]. intros v _. now apply yields_ret.
Qed.

Lemma run_time_in_range (fmt : list directive) (f : found) :
  time_in_range f -> yields time_in_range (run fmt f).
Proof.
  revert f. induction fmt as [|d fmt IH]; intros f Hf; cbn [run].
  - now apply yields_ret.
  - eapply yields_bind; [now apply step_time_in_range | exact IH].
Qed.

End Matchers.

Lemma build_valid (f : found) (dt : datetime) :
  time_in_range f -> build f = Some dt -> valid_datetime dt.
Proof.
  intros (HH & HI & HM & HS). unfold build.
  destruct (_ && _) eqn:E; [|discriminate]. intros [= <-].
  repeat (apply andb_true_iff in E as [E ?]).
  repeat match goal with H : (_ <=? _) = true |- _ => apply Z.leb_le in H end.
  unfold valid_datetime. cbn [year month day hour minute second].
  repeat split; try lia; unfold hour_of;
    destruct (fI f) as [h|]; try lia;
    specialize (HI h eq_refl);
    destruct (fp f) as [[|]|]; destruct (Z.eqb_spec h 12); lia.
Qed.

Lemma strptime_valid (data : string) (fmt : list directive) (dt : datetime) :
  strptime data fmt = Some dt -> valid_datetime dt.
Proof.
  unfold strptime.
  destruct (run fmt start (list_ascii_of_string data)) as [|[f rest] l] eqn:E;
    [discriminate|].
  destruct rest; [|discriminate]. apply build_valid.
  assert (Hstart : time_in_range start).
  { unfold time_in_range, start. cbn. split; [lia|]. split; [|split; lia].
    intros h [=]. }
  apply (run_time_in_range fmt start Hstart (list_ascii_of_string data) f []).
  rewrite E. now left.
Qed.

(** X3: Whatever [parse] reads from two strings is a real moment: a day that
    exists in its month (leap years included), an hour below 24, a minute
    and a second below 60.  "2023-02-29", "24:00" or a second 60 are not
    read. *)
Theorem parse_valid_datetime (d t : string) (dt : datetime) :
  parse (VStr d) (VStr t) = Some dt -> valid_datetime dt.
Proof.
  unfold parse. intros H. apply try_patterns_Some in H as [p [_ Hp]].
  exact (strptime_valid _ _ _ Hp).
Qed.

Lemma parse_valid_datetime_witness :
  valid_datetime (mk_datetime 2024 2 29 17 30 0).
Proof.
  apply (parse_valid_datetime "2024-02-29" "5:30 pm"). vm_compute. reflexivity.
Defined.

(** X4: [combine_datetime] gives a real moment too, with the date of its first
    argument, the hour and minute of its second and no seconds; it is
    [None] exactly when [parse_date] or [parse_time] is. *)
Theorem combine_datetime_spec (date_str time_str : string) :
  match combine_datetime date_str time_str with
  | Some dt =>
      valid_datetime dt /\ second dt = 0 /\
      exists d t, parse_date date_str = Some d /\ parse_time time_str = Some t /\
        year dt = year d /\ month dt = month d /\ day dt = day d /\
        hour dt = hour t /\ minute dt = minute t
  | None => parse_date date_str = None \/ parse_time time_str = None
  end.
Proof.
  unfold combine_datetime.
  destruct (parse_date date_str) as [d|] eqn:Hd; [|now left].
  destruct (parse_time time_str) as [t|] eqn:Ht; [|now right].
  split; [|split; [reflexivity | exists d, t; repeat split; reflexivity]].
  assert (Vd : valid_datetime d).
  { unfold parse_date in Hd. destruct (String.eqb date_str ""); [discriminate|].
    exact (strptime_valid _ _ _ Hd). }
  assert (Vt : valid_datetime t).
  { unfold parse_time in Ht. destruct (String.eqb time_str ""); [discriminate|].
    exact (strptime_valid _ _ _ Ht). }
  unfold valid_datetime in *. cbn [year month day hour minute second]. lia.
Qed.

(** X5: [diff_hours_minutes] never gives a negative part: the minutes are in
    0..59, the hours are not negative, and together they are the whole
    minutes from the start to the end, or zero when the end is earlier or
    a moment is missing. *)
Theorem diff_hours_minutes_spec (dt_start dt_end : option datetime) :
  let '(h, m) := diff_hours_minutes dt_start dt_end in
  0 <= h /\ 0 <= m < 60 /\
  60 * h + m =
    match dt_start, dt_end with
    | Some s, Some e => Z.max 0 ((seconds_of e - seconds_of s) / 60)
    | _, _ => 0
    end.
Proof.
  unfold diff_hours_minutes.
  destruct dt_start as [s|], dt_end as [e|]; try (repeat split; lia).
  set (n := Z.max 0 ((seconds_of e - seconds_of s) / 60)).
  assert (0 <= n) by lia.
  pose proof (Z.div_mod n 60 ltac:(lia)).
  pose proof (Z.mod_pos_bound n 60 ltac:(lia)).
  pose proof (Z.div_pos n 60 ltac:(lia) ltac:(lia)).
  repeat split; lia.
Qed.

(** X6: A call that ends when it starts lasts "0hrs, 0mins", in the plural:
    the answer "0hr, 0min" is only given when a moment could not be read,
    so the two cases can be told apart. *)
Theorem compute_duration_same_moment (d t : Py.value) (dt : datetime) :
  parse d t = Some dt -> compute_duration d t d t = "0hrs, 0mins".
Proof.
  intros H. unfold compute_duration. rewrite H, Z.sub_diag. reflexivity.
Qed.

Lemma compute_duration_same_moment_witness :
  compute_duration (VStr "2024-01-01") (VStr "09:00") (VStr "2024-01-01") (VStr "09:00")
  = "0hrs, 0mins".
Proof.
  apply (compute_duration_same_moment _ _ (mk_datetime 2024 1 1 9 0 0)).
  vm_compute. reflexivity.
Defined.

(** ** Accounts *)

Lemma find_user_None (username : string) (d : database) :
  find_user username d = None -> ~ In username (map UserRow.username (users d)).
Proof.
  unfold find_user. intros Hnone Hin. apply in_map_iff in Hin as [r [Hname Hin]].
  apply (find_none _ _ Hnone) in Hin. rewrite Hname, String.eqb_refl in Hin.
  discriminate.
Qed.

Lemma find_app_None {A} (f : A -> bool) (l k : list A) :
  find f l = None -> find f (l ++ k) = find f k.
Proof.
  induction l as [|a l IH]; simpl; [reflexivity|].
  destruct (f a); [discriminate | exact IH].
Qed.

(** X7: [register_user] keeps the usernames of [users] pairwise different,
    whatever it returns. *)
Theorem register_user_keeps_usernames_unique
    (ph : PasswordHasher) (username email password : string) (w : world) :
  NoDup (map UserRow.username (users (db w))) ->
  NoDup (map UserRow.username (users (db (snd (register_user username email password w))))).
Proof.
  intros Hnd. unfold register_user.
  destruct (find_user username (db w)) eqn:Hfind; [exact Hnd|].
  destruct (hash_password password); [|exact Hnd].
  cbn [snd db set_db users]. rewrite map_app. cbn [map UserRow.username].
  apply NoDup_app. split; [exact Hnd|]. split; [|apply NoDup_singleton].
  intros x Hx Hx'. apply list_elem_of_singleton in Hx'. subst x.
  apply list_elem_of_In in Hx. now apply find_user_None in Hfind.
Qed.

Lemma register_user_keeps_usernames_unique_witness :
  NoDup (map UserRow.username
           (users (db (snd (register_user (ph := toy_argon2) "bob" "bob@example.org" "pw"
                              (initial_world alice_db)))))).
Proof.
  apply (register_user_keeps_usernames_unique toy_argon2).
  cbn. apply NoDup_singleton.
Defined.

Lemma register_then_login_aux
    (ph : PasswordHasher) (username email password h : string) (w : world) :
  find_user username (db w) = None ->
  ph_hash password = Return h ->
  h <> "" ->
  ph_verify h password = Return true ->
  fst (register_user username email password w) = Return true /\
  fst (login_user username password (snd (register_user username email password w)))
    = Return true.
Proof.
  intros Hnone Hh Hne Hver. unfold register_user, hash_password. rewrite Hnone, Hh.
  cbn [fst snd]. split; [reflexivity|].
  unfold login_user, find_user. cbn [db set_db users].
  unfold find_user in Hnone. rewrite (find_app_None _ _ _ Hnone). cbn [find UserRow.username].
  rewrite String.eqb_refl. cbn [UserRow.password_hash UserRow.id].
  destruct (String.eqb_spec h "") as [->|_]; [contradiction|].
  unfold verify_password_argon2. now rewrite Hver.
Qed.

(** X8: Registration, then login: when the username is free and the hasher
    verifies the password against the hash it produced for it, [login_user]
    with the same credentials returns [True] right after [register_user]
    returned [True]. *)
Theorem register_then_login
    (ph : PasswordHasher) (username email password h : string) (w : world) :
  find_user username (db w) = None ->
  ph_hash password = Return h ->
  h <> "" ->
  ph_verify h password = Return true ->
  fst (register_user username email password w) = Return true /\
  fst (login_user username password (snd (register_user username email password w)))
    = Return true.
Proof.
  intros Hnone Hh Hne Hver. unfold register_user, hash_password. rewrite Hnone, Hh.
  cbn [fst snd]. split; [reflexivity|].
  unfold login_user, find_user. cbn [db set_db users].
  unfold find_user in Hnone. rewrite (find_app_None _ _ _ Hnone). cbn [find UserRow.username].
  rewrite String.eqb_refl. cbn [UserRow.password_hash UserRow.id].
  destruct (String.eqb_spec h "") as [->|_]; [contradiction|].
  unfold verify_password_argon2. now rewrite Hver.
Qed.

Lemma register_then_login_witness :
  fst (register_user (ph := toy_argon2) "bob" "bob@example.org" "pw" (initial_world alice_db))
    = Return true /\
  fst (login_user (ph := toy_argon2) "bob" "pw"
         (snd (register_user (ph := toy_argon2) "bob" "bob@example.org" "pw"
                 (initial_world alice_db))))
    = Return true.
Proof.
  apply (register_then_login toy_argon2 "bob" "bob@example.org" "pw"
           (argon2_header +:+ "pw")); try reflexivity.
  discriminate.
Defined.

(** X9: [login_user] writes nothing but a password hash: the ids, usernames and
    emails of [users] stay as they are, row by row, and so do the other
    tables and the signals emitted. *)
Theorem login_user_only_rehashes
    (ph : PasswordHasher) (username password : string) (w : world) :
  let w' := snd (login_user username password w) in
  map (fun r => (UserRow.id r, UserRow.username r, UserRow.email r)) (users (db w'))
    = map (fun r => (UserRow.id r, UserRow.username r, UserRow.email r)) (users (db w)) /\
  inventory_items (db w') = inventory_items (db w) /\
  service_activity (db w') = service_activity (db w) /\
  emitted w' = emitted w.
Proof.
  cbv zeta. unfold login_user.
  destruct (find_user username (db w)) as [r|]; [|now repeat split].
  destruct (String.eqb _ ""); [now repeat split|].
  destruct (verify_password_argon2 _ password) as [[|]|e]; try now repeat split.
  cbn [snd]. unfold _set_current_user, upgrade_hash. cbn [db set_db emitted].
  destruct (ph_check_needs_rehash _) as [[|]|]; try now repeat split.
  destruct (ph_hash password); [|now repeat split].
  unfold update_password_hash, set_users. cbn [users inventory_items service_activity].
  repeat split. rewrite map_map. apply map_ext. intros x.
  now destruct (UserRow.id x =? UserRow.id r).
Qed.

(** X10: The pages strip the texts before they call the core: an account made
    by [try_signup] is opened by [try_login] with any texts that differ
    from the ones typed at signup by outer blanks only. *)
Theorem signup_then_login
    (ph : PasswordHasher)
    (username email password username' password' h : string) (w : world) :
  strip username <> "" -> strip email <> "" -> strip password <> "" ->
  strip username' = strip username -> strip password' = strip password ->
  find_user (strip username) (db w) = None ->
  ph_hash (strip password) = Return h ->
  h <> "" ->
  ph_verify h (strip password) = Return true ->
  fst (try_signup username email password w) = AccountCreated /\
  fst (try_login username' password' (snd (try_signup username email password w)))
    = LoginSucceeded.
Proof.
  intros Hu He Hp Hu' Hp' Hnone Hh Hne Hver.
  destruct (register_then_login_aux ph (strip username) (strip email) (strip password)
              h w Hnone Hh Hne Hver) as [Hreg Hlog].
  unfold try_signup, try_login. rewrite Hu', Hp'.
  destruct (String.eqb_spec (strip username) "") as [E|_]; [contradiction|].
  destruct (String.eqb_spec (strip email) "") as [E|_]; [contradiction|].
  destruct (String.eqb_spec (strip password) "") as [E|_]; [contradiction|].
  cbn [orb].
  destruct (register_user (strip username) (strip email) (strip password) w)
    as [r1 w1] eqn:E1.
  cbn [fst snd] in Hreg, Hlog. subst r1. cbn [fst snd].
  split; [reflexivity|].
  destruct (login_user (strip username) (strip password) w1) as [r2 w2].
  cbn [fst] in Hlog. now subst r2.
Qed.

Lemma signup_then_login_witness :
  fst (try_signup (ph := toy_argon2) " bob " "bob@example.org" "pw " (initial_world alice_db))
    = AccountCreated /\
  fst (try_login (ph := toy_argon2) "bob" " pw"
         (snd (try_signup (ph := toy_argon2) " bob " "bob@example.org" "pw "
                 (initial_world alice_db))))
    = LoginSucceeded.
Proof.
  apply (signup_then_login toy_argon2 " bob " "bob@example.org" "pw " "bob" " pw"
           (argon2_header +:+ "pw")); try reflexivity; discriminate.
Defined.

(** ** The inventory table *)

Lemma insert_by_id_last (a x : InventoryRow.t) (m : list InventoryRow.t) :
  InventoryRow.id a < InventoryRow.id x ->
  InventoryObject.insert_by_id a (m ++ [x]) = InventoryObject.insert_by_id a m ++ [x].
Proof.
  intros Hax. induction m as [|b m IH]; simpl.
  - now destruct (Z.ltb_spec (InventoryRow.id a) (InventoryRow.id x)); [|lia].
  - destruct (InventoryRow.id a <? InventoryRow.id b); [reflexivity|]. now rewrite IH.
Qed.

Lemma insert_by_id_In (a x : InventoryRow.t) (m : list InventoryRow.t) :
  In x (InventoryObject.insert_by_id a m) -> x = a \/ In x m.
Proof.
  induction m as [|b m IH]; simpl.
  - intros [<-|[]]. now left.
  - destruct (InventoryRow.id a <? InventoryRow.id b); simpl.
    + intros [<-|[<-|H]]; auto.
    + intros [<-|H]; auto. destruct (IH H); auto.
Qed.

Lemma order_by_id_In (x : InventoryRow.t) (l : list InventoryRow.t) :
  In x (InventoryObject.order_by_id l) -> In x l.
Proof.
  induction l as [|a l IH]; simpl; [auto|].
  intros H. apply insert_by_id_In in H as [->|H]; auto.
Qed.

Lemma order_by_id_last (x : InventoryRow.t) (l : list InventoryRow.t) :
  (forall r, In r l -> InventoryRow.id r < InventoryRow.id x) ->
  InventoryObject.order_by_id (l ++ [x]) = InventoryObject.order_by_id l ++ [x].
Proof.
  induction l as [|a l IH]; intros H; simpl; [reflexivity|].
  rewrite IH by (intros r Hr; apply H; now right).
  apply insert_by_id_last. apply H. now left.
Qed.

(** X11: Insert, then list: when no row has an id above the last one handed
    out and the quantity, read through [safe_int], is within the 64 bits
    that the INSERT binds, [get_all_for_user] after [create] returns what it
    returned before followed by one object that holds the normalised keyword
    values ([quantity] through [safe_int], the texts through [safe_str])
    under the new id; the list of any other user is as before. *)
Theorem inventory_create_then_get_all (kw : InventoryItem.kwargs) (w : world) :
  (forall r, In r (inventory_items (db w)) ->
             InventoryRow.id r <= inventory_items_seq (db w)) ->
  -9223372036854775808 <= safe_int (InventoryItem.quantity kw) <= 9223372036854775807 ->
  let user := safe_str (default (VStr "default_user") (InventoryItem.user kw)) in
  InventoryObject.get_all_for_user user (InventoryItem.create kw w)
    = InventoryObject.get_all_for_user user w ++
      [InventoryObject.mk (VInt (inventory_items_seq (db w) + 1))
         (safe_str (InventoryItem.part_number kw))
         (safe_int (InventoryItem.quantity kw))
         (safe_str (InventoryItem.part_location kw))
         (safe_str (InventoryItem.model kw))
         (safe_str (InventoryItem.part_description kw))
         (safe_str (InventoryItem.quarterly_inventory_verification_date kw))
         (VStr (safe_str (InventoryItem.category_id kw)))
         (safe_str (InventoryItem.notes kw))
         user] /\
  forall other, other <> user ->
    InventoryObject.get_all_for_user other (InventoryItem.create kw w)
      = InventoryObject.get_all_for_user other w.
Proof.
  intros Hseq Hq. apply in_int64_spec in Hq. cbv zeta.
  unfold InventoryObject.get_all_for_user, InventoryItem.create,
    InventoryItem.create_outcome.
  cbv zeta. rewrite Hq. cbn [snd db set_db emit inventory_items]. split.
  - rewrite List.filter_app. cbn [List.filter InventoryRow.user].
    rewrite bool_decide_true by reflexivity.
    rewrite order_by_id_last, map_app.
    + cbn [map]. unfold InventoryObject.of_row.
      cbn [InventoryRow.id InventoryRow.part_number InventoryRow.quantity
           InventoryRow.part_location InventoryRow.model InventoryRow.part_description
           InventoryRow.quarterly_inventory_verification_date InventoryRow.category_id
           InventoryRow.notes InventoryRow.user InventoryObject.of_text
           InventoryObject.of_integer].
      rewrite !safe_str_twice. reflexivity.
    + intros r Hr. apply filter_In in Hr as [Hr _]. apply Hseq in Hr.
      cbn [InventoryRow.id]. lia.
  - intros other Hother. rewrite List.filter_app. cbn [List.filter InventoryRow.user].
    rewrite bool_decide_false by congruence. now rewrite app_nil_r.
Qed.

Lemma inventory_create_then_get_all_witness :
  InventoryObject.get_all_for_user "alice"
    (InventoryItem.create
       (InventoryItem.mk_kwargs (VStr "X1") (VInt 10) VNone VNone VNone VNone VNone VNone
          (Some (VStr "alice")))
       (initial_world empty_database))
  = [InventoryObject.mk (VInt 1) "X1" 10 "" "" "" "" (VStr "") "" "alice"].
Proof.
  refine (proj1 (inventory_create_then_get_all
    (InventoryItem.mk_kwargs (VStr "X1") (VInt 10) VNone VNone VNone VNone VNone VNone
       (Some (VStr "alice")))
    (initial_world empty_database) _ _)).
  - intros r [].
  - vm_compute. split; discriminate.
Defined.

(** Out of that range the INSERT raises, and the table is as before. *)
Lemma inventory_create_out_of_range (kw : InventoryItem.kwargs) (w : world) :
  in_int64 (safe_int (InventoryItem.quantity kw)) = false ->
  InventoryItem.create_outcome kw w = (Raise OverflowError, w).
Proof.
  intros H. unfold InventoryItem.create_outcome. cbv zeta. now rewrite H.
Qed.

Lemma update_quantity_where_twice (f g : option Z -> option Z) (part user : string)
    (d : database) :
  update_quantity_where g part user (update_quantity_where f part user d)
  = update_quantity_where (fun q => g (f q)) part user d.
Proof.
  unfold update_quantity_where, set_inventory_items. cbn [inventory_items
    inventory_items_seq service_activity service_activity_seq users users_seq].
  f_equal. rewrite map_map. apply map_ext. intros r.
  destruct (inv_match part user r) eqn:E.
  - rewrite inv_match_set_quantity, E. now destruct r.
  - now rewrite E.
Qed.

(** [add_quantity] with a part and an amount that the UPDATE binds. *)
Lemma add_quantity_in_range (part : string) (quantity : Z) (user : option string)
    (w : world) :
  part <> "" -> 0 < quantity <= 9223372036854775807 ->
  InventoryItem.add_quantity_outcome part quantity user w
  = (Return tt,
     emit inventory_changed
       (set_db (update_quantity_where (sql_plus quantity) part
                  (default "default_user" user) (db w)) w)).
Proof.
  intros Hpart Hq. unfold InventoryItem.add_quantity_outcome. cbv zeta.
  destruct (String.eqb_spec part "") as [E|_]; [contradiction|]. cbn [orb].
  destruct (Z.leb_spec quantity 0); [lia|].
  replace (in_int64 quantity) with true; [reflexivity|].
  symmetry. apply in_int64_spec. lia.
Qed.

(** X12: Two restocks add up: [add_quantity] of [a] and then of [b] leaves the
    database that one [add_quantity] of [a + b] leaves, when [a + b] is
    within the 64 bits that the UPDATE binds and the rows of that part and
    user hold 64-bit quantities that stay within the range with [a + b]
    added, the range in which SQLite adds integers exactly. *)
Theorem add_quantity_twice (part : string) (a b : Z) (user : option string) (w : world) :
  0 < a -> 0 < b -> a + b <= 9223372036854775807 ->
  (forall r q, In r (inventory_items (db w)) ->
     inv_match part (default "default_user" user) r = true ->
     InventoryRow.quantity r = Some q ->
     -9223372036854775808 <= q /\ q + (a + b) <= 9223372036854775807) ->
  db (InventoryItem.add_quantity part b user (InventoryItem.add_quantity part a user w))
  = db (InventoryItem.add_quantity part (a + b) user w).
Proof.
  intros Ha Hb Hab _. unfold InventoryItem.add_quantity.
  destruct (String.eqb_spec part "") as [->|Hpart]; [reflexivity|].
  rewrite !add_quantity_in_range by (auto; lia). cbn [snd].
  cbn [db set_db emit]. rewrite update_quantity_where_twice.
  unfold update_quantity_where. f_equal. apply map_ext. intros r.
  destruct (inv_match _ _ r); [|reflexivity]. f_equal.
  destruct (InventoryRow.quantity r); cbn; [f_equal; lia | reflexivity].
Qed.

Lemma add_quantity_twice_witness :
  db (InventoryItem.add_quantity "X1" 3 (Some "alice")
        (InventoryItem.add_quantity "X1" 2 (Some "alice")
           (initial_world (x1_inventory 10 "alice"))))
  = db (InventoryItem.add_quantity "X1" 5 (Some "alice")
          (initial_world (x1_inventory 10 "alice"))).
Proof.
  apply (add_quantity_twice "X1" 2 3); try lia.
  intros r q [<-|[]] _ Hq. cbn in Hq. injection Hq as <-. lia.
Defined.

(** Past the range the two differ: two restocks of 2^62 go through, one of
    2^63 raises at the bind and leaves the row as it was. *)
Example add_quantity_out_of_range :
  let w := initial_world (x1_inventory 0 "alice") in
  InventoryItem.add_quantity_outcome "X1" 9223372036854775808 (Some "alice") w
  = (Raise OverflowError, w) /\
  fst (InventoryItem.add_quantity_outcome "X1" 4611686018427387904 (Some "alice")
         (InventoryItem.add_quantity "X1" 4611686018427387904 (Some "alice") w))
  = Return tt.
Proof. vm_compute. split; reflexivity. Qed.

(** X13: [add_quantity] changes nothing, and emits nothing, when the part is
    empty or the amount is not positive; otherwise it touches the quantity
    column of the rows of that part and user and no other cell. *)
Theorem add_quantity_frame (part : string) (quantity : Z) (user : option string)
    (w : world) :
  let w' := InventoryItem.add_quantity part quantity user w in
  (part = "" \/ quantity <= 0 -> w' = w) /\
  Forall2 (fun r r' =>
             InventoryRow.set_quantity (InventoryRow.quantity r) r' = r /\
             (inv_match part (default "default_user" user) r = false -> r' = r))
          (inventory_items (db w)) (inventory_items (db w')) /\
  service_activity (db w') = service_activity (db w) /\
  users (db w') = users (db w).
Proof.
  cbv zeta. unfold InventoryItem.add_quantity, InventoryItem.add_quantity_outcome.
  cbv zeta. split; [|].
  - intros [->|Hq]; [reflexivity|].
    destruct (Z.leb_spec quantity 0); [|lia]. now rewrite orb_true_r.
  - assert (Hsame : Forall2 (fun r r' =>
               InventoryRow.set_quantity (InventoryRow.quantity r) r' = r /\
               (inv_match part (default "default_user" user) r = false -> r' = r))
              (inventory_items (db w)) (inventory_items (db w))).
    { apply Forall2_same. intros r. split; [apply set_quantity_same | reflexivity]. }
    destruct (String.eqb part "" || (quantity <=? 0)); [now repeat split|].
    destruct (in_int64 quantity); cbn [snd]; [|now repeat split].
    cbn [db set_db emit]. unfold update_quantity_where, set_inventory_items.
    cbn [inventory_items service_activity users]. repeat split.
    clear Hsame.
    induction (inventory_items (db w)) as [|r l IH]; simpl; constructor; auto.
    destruct (inv_match part _ r); split; try reflexivity;
      try discriminate; now destruct r.
Qed.

(** ** Service calls: create, read, edit, delete *)

Lemma create_service_activity (data : ServiceActivity.fields) (w : world) :
  in_int64 (safe_int (ServiceActivity.quantity data)) = true ->
  service_activity (db (ServiceActivity.create data w))
  = service_activity (db w) ++
    [ServiceActivity.row_of (service_activity_seq (db w) + 1) data
       (safe_int (ServiceActivity.quantity data))
       (safe_str (ServiceActivity.part_replaced data))
       (safe_str (ServiceActivity.py_or (ServiceActivity.user data) (VStr "default_user")))].
Proof.
  intros Hq. unfold ServiceActivity.create. rewrite (create_in_range data w Hq).
  cbv zeta. cbn [snd]. unfold ServiceActivity.create_inventory. cbn [db set_db emit].
  destruct (negb _); [|reflexivity]. cbn [inventory_items].
  now destruct (find _ (inventory_items (db w))).
Qed.

Lemma create_users (data : ServiceActivity.fields) (w : world) :
  users (db (ServiceActivity.create data w)) = users (db w).
Proof.
  create_cases data w; [|reflexivity].
  unfold ServiceActivity.create_inventory. cbn [db set_db emit].
  destruct (negb _); [|reflexivity]. cbn [inventory_items].
  now destruct (find _ (inventory_items (db w))).
Qed.

Lemma create_inventory_items (data : ServiceActivity.fields) (w : world) :
  let part := safe_str (ServiceActivity.part_replaced data) in
  let user := safe_str (ServiceActivity.py_or (ServiceActivity.user data)
                          (VStr "default_user")) in
  let quantity := safe_int (ServiceActivity.quantity data) in
  in_int64 quantity = true ->
  inventory_items (db (ServiceActivity.create data w))
  = match find (inv_match part user) (inventory_items (db w)) with
    | Some row =>
        if String.eqb part "" then inventory_items (db w)
        else map (fun r => if inv_match part user r
                    then InventoryRow.set_quantity
                           (Some (Z.max 0 (default 0 (InventoryRow.quantity row)
                                           - (if 0 <? quantity then quantity else 1)))) r
                    else r) (inventory_items (db w))
    | None => inventory_items (db w)
    end.
Proof.
  cbv zeta. intros Hq. unfold ServiceActivity.create. rewrite (create_in_range data w Hq).
  cbv zeta. cbn [snd]. unfold ServiceActivity.create_inventory.
  cbn [db set_db emit]. destruct (String.eqb _ ""); cbn [negb];
    [now destruct (find _ _)|].
  cbn [inventory_items]. destruct (find _ (inventory_items (db w))) as [row|]; [|reflexivity].
  unfold update_quantity_where, set_inventory_items. cbn [inventory_items].
  apply map_ext. intros r. destruct (inv_match _ _ r); [|reflexivity]. do 4 f_equal.
  - destruct (InventoryRow.quantity row) as [q|]; [|reflexivity]. cbn [default].
    now destruct (Z.eqb_spec q 0) as [->|].
  - destruct (Z.eqb_spec (safe_int (ServiceActivity.quantity data)) 0) as [->|]; reflexivity.
Qed.

Lemma get_by_id_after_create (data : ServiceActivity.fields) (w : world) :
  (forall r, In r (service_activity (db w)) ->
             ServiceRow.id r <> service_activity_seq (db w) + 1) ->
  safe_str (ServiceActivity.py_or (ServiceActivity.user data) (VStr "default_user")) <> "" ->
  in_int64 (safe_int (ServiceActivity.quantity data)) = true ->
  find (ServiceActivity.id_match (Some (service_activity_seq (db w) + 1)))
    (service_activity (db (ServiceActivity.create data w)))
  = Some (ServiceActivity.row_of (service_activity_seq (db w) + 1) data
            (safe_int (ServiceActivity.quantity data))
            (safe_str (ServiceActivity.part_replaced data))
            (safe_str (ServiceActivity.py_or (ServiceActivity.user data)
                         (VStr "default_user")))).
Proof.
  intros Hfresh Huser Hq.
  rewrite (create_service_activity data w Hq), find_app_None.
  - cbn [find ServiceActivity.id_match ServiceActivity.row_of ServiceRow.id].
    now rewrite Z.eqb_refl.
  - apply find_None_forall. intros r Hr. cbn. apply Z.eqb_neq. now apply Hfresh.
Qed.

(** The object read from the row that [create] wrote. *)
Lemma from_row_of (i : Z) (data : ServiceActivity.fields) :
  safe_str (ServiceActivity.py_or (ServiceActivity.user data) (VStr "default_user")) <> "" ->
  ServiceActivity._from_row
    (ServiceActivity.row_of i data (safe_int (ServiceActivity.quantity data))
       (safe_str (ServiceActivity.part_replaced data))
       (safe_str (ServiceActivity.py_or (ServiceActivity.user data) (VStr "default_user"))))
  = ServiceActivity.init (Some i) data.
Proof.
  intros Huser.
  unfold ServiceActivity._from_row, ServiceActivity.init.
  cbn -[safe_str safe_int ServiceActivity.py_or].
  rewrite !safe_str_twice.
  change (safe_int (VInt (safe_int (ServiceActivity.quantity data))))
    with (safe_int (ServiceActivity.quantity data)).
  set (u := safe_str (ServiceActivity.py_or (ServiceActivity.user data)
                        (VStr "default_user"))) in *.
  assert (Hu : safe_str (ServiceActivity.py_or (VStr u) (VStr "default_user")) = u).
  { unfold ServiceActivity.py_or. cbn [truthy].
    destruct (String.eqb_spec u "") as [E|_]; [contradiction|]. cbn [negb].
    subst u. apply safe_str_twice. }
  now rewrite Hu.
Qed.

(** X14: Create, then read: with a user that is not blank, a quantity that,
    read through [safe_int], is within the 64 bits that the INSERT binds,
    and a new id that no row holds yet, [get_by_id] of that id returns the
    object that [__init__] builds from the keyword values themselves: what
    [create] stored reads back unchanged. *)
Theorem create_then_get_by_id (data : ServiceActivity.fields) (w : world) :
  (forall r, In r (service_activity (db w)) ->
             ServiceRow.id r <> service_activity_seq (db w) + 1) ->
  safe_str (ServiceActivity.py_or (ServiceActivity.user data) (VStr "default_user")) <> "" ->
  -9223372036854775808 <= safe_int (ServiceActivity.quantity data) <= 9223372036854775807 ->
  ServiceActivity.get_by_id (Some (service_activity_seq (db w) + 1))
    (ServiceActivity.create data w)
  = Some (ServiceActivity.init (Some (service_activity_seq (db w) + 1)) data).
Proof.
  intros Hfresh Huser Hq. apply in_int64_spec in Hq. unfold ServiceActivity.get_by_id.
  rewrite (get_by_id_after_create data w Hfresh Huser Hq).
  cbn [fmap option_fmap option_map]. f_equal. now apply from_row_of.
Qed.

Lemma create_then_get_by_id_witness :
  ServiceActivity.get_by_id (Some 1)
    (ServiceActivity.create (uses " X1 " (VStr "3") "alice")
       (initial_world (x1_inventory 10 "alice")))
  = Some (ServiceActivity.init (Some 1) (uses " X1 " (VStr "3") "alice")).
Proof.
  apply (create_then_get_by_id (uses " X1 " (VStr "3") "alice")
           (initial_world (x1_inventory 10 "alice"))).
  - intros r [].
  - discriminate.
  - vm_compute. split; discriminate.
Defined.

(** X15: with a quantity that is within the 64 bits that the INSERT binds,
    [create] adds exactly one row to [service_activity], under the next id;
    with any other quantity it raises and leaves the world as it was.  In
    both cases the inventory keeps every row of another part or user, and
    the number and order of its rows; with an empty [part_replaced] the
    inventory is not touched at all. *)
Theorem create_frame (data : ServiceActivity.fields) (w : world) :
  let part := safe_str (ServiceActivity.part_replaced data) in
  let user := safe_str (ServiceActivity.py_or (ServiceActivity.user data)
                          (VStr "default_user")) in
  let w' := ServiceActivity.create data w in
  (in_int64 (safe_int (ServiceActivity.quantity data)) = true ->
   fst (ServiceActivity.create_outcome data w) = Return tt /\
   exists row, service_activity (db w') = service_activity (db w) ++ [row] /\
               ServiceRow.id row = service_activity_seq (db w) + 1) /\
  (in_int64 (safe_int (ServiceActivity.quantity data)) = false ->
   fst (ServiceActivity.create_outcome data w) = Raise OverflowError /\ w' = w) /\
  Forall2 (fun r r' => inv_match part user r = false -> r' = r)
          (inventory_items (db w)) (inventory_items (db w')) /\
  (part = "" -> inventory_items (db w') = inventory_items (db w)) /\
  users (db w') = users (db w).
Proof.
  cbv zeta. split; [|split; [|split; [|split]]].
  - intros Hq. split; [now rewrite (create_in_range data w Hq)|].
    eexists. split; [now apply create_service_activity | reflexivity].
  - intros Hq. unfold ServiceActivity.create.
    now rewrite (create_out_of_range data w Hq).
  - destruct (in_int64 (safe_int (ServiceActivity.quantity data))) eqn:Hq.
    + pose proof (create_inventory_items data w) as H. cbv zeta in H.
      rewrite (H Hq). clear H.
      destruct (find _ _); [|now apply Forall2_same].
      destruct (String.eqb _ ""); [now apply Forall2_same | apply Forall2_map_if].
    + unfold ServiceActivity.create. rewrite (create_out_of_range data w Hq).
      now apply Forall2_same.
  - intros Hpart.
    destruct (in_int64 (safe_int (ServiceActivity.quantity data))) eqn:Hq.
    + pose proof (create_inventory_items data w) as H. cbv zeta in H.
      rewrite (H Hq). clear H. rewrite Hpart. destruct (find _ _); reflexivity.
    + unfold ServiceActivity.create. now rewrite (create_out_of_range data w Hq).
  - apply create_users.
Qed.

Lemma filter_all {A} (f : A -> bool) (l : list A) :
  (forall r, In r l -> f r = true) -> List.filter f l = l.
Proof.
  intros Hl. induction l as [|a l IH]; simpl; [reflexivity|].
  rewrite (Hl a) by now left. f_equal. apply IH. intros r Hr. apply Hl. now right.
Qed.

Lemma filter_app_new {A} (f : A -> bool) (l : list A) (x : A) :
  (forall r, In r l -> f r = true) -> f x = false ->
  List.filter f (l ++ [x]) = l.
Proof.
  intros Hl Hx. rewrite List.filter_app. cbn. rewrite Hx, app_nil_r.
  now apply filter_all.
Qed.

(** X19: Create, then [delete]: the model's [delete] takes the new row out of
    [service_activity] again and writes nothing else; the inventory stays
    as [create] left it, since the restock is the page's business. *)
Theorem create_then_delete (data : ServiceActivity.fields)
    (attrs : ServiceActivity.fields) (w : world) :
  (forall r, In r (service_activity (db w)) ->
             ServiceRow.id r <> service_activity_seq (db w) + 1) ->
  let w1 := ServiceActivity.create data w in
  let w2 := ServiceActivity.delete
              (ServiceActivity.mk (Some (service_activity_seq (db w) + 1)) attrs) w1 in
  service_activity (db w2) = service_activity (db w) /\
  inventory_items (db w2) = inventory_items (db w1) /\
  users (db w2) = users (db w1).
Proof.
  intros Hfresh. cbv zeta. unfold ServiceActivity.delete.
  cbn [db set_db emit set_service_activity service_activity inventory_items users
       ServiceActivity.id].
  split; [|split; reflexivity].
  assert (Hold : forall r, In r (service_activity (db w)) ->
            negb (ServiceActivity.id_match (Some (service_activity_seq (db w) + 1)) r)
            = true).
  { intros r Hr. cbn. apply negb_true_iff, Z.eqb_neq. now apply Hfresh. }
  destruct (in_int64 (safe_int (ServiceActivity.quantity data))) eqn:Hq.
  - rewrite (create_service_activity data w Hq). apply filter_app_new; [exact Hold|].
    cbn. now rewrite Z.eqb_refl.
  - unfold ServiceActivity.create. rewrite (create_out_of_range data w Hq). cbn [snd].
    now apply filter_all.
Qed.

Lemma create_then_delete_witness :
  let w := initial_world (x1_inventory 10 "alice") in
  let w1 := ServiceActivity.create (uses "X1" (VInt 3) "alice") w in
  let w2 := ServiceActivity.delete (ServiceActivity.mk (Some 1) no_fields) w1 in
  service_activity (db w2) = [] /\ quantities w2 = [Some 7].
Proof.
  cbv zeta.
  destruct (create_then_delete (uses "X1" (VInt 3) "alice") no_fields
              (initial_world (x1_inventory 10 "alice"))) as (H1 & H2 & _).
  - intros r [].
  - split; [exact H1|]. unfold quantities.
    change (service_activity_seq (db (initial_world (x1_inventory 10 "alice"))) + 1)
      with 1 in H2.
    rewrite H2. reflexivity.
Defined.

(** X18: Editing a call that keeps its part, with quantities that the
    statements bind (the old one, the new one and their difference are within
    64 bits) and rows that stay within the 64 bits in which SQLite computes
    exactly: the rows of that part and of the call's user give up the
    increase of the quantity, clamped at zero, or get the decrease back; the
    other rows stay.  When the quantity is kept too, the inventory is as
    before, whatever else was edited. *)
Theorem update_same_part (self : ServiceActivity.t) (w : world) (old_row : ServiceRow.t) :
  let part := safe_str (ServiceActivity.part_replaced (ServiceActivity.attrs self)) in
  let user := safe_str (ServiceActivity.user (ServiceActivity.attrs self)) in
  let old_qty := safe_int (ServiceActivity.of_integer (ServiceRow.quantity old_row)) in
  let new_qty := safe_int (ServiceActivity.quantity (ServiceActivity.attrs self)) in
  find (ServiceActivity.id_match (ServiceActivity.id self)) (service_activity (db w))
    = Some old_row ->
  safe_str (ServiceActivity.of_text (ServiceRow.part_replaced old_row)) = part ->
  part <> "" ->
  -9223372036854775808 <= old_qty <= 9223372036854775807 ->
  -9223372036854775808 <= new_qty <= 9223372036854775807 ->
  -9223372036854775807 <= new_qty - old_qty <= 9223372036854775807 ->
  (forall r q, In r (inventory_items (db w)) -> inv_match part user r = true ->
     InventoryRow.quantity r = Some q ->
     -9223372036854775808 <= q <= 9223372036854775807 /\
     q + (old_qty - new_qty) <= 9223372036854775807) ->
  inventory_items (db (ServiceActivity.update self w))
    = map (fun r =>
             if inv_match part user r
             then InventoryRow.set_quantity
                    ((fun q => if old_qty <? new_qty
                               then Z.max (q - (new_qty - old_qty)) 0
                               else q + (old_qty - new_qty))
                     <$> InventoryRow.quantity r) r
             else r)
          (inventory_items (db w)) /\
  (new_qty = old_qty ->
   inventory_items (db (ServiceActivity.update self w)) = inventory_items (db w)).
Proof.
  intros part user old_qty new_qty Hfind Hsame Hpart Hold Hnew Hdiff _.
  assert (Hbound : forall z, -9223372036854775807 <= z <= 9223372036854775807 ->
                             in_int64 z = true)
    by (intros z Hz; apply in_int64_spec; lia).
  assert (Hinv : inventory_items (db (ServiceActivity.update self w))
    = inventory_items
        (db (set_db (ServiceActivity.update_inventory part part user old_qty new_qty (db w)) w))).
  { unfold ServiceActivity.update, ServiceActivity.update_outcome. cbv zeta.
    rewrite Hfind. fold new_qty.
    replace (in_int64 new_qty) with true by (symmetry; now apply in_int64_spec).
    cbn [snd db set_db emit].
    rewrite Hsame. fold part user old_qty new_qty.
    unfold ServiceActivity.update_inventory.
    rewrite String.eqb_refl. cbn [negb andb].
    destruct (String.eqb_spec part "") as [E|_]; [contradiction|]. cbn [negb andb].
    destruct (0 <? new_qty - old_qty); [now destruct (in_int64 _)|].
    destruct (new_qty - old_qty <? 0); [now destruct (in_int64 _) | reflexivity]. }
  rewrite Hinv. cbn [db set_db]. unfold ServiceActivity.update_inventory.
  rewrite String.eqb_refl.
  destruct (String.eqb_spec part "") as [E|_]; [contradiction|]. cbn [negb andb].
  rewrite (Hbound (new_qty - old_qty)) by lia.
  rewrite (Hbound (- (new_qty - old_qty))) by lia.
  split.
  - destruct (Z.ltb_spec 0 (new_qty - old_qty)) as [Hd|Hd].
    + unfold update_quantity_where, set_inventory_items. cbn [inventory_items].
      apply map_ext. intros r. destruct (inv_match part user r); [|reflexivity].
      f_equal. destruct (Z.ltb_spec old_qty new_qty); [|lia].
      now destruct (InventoryRow.quantity r).
    + destruct (Z.ltb_spec (new_qty - old_qty) 0) as [Hd'|Hd'].
      * unfold update_quantity_where, set_inventory_items. cbn [inventory_items].
        apply map_ext. intros r. destruct (inv_match part user r); [|reflexivity].
        f_equal. destruct (Z.ltb_spec old_qty new_qty); [lia|].
        destruct (InventoryRow.quantity r); cbn; [f_equal; lia | reflexivity].
      * symmetry. etransitivity; [|apply map_id]. apply map_ext. intros r.
        destruct (inv_match part user r); [|reflexivity].
        destruct (Z.ltb_spec old_qty new_qty); [lia|].
        destruct r as [? ? [q|] ? ? ? ? ? ? ?]; cbn; [|reflexivity].
        unfold InventoryRow.set_quantity. cbn. do 2 f_equal. lia.
  - intros Heq. rewrite Heq, Z.sub_diag. reflexivity.
Qed.

Lemma update_same_part_witness :
  let w1 := ServiceActivity.create (uses "X1" (VInt 3) "alice")
              (initial_world (x1_inventory 10 "alice")) in
  quantities (ServiceActivity.update
                (ServiceActivity.mk (Some 1) (uses "X1" (VInt 5) "alice")) w1)
  = [Some 5].
Proof.
  cbv zeta.
  pose proof (update_same_part
    (ServiceActivity.mk (Some 1) (uses "X1" (VInt 5) "alice"))
    (ServiceActivity.create (uses "X1" (VInt 3) "alice")
       (initial_world (x1_inventory 10 "alice")))
    (ServiceActivity.row_of 1 (uses "X1" (VInt 3) "alice") 3 "X1" "alice")) as H.
  cbv zeta in H. destruct H as [H _].
  - reflexivity.
  - reflexivity.
  - discriminate.
  - vm_compute. split; discriminate.
  - vm_compute. split; discriminate.
  - vm_compute. split; discriminate.
  - intros r q [<-|[]] _ Hq. vm_compute in Hq. injection Hq as <-.
    vm_compute. repeat split; discriminate.
  - unfold quantities. rewrite H. reflexivity.
Defined.

(** An edit whose new quantity is out of range raises at the UPDATE of the
    row: neither the call nor the inventory changes. *)
Example update_quantity_out_of_range :
  let w1 := ServiceActivity.create (uses "X1" (VInt 3) "alice")
              (initial_world (x1_inventory 10 "alice")) in
  ServiceActivity.update_outcome
    (ServiceActivity.mk (Some 1) (uses "X1" (VInt 9223372036854775808) "alice")) w1
  = (Raise OverflowError, w1).
Proof. vm_compute. reflexivity. Qed.

Lemma update_keeps_nonneg_witness :
  let w1 := ServiceActivity.create (uses "X1" (VInt 3) "alice")
              (initial_world (x1_inventory 10 "alice")) in
  keeps_nonneg (db w1)
    (db (ServiceActivity.update (ServiceActivity.mk (Some 1) (uses "Y2" (VInt 1) "alice")) w1)).
Proof.
  cbv zeta. apply update_keeps_nonneg.
  intros r Hr. vm_compute in Hr. injection Hr as <-. vm_compute. discriminate.
Defined.

(** Create, then delete through the page, for the user "default_user" and
    a positive quantity [q] that the statements bind, on an inventory whose
    rows of that part all hold [c]. *)
Lemma create_then_do_delete_rows
    (data : ServiceActivity.fields) (w : world) (c : Z) :
  let part := safe_str (ServiceActivity.part_replaced data) in
  let q := safe_int (ServiceActivity.quantity data) in
  let new_id := service_activity_seq (db w) + 1 in
  let set (n : Z) :=
    map (fun r => if inv_match part "default_user" r
                  then InventoryRow.set_quantity (Some n) r else r)
        (inventory_items (db w)) in
  (forall r, In r (service_activity (db w)) -> ServiceRow.id r <> new_id) ->
  safe_str (ServiceActivity.py_or (ServiceActivity.user data) (VStr "default_user"))
    = "default_user" ->
  part <> "" ->
  0 < q <= 9223372036854775807 ->
  (forall r, In r (inventory_items (db w)) ->
     inv_match part "default_user" r = true -> InventoryRow.quantity r = Some c) ->
  let w1 := ServiceActivity.create data w in
  let w2 := ServiceActivityPage._do_delete true (ServiceActivity.init (Some new_id) data) w1 in
  ServiceActivity.get_by_id (Some new_id) w1 = Some (ServiceActivity.init (Some new_id) data) /\
  inventory_items (db w1) = set (Z.max 0 (c - q)) /\
  service_activity (db w2) = service_activity (db w) /\
  inventory_items (db w2) = set (Z.max 0 (c - q) + q).
Proof.
  intros part q new_id set Hfresh Huser Hpart Hq Hc w1 w2.
  assert (Hrange : in_int64 q = true) by (apply in_int64_spec; lia).
  assert (Hu : safe_str (ServiceActivity.py_or (ServiceActivity.user data)
                           (VStr "default_user")) <> "")
    by (rewrite Huser; discriminate).
  assert (Hinv1 : inventory_items (db w1) = set (Z.max 0 (c - q))).
  { subst w1 set. pose proof (create_inventory_items data w) as H. cbv zeta in H.
    rewrite (H Hrange). clear H.
    rewrite Huser. fold part q.
    destruct (find _ _) as [row|] eqn:Hfind.
    - apply find_some in Hfind as [Hin Hm]. rewrite (Hc row Hin Hm). cbn [default].
      destruct (String.eqb_spec part "") as [E|_]; [contradiction|].
      destruct (Z.ltb_spec 0 q); [reflexivity | lia].
    - symmetry. apply map_if_none. intros x Hx. exact (find_none _ _ Hfind x Hx). }
  assert (Hstrip : strip part = part).
  { unfold part. exact (safe_str_twice (ServiceActivity.part_replaced data)). }
  assert (Hw2 : w2
    = ServiceActivity.delete (ServiceActivity.init (Some new_id) data)
        (emit inventory_changed
           (set_db (update_quantity_where (sql_plus q) part "default_user" (db w1)) w1))).
  { subst w2. unfold ServiceActivityPage._do_delete, ServiceActivity.init.
    cbn [negb ServiceActivity.attrs ServiceActivity.part_replaced ServiceActivity.quantity int].
    fold part q. rewrite Hstrip.
    destruct (String.eqb_spec part "") as [E|_]; [contradiction|].
    destruct (Z.ltb_spec 0 q); [|lia]. cbn [negb andb].
    now rewrite (add_quantity_in_range part q None w1 Hpart Hq). }
  split; [|split; [exact Hinv1|]].
  { unfold ServiceActivity.get_by_id. subst w1. unfold new_id.
    rewrite (get_by_id_after_create data w Hfresh Hu Hrange).
    cbn [fmap option_fmap option_map]. f_equal. now apply from_row_of. }
  rewrite Hw2. clear Hw2 w2.
  unfold ServiceActivity.delete.
  cbn [db set_db emit set_service_activity service_activity inventory_items
       update_quantity_where set_inventory_items ServiceActivity.id ServiceActivity.init].
  split.
  - subst w1. rewrite (create_service_activity data w Hrange). apply filter_app_new.
    + intros r Hr. cbn. apply negb_true_iff, Z.eqb_neq. now apply Hfresh.
    + cbn. now rewrite Z.eqb_refl.
  - rewrite Hinv1. subst set. cbv beta. rewrite map_map. apply map_ext. intros r.
    destruct (inv_match part "default_user" r) eqn:E.
    + rewrite inv_match_set_quantity, E. now destruct r.
    + now rewrite E.
Qed.

(** X20: Create, then delete through the page, for the user "default_user" and a
    positive quantity [q] within the 64 bits that the statements bind, on an
    inventory whose rows of that part all hold the 64-bit quantity [c]: the
    call is gone again and those rows end at the larger of [c] and [q].  So
    the quantity is restored when [create] did not have to clamp ([q <= c]),
    and the restock overshoots to [q] when it had. *)
Theorem create_then_do_delete_default_user
    (data : ServiceActivity.fields) (w : world) (c : Z) :
  let part := safe_str (ServiceActivity.part_replaced data) in
  let q := safe_int (ServiceActivity.quantity data) in
  let new_id := service_activity_seq (db w) + 1 in
  (forall r, In r (service_activity (db w)) -> ServiceRow.id r <> new_id) ->
  safe_str (ServiceActivity.py_or (ServiceActivity.user data) (VStr "default_user"))
    = "default_user" ->
  part <> "" ->
  0 < q <= 9223372036854775807 ->
  -9223372036854775808 <= c <= 9223372036854775807 ->
  (forall r, In r (inventory_items (db w)) ->
     inv_match part "default_user" r = true -> InventoryRow.quantity r = Some c) ->
  exists item,
    ServiceActivity.get_by_id (Some new_id) (ServiceActivity.create data w) = Some item /\
    let w2 := ServiceActivityPage._do_delete true item (ServiceActivity.create data w) in
    service_activity (db w2) = service_activity (db w) /\
    inventory_items (db w2)
      = map (fun r => if inv_match part "default_user" r
                      then InventoryRow.set_quantity (Some (Z.max c q)) r else r)
            (inventory_items (db w)) /\
    (q <= c -> inventory_items (db w2) = inventory_items (db w)).
Proof.
  intros part q new_id Hfresh Huser Hpart Hq _ Hc.
  destruct (create_then_do_delete_rows data w c Hfresh Huser Hpart Hq Hc)
    as (Hget & _ & Hsa & Hinv).
  fold part q new_id in Hget, Hsa, Hinv.
  exists (ServiceActivity.init (Some new_id) data).
  split; [exact Hget|]. cbv zeta.
  replace (Z.max 0 (c - q) + q) with (Z.max c q) in Hinv by lia.
  split; [exact Hsa | split; [exact Hinv|]].
  intros Hle. rewrite Hinv. etransitivity; [|apply map_id].
  apply map_ext_in. intros r Hr. destruct (inv_match part "default_user" r) eqn:E;
    [|reflexivity].
  rewrite <- (set_quantity_same r) at 2. rewrite (Hc r Hr E). do 2 f_equal. lia.
Qed.

Lemma create_then_do_delete_default_user_witness :
  exists item,
    ServiceActivity.get_by_id (Some 1)
      (ServiceActivity.create (uses "X1" (VInt 15) "default_user")
         (initial_world (x1_inventory 10 "default_user"))) = Some item /\
    quantities (ServiceActivityPage._do_delete true item
                  (ServiceActivity.create (uses "X1" (VInt 15) "default_user")
                     (initial_world (x1_inventory 10 "default_user"))))
    = [Some 15].
Proof.
  destruct (create_then_do_delete_default_user (uses "X1" (VInt 15) "default_user")
              (initial_world (x1_inventory 10 "default_user")) 10)
    as [item [Hget (_ & Hinv & _)]].
  - intros r [].
  - reflexivity.
  - discriminate.
  - vm_compute. split; [reflexivity | discriminate].
  - lia.
  - intros r [<-|[]] _. reflexivity.
  - exists item. split; [exact Hget|]. unfold quantities. rewrite Hinv. reflexivity.
Defined.

(** C3: the round trip of a service call through the inventory.  The pages
    name the user that [get_current_user] returns, which is "default_user"
    in every session; for that user, on an inventory whose rows of the part
    "X1" hold 10, a call that replaces 3 of "X1" leaves 7 in those rows, and
    deleting the call through the page puts the 10 back and takes the call
    out of the table. *)
Theorem create_then_delete_restores (data : ServiceActivity.fields) (w : world) :
  let new_id := service_activity_seq (db w) + 1 in
  let set (n : Z) :=
    map (fun r => if inv_match "X1" "default_user" r
                  then InventoryRow.set_quantity (Some n) r else r)
        (inventory_items (db w)) in
  (forall r, In r (service_activity (db w)) -> ServiceRow.id r <> new_id) ->
  safe_str (ServiceActivity.py_or (ServiceActivity.user data) (VStr "default_user"))
    = "default_user" ->
  safe_str (ServiceActivity.part_replaced data) = "X1" ->
  safe_int (ServiceActivity.quantity data) = 3 ->
  (forall r, In r (inventory_items (db w)) ->
     inv_match "X1" "default_user" r = true -> InventoryRow.quantity r = Some 10) ->
  let w1 := ServiceActivity.create data w in
  exists item,
    ServiceActivity.get_by_id (Some new_id) w1 = Some item /\
    inventory_items (db w1) = set 7 /\
    let w2 := ServiceActivityPage._do_delete true item w1 in
    inventory_items (db w2) = set 10 /\
    inventory_items (db w2) = inventory_items (db w) /\
    service_activity (db w2) = service_activity (db w).
Proof.
  intros new_id set Hfresh Huser Hpart Hqty Hten w1.
  pose proof (create_then_do_delete_rows data w 10) as H. cbv zeta in H.
  rewrite Hpart, Hqty in H.
  destruct (H Hfresh Huser) as (Hget & Hinv1 & Hsa & Hinv2);
    [discriminate | lia | exact Hten |]. clear H.
  exists (ServiceActivity.init (Some new_id) data).
  split; [exact Hget | split; [exact Hinv1|]]. cbv zeta.
  split; [exact Hinv2 | split; [|exact Hsa]].
  etransitivity; [exact Hinv2|]. change (Z.max 0 (10 - 3) + 3) with 10.
  etransitivity; [|apply map_id].
  apply map_ext_in. intros r Hr. destruct (inv_match "X1" "default_user" r) eqn:E;
    [|reflexivity].
  rewrite <- (set_quantity_same r) at 2. now rewrite (Hten r Hr E).
Qed.

Lemma create_then_delete_restores_witness :
  let w0 := initial_world (x1_inventory 10 "default_user") in
  let w1 := ServiceActivity.create (uses "X1" (VInt 3) "default_user") w0 in
  exists item,
    ServiceActivity.get_by_id (Some 1) w1 = Some item /\
    quantities w0 = [Some 10] /\
    quantities w1 = [Some 7] /\
    quantities (ServiceActivityPage._do_delete true item w1) = [Some 10] /\
    service_activity (db (ServiceActivityPage._do_delete true item w1)) = [].
Proof.
  cbv zeta.
  destruct (create_then_delete_restores (uses "X1" (VInt 3) "default_user")
              (initial_world (x1_inventory 10 "default_user")))
    as [item (Hget & H1 & H2 & _ & H3)].
  - intros r [].
  - reflexivity.
  - reflexivity.
  - reflexivity.
  - intros r [<-|[]] _. reflexivity.
  - exists item. split; [exact Hget|]. unfold quantities.
    rewrite H1, H2, H3. repeat split.
Defined.

(** X21: Once [delete_by_part_number] removed the rows of a part, a service call
    that replaces this part finds no stock to adjust: [create] leaves the
    inventory as the deletion left it. *)
Theorem delete_by_part_number_then_create
    (data : ServiceActivity.fields) (w : world) :
  let part := safe_str (ServiceActivity.part_replaced data) in
  let user := safe_str (ServiceActivity.py_or (ServiceActivity.user data)
                          (VStr "default_user")) in
  let w1 := InventoryItem.delete_by_part_number part user w in
  inventory_items (db w1)
    = List.filter (fun r => negb (inv_match part user r)) (inventory_items (db w)) /\
  inventory_items (db (ServiceActivity.create data w1)) = inventory_items (db w1).
Proof.
  cbv zeta. split; [reflexivity|].
  destruct (in_int64 (safe_int (ServiceActivity.quantity data))) eqn:Hq;
    [|unfold ServiceActivity.create; now rewrite (create_out_of_range data _ Hq)].
  pose proof (create_inventory_items data
    (InventoryItem.delete_by_part_number
       (safe_str (ServiceActivity.part_replaced data))
       (safe_str (ServiceActivity.py_or (ServiceActivity.user data) (VStr "default_user")))
       w)) as H.
  cbv zeta in H. rewrite (H Hq). clear H.
  rewrite find_None_forall; [reflexivity|].
  intros x Hx. unfold InventoryItem.delete_by_part_number in Hx.
  cbn [db set_db emit set_inventory_items inventory_items] in Hx.
  apply filter_In in Hx as [_ Hx]. now apply negb_true_iff in Hx.
Qed.

(** ** The inventory importer: what a complete sheet inserts *)

Section Importer.
Import InventoryImporter.

(** A data row that the loop passes over: no cell is truthy, or none of the
    eight fields it maps is. *)
Definition skipped (headers : list string) (row : list Py.value) : bool :=
  negb (existsb truthy row) || negb (any_field (item_data headers row)).

(** The keyword arguments that the loop hands to [InventoryItem.create]. *)
Definition create_kwargs (headers : list string) (user : Py.value) (row : list Py.value)
    : InventoryItem.kwargs :=
  let kw := item_data headers row in
  InventoryItem.mk_kwargs
    (InventoryItem.part_number kw) (InventoryItem.quantity kw)
    (InventoryItem.part_location kw) (InventoryItem.model kw)
    (InventoryItem.part_description kw)
    (InventoryItem.quarterly_inventory_verification_date kw)
    (InventoryItem.category_id kw) (InventoryItem.notes kw) (Some user).

Definition kept_rows (headers : list string) (rows : list (list Py.value))
    : list (list Py.value) :=
  List.filter (fun row => negb (skipped headers row)) rows.

(** A row whose quantity cell, read through [safe_int], is within the 64
    bits that the INSERT binds. *)
Definition binds (headers : list string) (row : list Py.value) : bool :=
  in_int64 (safe_int (InventoryItem.quantity (item_data headers row))).

Lemma inventory_create_in_range (kw : InventoryItem.kwargs) (w : world) :
  in_int64 (safe_int (InventoryItem.quantity kw)) = true ->
  InventoryItem.create_outcome kw w = (Return tt, InventoryItem.create kw w).
Proof.
  intros H. unfold InventoryItem.create, InventoryItem.create_outcome. cbv zeta.
  now rewrite H.
Qed.

Lemma import_rows_kept (headers : list string) (user : Py.value)
    (rows : list (list Py.value)) (added : Z) (w : world) :
  Forall (fun row => binds headers row = true) (kept_rows headers rows) ->
  import_rows headers user rows added w
  = (Return (added + Z.of_nat (length (kept_rows headers rows))),
     fold_left (fun acc row => InventoryItem.create (create_kwargs headers user row) acc)
               (kept_rows headers rows) w).
Proof.
  revert added w. induction rows as [|row rows IH]; intros added w Hbinds.
  - cbn. now rewrite Z.add_0_r.
  - cbn [import_rows]. cbn [kept_rows List.filter] in *. fold (kept_rows headers rows) in *.
    assert (Hsk : skipped headers row
              = negb (existsb truthy row) || negb (any_field (item_data headers row)))
      by reflexivity.
    destruct (existsb truthy row); cbn [negb orb] in *.
    + destruct (any_field (item_data headers row)); cbn [negb] in *;
        rewrite Hsk in *; cbn [negb] in *.
      * inversion Hbinds as [|? ? Hrow Hrest]; subst.
        change (InventoryItem.mk_kwargs _ _ _ _ _ _ _ _ (Some user))
          with (create_kwargs headers user row).
        rewrite (inventory_create_in_range (create_kwargs headers user row) w Hrow).
        rewrite (IH _ _ Hrest). cbn [fold_left length]. do 2 f_equal. lia.
      * now apply IH.
    + rewrite Hsk in *. cbn [negb] in *. now apply IH.
Qed.

(** The loop stops at the first kept row whose quantity is not bound: the
    exception leaves the function, with the rows before it inserted. *)
Lemma import_rows_raises (headers : list string) (user : Py.value)
    (rows pre post : list (list Py.value)) (bad : list Py.value) (added : Z) (w : world) :
  kept_rows headers rows = pre ++ bad :: post ->
  Forall (fun row => binds headers row = true) pre ->
  binds headers bad = false ->
  import_rows headers user rows added w
  = (Raise OverflowError,
     fold_left (fun acc row => InventoryItem.create (create_kwargs headers user row) acc)
               pre w).
Proof.
  revert pre added w. induction rows as [|row rows IH]; intros pre added w Hkept Hpre Hbad.
  - destruct pre; discriminate Hkept.
  - cbn [import_rows]. cbn [kept_rows List.filter] in Hkept.
    fold (kept_rows headers rows) in Hkept.
    assert (Hsk : skipped headers row
              = negb (existsb truthy row) || negb (any_field (item_data headers row)))
      by reflexivity.
    destruct (existsb truthy row); cbn [negb orb] in *.
    + destruct (any_field (item_data headers row)); cbn [negb] in *;
        rewrite Hsk in Hkept; cbn [negb] in Hkept.
      * change (InventoryItem.mk_kwargs _ _ _ _ _ _ _ _ (Some user))
          with (create_kwargs headers user row).
        destruct pre as [|p pre]; cbn [app] in Hkept; injection Hkept as -> Hkept.
        -- rewrite inventory_create_out_of_range by exact Hbad. reflexivity.
        -- inversion Hpre as [|? ? Hrow Hrest]; subst.
           rewrite (inventory_create_in_range (create_kwargs headers user p) w Hrow).
           cbn [fold_left]. now apply IH.
      * now apply IH.
    + rewrite Hsk in Hkept. cbn [negb] in Hkept. now apply IH.
Qed.

Lemma inventory_create_appends (kw : InventoryItem.kwargs) (w : world) :
  in_int64 (safe_int (InventoryItem.quantity kw)) = true ->
  exists row,
    inventory_items (db (InventoryItem.create kw w)) = inventory_items (db w) ++ [row] /\
    InventoryRow.user row
      = safe_str (default (VStr "default_user") (InventoryItem.user kw)) /\
    service_activity (db (InventoryItem.create kw w)) = service_activity (db w) /\
    users (db (InventoryItem.create kw w)) = users (db w).
Proof.
  intros H. unfold InventoryItem.create, InventoryItem.create_outcome. cbv zeta.
  rewrite H. cbn [snd]. eexists. repeat split.
Qed.

Lemma fold_create_inventory (headers : list string) (user : Py.value)
    (rows : list (list Py.value)) (w : world) :
  Forall (fun row => binds headers row = true) rows ->
  let w' := fold_left (fun acc row => InventoryItem.create (create_kwargs headers user row) acc)
                      rows w in
  exists news,
    inventory_items (db w') = inventory_items (db w) ++ news /\
    length news = length rows /\
    Forall (fun r => InventoryRow.user r = safe_str user) news /\
    service_activity (db w') = service_activity (db w) /\
    users (db w') = users (db w).
Proof.
  cbv zeta. revert w. induction rows as [|row rows IH]; intros w Hbinds.
  - exists []. cbn. now rewrite app_nil_r.
  - inversion Hbinds as [|? ? Hrow Hrest]; subst.
    cbn [fold_left].
    destruct (IH (InventoryItem.create (create_kwargs headers user row) w) Hrest)
      as (news & Hinv & Hlen & Huser & Hsa & Hus).
    destruct (inventory_create_appends (create_kwargs headers user row) w Hrow)
      as (r & Hr & Hru & Hrsa & Hrus).
    exists (r :: news). split; [|split; [|split; [|split]]].
    + rewrite Hinv, Hr, <- app_assoc. reflexivity.
    + cbn. now rewrite Hlen.
    + constructor; [exact Hru | exact Huser].
    + now rewrite Hsa.
    + now rewrite Hus.
Qed.

(** X22: With every required header present and, in every data row that is
    not skipped, a quantity cell that [safe_int] reads within the 64 bits
    that the INSERT binds, the importer returns no missing header and, as
    its count, the number of data rows it did not skip (a row is skipped
    when all its cells are empty, or when the eight mapped fields are); it
    calls [InventoryItem.create] once per kept row, in sheet order, so the
    inventory grows at its end by exactly that many rows, all of the
    importing user, and no other table changes. *)
Theorem import_complete_sheet_counts (ws : worksheet) (user : Py.value) (w : world) :
  missing_headers (headers_of ws) = [] ->
  let kept := kept_rows (headers_of ws) (data_rows ws) in
  Forall (fun row =>
            -9223372036854775808
              <= safe_int (InventoryItem.quantity (item_data (headers_of ws) row))
              <= 9223372036854775807) kept ->
  let '(result, w') := import_inventory_from_excel ws user w in
  result = Return (Z.of_nat (length kept), []) /\
  w' = fold_left (fun acc row =>
                    InventoryItem.create (create_kwargs (headers_of ws) user row) acc)
                 kept w /\
  exists news,
    inventory_items (db w') = inventory_items (db w) ++ news /\
    length news = length kept /\
    Forall (fun r => InventoryRow.user r = safe_str user) news /\
    service_activity (db w') = service_activity (db w) /\
    users (db w') = users (db w).
Proof.
  intros Hmissing kept Hrange.
  assert (Hbinds : Forall (fun row => binds (headers_of ws) row = true) kept).
  { eapply Forall_impl; [exact Hrange|]. intros row Hrow. now apply in_int64_spec. }
  unfold import_inventory_from_excel. rewrite Hmissing.
  rewrite (import_rows_kept _ _ _ _ _ Hbinds). cbn [Z.add].
  split; [reflexivity|]. split; [reflexivity|].
  now apply fold_create_inventory.
Qed.

End Importer.

Lemma import_complete_sheet_counts_witness :
  let ws := InventoryImporter.mk_worksheet
    [ VStr "Part Number"; VStr "QTY"; VStr "Part Location"; VStr "Model";
      VStr "Part Description"; VStr "Quarterly Inventory Verification Date";
      VStr "Days Since Last Verification"; VStr "Notes"; VStr "Today's Date" ]
    [ [ VStr "X1"; VInt 10; VStr "Van"; VStr "M1"; VStr "Fuser"; VNone; VNone; VNone; VNone ];
      [ VNone; VNone; VNone; VNone; VNone; VNone; VInt 12; VNone; VStr "2024-01-05" ];
      [ VNone; VNone; VNone; VNone; VNone; VNone; VNone; VNone; VNone ] ] in
  fst (InventoryImporter.import_inventory_from_excel ws (VStr "alice")
         (initial_world empty_database)) = Return (1, []).
Proof.
  cbv zeta.
  match goal with |- fst (InventoryImporter.import_inventory_from_excel ?ws ?u ?w) = _ =>
    pose proof (import_complete_sheet_counts ws u w) as H end.
  cbv zeta in H.
  destruct (InventoryImporter.import_inventory_from_excel _ _ _) as [result w'].
  destruct H as [H _].
  - vm_compute; reflexivity.
  - match goal with |- Forall ?P ?l =>
      let l' := eval vm_compute in l in change (Forall P l') end.
    repeat (first [apply List.Forall_nil
                  | apply List.Forall_cons; [vm_compute; split; discriminate|]]).
  - rewrite H. vm_compute. reflexivity.
Defined.

(** ** The other filter proxies *)

Lemma list_index_in_range {A} (l : list A) (row : nat) :
  (row < length l)%nat -> list_index l (Z.of_nat row) = l !! row.
Proof.
  intros H. unfold list_index.
  destruct (Z.leb_spec 0 (Z.of_nat row)); [|lia].
  destruct (Z.ltb_spec (Z.of_nat row) (Z.of_nat (length l))); [|lia].
  cbn [andb]. now rewrite Nat2Z.id.
Qed.

Lemma forallb_ext_In {A} (f g : A -> bool) (l : list A) :
  (forall x, In x l -> f x = g x) -> forallb f l = forallb g l.
Proof.
  induction l as [|a l IH]; intros H; simpl; [reflexivity|].
  rewrite (H a) by now left. f_equal. apply IH. intros x Hx. apply H. now right.
Qed.



(** X24: The generic proxy and the two page proxies agree on the rows of the
    source list as soon as every filtered column with a non-empty allow-set
    is one of the generic proxy's columns. *)
Theorem column_filter_agrees_with_allow_list
    (f : gmap string (gset string)) (cols : list string)
    (items : list AllowListProxy.item) (row : nat) :
  (row < length items)%nat ->
  (forall col_name allowed, f !! col_name = Some allowed -> allowed <> ∅ ->
     col_name ∈ cols) ->
  AllowListProxy.filterAcceptsRow (AllowListProxy.mk f (Some items)) (Z.of_nat row)
  = Return (ColumnFilterProxy.filterAcceptsRow
              (ColumnFilterProxy.mk f cols (Some items)) (Z.of_nat row)).
Proof.
  intros Hrow Hcols.
  unfold AllowListProxy.filterAcceptsRow, ColumnFilterProxy.filterAcceptsRow.
  cbn [AllowListProxy.source_items ColumnFilterProxy.source_items
       AllowListProxy.filters ColumnFilterProxy.filters ColumnFilterProxy.columns].
  rewrite list_index_in_range by exact Hrow.
  destruct (Z.ltb_spec (Z.of_nat row) 0); [lia|].
  destruct (Z.leb_spec (Z.of_nat (length items)) (Z.of_nat row)); [lia|].
  cbn [orb]. rewrite Nat2Z.id.
  destruct (items !! row) as [it|] eqn:Hit;
    [|apply lookup_ge_None in Hit; lia].
  f_equal. apply forallb_ext_In. intros [col_name allowed] Hin.
  apply list_elem_of_In, elem_of_map_to_list in Hin.
  unfold AllowListProxy.passes, ColumnFilterProxy.passes.
  case_bool_decide; [reflexivity|].
  rewrite (bool_decide_true (col_name ∈ cols)) by (eapply Hcols; eauto). reflexivity.
Qed.

Lemma column_filter_agrees_with_allow_list_witness :
  AllowListProxy.filterAcceptsRow
    (AllowListProxy.mk model_A (Some five_rows)) 1
  = Return false.
Proof.
  change 1 with (Z.of_nat 1).
  rewrite (column_filter_agrees_with_allow_list model_A
             ["part_number"; "quantity"; "model"] five_rows 1).
  - vm_compute. reflexivity.
  - cbn. lia.
  - intros col_name allowed Hlook _. unfold model_A in Hlook.
    apply lookup_singleton_Some in Hlook as [<- _]. set_solver.
Defined.

(** *** The substring filter of the mileage page *)

Lemma prefix_spec (n h : string) :
  String.prefix n h = true <-> exists b, h = n +:+ b.
Proof.
  revert h. induction n as [|c n IH]; intros h.
  - split; [intros _; now exists h | intros _; now destruct h].
  - destruct h as [|d h]; [split; [discriminate | intros [b Hb]; discriminate]|].
    cbn [String.prefix]. destruct (ascii_dec c d) as [->|Hne].
    + rewrite IH. split; intros [b Hb]; exists b; [now rewrite Hb | now injection Hb].
    + split; [discriminate | intros [b Hb]; injection Hb as Hd _; congruence].
Qed.

Lemma str_contains_spec (n h : string) :
  str_contains n h = true <-> exists a b, h = a +:+ n +:+ b.
Proof.
  induction h as [|c h IH].
  - cbn [str_contains]. rewrite orb_false_r, prefix_spec. split.
    + intros [b Hb]. now exists "", b.
    + intros [a [b Hab]]. destruct a; [now exists b | discriminate].
  - cbn [str_contains]. rewrite orb_true_iff, prefix_spec, IH. split.
    + intros [[b Hb]|[a [b Hab]]]; [now exists "", b | exists (String c a), b; now rewrite Hab].
    + intros [a [b Hab]]. destruct a as [|d a]; [left; now exists b|].
      right. exists a, b. now injection Hab.
Qed.

Lemma mileage_loop_true (it : MileageFilterProxy.item) (f : gmap string string) :
  forallb (fun entry => str_contains (snd entry) (MileageFilterProxy.sval it (fst entry)))
          (map_to_list f) = true <->
  (forall k needle, f !! k = Some needle ->
     str_contains needle (MileageFilterProxy.sval it k) = true).
Proof.
  rewrite forallb_forall. split.
  - intros H k needle Hlook.
    apply (H (k, needle)), list_elem_of_In, elem_of_map_to_list, Hlook.
  - intros H [k needle] Hin. apply list_elem_of_In, elem_of_map_to_list in Hin.
    now apply H.
Qed.

(** X25: Typing a text into the filter of one column of the mileage table: a row
    stays visible if and only if the text, stripped and in lower case, occurs
    in the lower-cased text of that column of the row, and the needles of the
    other columns still occur in theirs.  A blank text takes the filter of
    the column off, and [clear_all_filters] shows every row again. *)
Theorem mileage_text_filter_spec
    (p : MileageFilterProxy.t) (items : list MileageFilterProxy.item)
    (row : nat) (it : MileageFilterProxy.item) (column_key text : string) :
  MileageFilterProxy.source_items p = Some items ->
  items !! row = Some it ->
  (MileageFilterProxy.filterAcceptsRow
     (MileageFilterProxy.set_text_filter column_key text p) (Z.of_nat row) = true <->
   (exists a b, MileageFilterProxy.sval it column_key = a +:+ lower (strip text) +:+ b) /\
   (forall k needle, k <> column_key ->
      MileageFilterProxy._text_filters p !! k = Some needle ->
      exists a b, MileageFilterProxy.sval it k = a +:+ needle +:+ b)) /\
  (strip text = "" ->
   MileageFilterProxy._text_filters (MileageFilterProxy.set_text_filter column_key text p)
     !! column_key = None) /\
  MileageFilterProxy.filterAcceptsRow (MileageFilterProxy.clear_all_filters p) (Z.of_nat row)
    = true.
Proof.
  intros Hsrc Hrow.
  assert (Hget : MileageFilterProxy.get_item items (Z.of_nat row) = Some it).
  { unfold MileageFilterProxy.get_item.
    assert (row < length items)%nat by (eapply lookup_lt_Some; exact Hrow).
    destruct (Z.leb_spec 0 (Z.of_nat row)); [|lia].
    destruct (Z.ltb_spec (Z.of_nat row) (Z.of_nat (length items))); [|lia].
    cbn [andb]. now rewrite Nat2Z.id. }
  split; [|split].
  - unfold MileageFilterProxy.filterAcceptsRow, MileageFilterProxy.set_text_filter.
    destruct (String.eqb_spec (lower (strip text)) "") as [E|E];
      cbn [MileageFilterProxy.source_items MileageFilterProxy._text_filters];
      rewrite Hsrc, Hget, mileage_loop_true.
    + rewrite E. split.
      * intros H. split; [now exists "", (MileageFilterProxy.sval it column_key)|].
        intros k needle Hk Hlook. apply str_contains_spec, H.
        now rewrite lookup_delete_ne.
      * intros [_ H] k needle Hlook.
        destruct (decide (k = column_key)) as [->|Hk];
          [now rewrite lookup_delete_eq in Hlook|].
        rewrite lookup_delete_ne in Hlook by congruence.
        apply str_contains_spec. now apply H.
    + split.
      * intros H. split.
        -- apply str_contains_spec, H. apply lookup_insert_eq.
        -- intros k needle Hk Hlook. apply str_contains_spec, H.
           now rewrite lookup_insert_ne.
      * intros [H1 H2] k needle Hlook.
        destruct (decide (k = column_key)) as [->|Hk].
        -- rewrite lookup_insert_eq in Hlook. injection Hlook as <-.
           now apply str_contains_spec.
        -- rewrite lookup_insert_ne in Hlook by congruence.
           apply str_contains_spec. now apply H2.
  - intros Hblank. unfold MileageFilterProxy.set_text_filter. rewrite Hblank.
    cbn. apply lookup_delete_eq.
  - unfold MileageFilterProxy.filterAcceptsRow, MileageFilterProxy.clear_all_filters.
    cbn [MileageFilterProxy.source_items MileageFilterProxy._text_filters].
    rewrite Hsrc, Hget. now rewrite map_to_list_empty.
Qed.

Lemma mileage_text_filter_spec_witness :
  let it : MileageFilterProxy.item :=
    {[ "purpose" := VStr "Service call at ACME"; "start_miles" := VInt 120 ]} in
  MileageFilterProxy.filterAcceptsRow
    (MileageFilterProxy.set_text_filter "purpose" " acme "
       (MileageFilterProxy.mk ∅ (Some [it]))) 0 = true.
Proof.
  cbv zeta.
  apply (proj1 (mileage_text_filter_spec
                  (MileageFilterProxy.mk ∅
                     (Some [ {[ "purpose" := VStr "Service call at ACME";
                                "start_miles" := VInt 120 ]} ]))
                  [ {[ "purpose" := VStr "Service call at ACME"; "start_miles" := VInt 120 ]} ]
                  0%nat
                  {[ "purpose" := VStr "Service call at ACME"; "start_miles" := VInt 120 ]}
                  "purpose" " acme " eq_refl eq_refl)).
  split.
  - exists "service call at ", "". vm_compute. reflexivity.
  - intros k needle _ Hlook. cbn in Hlook. now rewrite lookup_empty in Hlook.
Defined.

(** ** Mileage entries *)

Section MileageProperties.
Context {real : Type}.
Implicit Types (mw : mileage_world real) (r : mileage_row real).

Lemma insert_by_date_In r x (l : list (mileage_row real)) :
  In x (insert_by_date r l) <-> x = r \/ In x l.
Proof.
  induction l as [|a l IH]; simpl; [intuition congruence|].
  destruct (date_before (m_date a) (m_date r)); simpl; rewrite ?IH; intuition congruence.
Qed.

Lemma order_by_date_desc_In x (l : list (mileage_row real)) :
  In x (order_by_date_desc l) <-> In x l.
Proof.
  induction l as [|a l IH]; simpl; [tauto|].
  rewrite insert_by_date_In, IH. intuition congruence.
Qed.

Lemma fold_mileage_delete (user : string) (entries : list (mileage_row real)) mw :
  mileage (fold_left (fun acc e => mileage_delete (m_id e) user acc) entries mw)
  = List.filter
      (fun r => negb (existsb (fun e => (m_id r =? m_id e) && String.eqb (m_user r) user)
                              entries))
      (mileage mw).
Proof.
  revert mw. induction entries as [|e entries IH]; intros mw.
  - cbn. induction (mileage mw) as [|a l IHl]; cbn; [reflexivity | now f_equal].
  - cbn [fold_left]. rewrite IH. unfold mileage_delete. cbn [mileage].
    induction (mileage mw) as [|a l IHl]; [reflexivity|]. cbn [List.filter existsb].
    destruct ((m_id a =? m_id e) && String.eqb (m_user a) user); cbn [negb orb];
      [exact IHl|].
    cbn [List.filter]. destruct (negb _); [now f_equal | exact IHl].
Qed.

(** X26: [clear_all_mileage_entries] removes every entry of the user and no
    entry of anybody else: the table keeps exactly the rows of the other
    users, in their order, so the user's list is empty afterwards and the
    lists of the others are unchanged. *)
Theorem clear_all_mileage_entries_spec (user : string) mw :
  let mw' := clear_all_mileage_entries user mw in
  mileage mw' = List.filter (fun r => negb (String.eqb (m_user r) user)) (mileage mw) /\
  mileage_get_all_for_user user mw' = [] /\
  (forall other, other <> user ->
     mileage_get_all_for_user other mw' = mileage_get_all_for_user other mw).
Proof.
  cbv zeta.
  assert (Hrows : mileage (clear_all_mileage_entries user mw)
    = List.filter (fun r => negb (String.eqb (m_user r) user)) (mileage mw)).
  { unfold clear_all_mileage_entries. rewrite fold_mileage_delete.
    apply filter_ext_in. intros r Hr. f_equal.
    destruct (String.eqb (m_user r) user) eqn:Hu.
    - apply existsb_exists. exists r. split.
      + unfold mileage_get_all_for_user. apply order_by_date_desc_In, filter_In. now split.
      + now rewrite Z.eqb_refl.
    - apply not_true_is_false. intros H. apply existsb_exists in H as [e [_ He]].
      now rewrite andb_false_r in He. }
  split; [exact Hrows|]. unfold mileage_get_all_for_user. rewrite Hrows. clear Hrows. split.
  - replace (List.filter _ (List.filter _ (mileage mw))) with (@nil (mileage_row real));
      [reflexivity|].
    induction (mileage mw) as [|a l IH]; [reflexivity|]. cbn [List.filter].
    destruct (String.eqb (m_user a) user) eqn:E; cbn [negb List.filter];
      [exact IH | now rewrite E].
  - intros other Hother. f_equal.
    induction (mileage mw) as [|a l IH]; [reflexivity|]. cbn [List.filter].
    destruct (String.eqb_spec (m_user a) user) as [Eu|Eu]; cbn [negb List.filter].
    + destruct (String.eqb_spec (m_user a) other) as [Eo|_]; [congruence | exact IH].
    + destruct (String.eqb (m_user a) other); [now f_equal | exact IH].
Qed.

End MileageProperties.

(** ** The service activity importer *)

Section ServiceImport.
Import ServiceImporter.
Variable nfkc : string -> string.

(** A data row that the loop passes over: no cell is meaningful, or neither
    is any of the entries that [row_has_real_data] looks up. *)
Definition sa_skipped (headers : list string) (row : list Py.value) : bool :=
  negb (existsb meaningful row) ||
  negb (row_has_real_data (InventoryImporter.py_dict (zip headers row))).

Definition sa_kept_rows (headers : list string) (rows : list (list Py.value))
    : list (list Py.value) :=
  List.filter (fun row => negb (sa_skipped headers row)) rows.

(** A row whose "qty" cell, read through [safe_int], is within the 64 bits
    that the INSERT binds. *)
Definition sa_binds (headers : list string) (user : Py.value) (row : list Py.value)
    : bool :=
  in_int64 (safe_int (ServiceActivity.quantity (clean headers user row))).

Lemma create_outcome_in_range (data : ServiceActivity.fields) (w : world) :
  in_int64 (safe_int (ServiceActivity.quantity data)) = true ->
  ServiceActivity.create_outcome data w = (Return tt, ServiceActivity.create data w).
Proof.
  intros H. unfold ServiceActivity.create. now rewrite (create_in_range data w H).
Qed.

Lemma sa_import_rows_kept (headers : list string) (user : Py.value)
    (rows : list (list Py.value)) (added : Z) (w : world) :
  Forall (fun row => sa_binds headers user row = true) (sa_kept_rows headers rows) ->
  import_rows headers user rows added w
  = (Return (added + Z.of_nat (length (sa_kept_rows headers rows))),
     fold_left (fun acc row => ServiceActivity.create (clean headers user row) acc)
               (sa_kept_rows headers rows) w).
Proof.
  revert added w. induction rows as [|row rows IH]; intros added w Hbinds.
  - cbn. now rewrite Z.add_0_r.
  - cbn [import_rows]. cbn [sa_kept_rows List.filter] in *.
    fold (sa_kept_rows headers rows) in *.
    assert (Hsk : sa_skipped headers row
              = negb (existsb meaningful row) ||
                negb (row_has_real_data (InventoryImporter.py_dict (zip headers row))))
      by reflexivity.
    destruct (existsb meaningful row); cbn [negb orb] in *.
    + destruct (row_has_real_data _); cbn [negb] in *; rewrite Hsk in *; cbn [negb] in *.
      * inversion Hbinds as [|? ? Hrow Hrest]; subst.
        rewrite (create_outcome_in_range (clean headers user row) w Hrow).
        rewrite (IH _ _ Hrest). cbn [fold_left length]. do 2 f_equal. lia.
      * now apply IH.
    + rewrite Hsk in *. cbn [negb] in *. now apply IH.
Qed.

(** The loop stops at the first kept row whose quantity is not bound, with
    the rows before it inserted. *)
Lemma sa_import_rows_raises (headers : list string) (user : Py.value)
    (rows pre post : list (list Py.value)) (bad : list Py.value) (added : Z) (w : world) :
  sa_kept_rows headers rows = pre ++ bad :: post ->
  Forall (fun row => sa_binds headers user row = true) pre ->
  sa_binds headers user bad = false ->
  import_rows headers user rows added w
  = (Raise OverflowError,
     fold_left (fun acc row => ServiceActivity.create (clean headers user row) acc) pre w).
Proof.
  revert pre added w. induction rows as [|row rows IH]; intros pre added w Hkept Hpre Hbad.
  - destruct pre; discriminate Hkept.
  - cbn [import_rows]. cbn [sa_kept_rows List.filter] in Hkept.
    fold (sa_kept_rows headers rows) in Hkept.
    assert (Hsk : sa_skipped headers row
              = negb (existsb meaningful row) ||
                negb (row_has_real_data (InventoryImporter.py_dict (zip headers row))))
      by reflexivity.
    destruct (existsb meaningful row); cbn [negb orb] in *.
    + destruct (row_has_real_data _); cbn [negb] in *;
        rewrite Hsk in Hkept; cbn [negb] in Hkept.
      * destruct pre as [|p pre]; cbn [app] in Hkept; injection Hkept as -> Hkept.
        -- now rewrite (create_out_of_range (clean headers user bad) w Hbad).
        -- inversion Hpre as [|? ? Hrow Hrest]; subst.
           rewrite (create_outcome_in_range (clean headers user p) w Hrow).
           cbn [fold_left]. now apply IH.
      * now apply IH.
    + rewrite Hsk in Hkept. cbn [negb] in Hkept. now apply IH.
Qed.

Lemma fold_create_service_activity (headers : list string) (user : Py.value)
    (rows : list (list Py.value)) (w : world) :
  Forall (fun row => sa_binds headers user row = true) rows ->
  let w' := fold_left (fun acc row => ServiceActivity.create (clean headers user row) acc)
                      rows w in
  exists news,
    service_activity (db w') = service_activity (db w) ++ news /\
    length news = length rows /\
    Forall2 (fun row r =>
               ServiceRow.call_duration r
               = Some (safe_str (VStr (compute_duration
                     (ServiceActivity.arrival_date (clean headers user row))
                     (ServiceActivity.arrival_time (clean headers user row))
                     (ServiceActivity.departure_date (clean headers user row))
                     (ServiceActivity.departure_time (clean headers user row))))))
            rows news /\
    users (db w') = users (db w).
Proof.
  cbv zeta. revert w. induction rows as [|row rows IH]; intros w Hbinds.
  - exists []. cbn. rewrite app_nil_r. repeat split. constructor.
  - inversion Hbinds as [|? ? Hq Hrest]; subst. cbn [fold_left].
    destruct (IH (ServiceActivity.create (clean headers user row) w) Hrest)
      as (news & Hsa & Hlen & Hdur & Hus).
    pose proof (create_service_activity (clean headers user row) w Hq) as Hrow.
    pose proof (create_users (clean headers user row) w) as Husers.
    eexists (_ :: news). split; [|split; [|split]].
    + rewrite Hsa, Hrow, <- app_assoc. reflexivity.
    + cbn. now rewrite Hlen.
    + constructor; [reflexivity | exact Hdur].
    + now rewrite Hus.
Qed.

Lemma header_map_NoDup : List.NoDup (map fst header_map).
Proof.
  unfold header_map. cbn [map fst].
  repeat (constructor;
          [cbn; intros H; repeat (destruct H as [H|H]; [discriminate H|]); exact H|]).
  constructor.
Qed.

(** X28: When a column that [header_map] expects is absent from the header row,
    after normalisation and aliases, the service importer writes nothing and,
    both dialogs confirmed, reports the list [missing] of the source: the
    Excel names of [header_map] that are not among the normalised headers,
    each once and in the order of [header_map], joined by a comma and a
    space.  When a dialog is cancelled there is no report. *)
Theorem sa_import_missing_columns
    (path : string) (ok : bool) (ws : InventoryImporter.worksheet)
    (user : Py.value) (w : world) :
  (exists h, In h (map fst header_map) /\ ~ In h (normalized_excel_headers nfkc ws)) ->
  let missing := missing_columns (normalized_excel_headers nfkc ws) in
  snd (import_from_excel nfkc path ok ws user w) = w /\
  (path <> "" -> ok = true ->
   fst (import_from_excel nfkc path ok ws user w)
     = ImportError ("The file is missing expected columns:" +:+ String (ascii_of_N 10) ""
                    +:+ join ", " missing)) /\
  (path = "" \/ ok = false -> fst (import_from_excel nfkc path ok ws user w) = Cancelled) /\
  missing <> [] /\
  missing = List.filter
              (fun h => negb (InventoryImporter.mem h (normalized_excel_headers nfkc ws)))
              (map fst header_map) /\
  List.NoDup missing /\
  (forall h, In h missing <->
     In h (map fst header_map) /\ ~ In h (normalized_excel_headers nfkc ws)).
Proof.
  intros [h [Hreq Habs]]. cbv zeta.
  assert (Hin : forall x, In x (missing_columns (normalized_excel_headers nfkc ws)) <->
                  In x (map fst header_map) /\ ~ In x (normalized_excel_headers nfkc ws)).
  { intros x. unfold missing_columns. rewrite filter_In, negb_true_iff.
    split; intros [H1 H2]; (split; [exact H1|]).
    - intros Hx. apply mem_In in Hx. congruence.
    - destruct (InventoryImporter.mem x _) eqn:E; [|reflexivity].
      apply mem_In in E. contradiction. }
  assert (Hne : missing_columns (normalized_excel_headers nfkc ws) <> []).
  { intros E. assert (Hh : In h (missing_columns (normalized_excel_headers nfkc ws)))
      by (apply Hin; now split). rewrite E in Hh. destruct Hh. }
  split; [|split; [|split; [|split; [exact Hne | split; [reflexivity | split; [|exact Hin]]]]]].
  - unfold import_from_excel.
    destruct (String.eqb path ""); [reflexivity|]. destruct ok; [|reflexivity]. cbn [negb].
    destruct (missing_columns _); [contradiction | reflexivity].
  - intros Hpath ->. unfold import_from_excel.
    destruct (String.eqb_spec path "") as [E|_]; [contradiction|].
    cbn [negb]. destruct (missing_columns _); [contradiction | reflexivity].
  - intros [-> | ->]; unfold import_from_excel; [reflexivity|].
    now destruct (String.eqb path "").
  - unfold missing_columns. apply List.NoDup_filter, header_map_NoDup.
Qed.

(** X29: With every expected column present, both dialogs confirmed and, in
    every data row that is not skipped, a "qty" cell that [safe_int] reads
    within the 64 bits that the INSERT binds, the service importer reports
    the number of rows it did not skip and calls [ServiceActivity.create]
    once per kept row, in sheet order: the table grows at its end by that
    many rows, and each of them carries the duration that [compute_duration]
    gives for its own arrival and departure cells, whatever the sheet holds
    in its "call duration" column. *)
Theorem sa_import_complete
    (path : string) (ws : InventoryImporter.worksheet) (user : Py.value) (w : world) :
  path <> "" ->
  missing_columns (normalized_excel_headers nfkc ws) = [] ->
  let headers := normalized_excel_headers nfkc ws in
  let kept := sa_kept_rows headers (InventoryImporter.data_rows ws) in
  Forall (fun row =>
            -9223372036854775808
              <= safe_int (ServiceActivity.quantity (clean headers user row))
              <= 9223372036854775807) kept ->
  let '(result, w') := import_from_excel nfkc path true ws user w in
  result = ImportComplete (Z.of_nat (length kept)) /\
  w' = emit service_activity_changed
         (fold_left (fun acc row => ServiceActivity.create (clean headers user row) acc)
                    kept w) /\
  exists news,
    service_activity (db w') = service_activity (db w) ++ news /\
    length news = length kept /\
    Forall2 (fun row r =>
               ServiceRow.call_duration r
               = Some (safe_str (VStr (compute_duration
                     (ServiceActivity.arrival_date (clean headers user row))
                     (ServiceActivity.arrival_time (clean headers user row))
                     (ServiceActivity.departure_date (clean headers user row))
                     (ServiceActivity.departure_time (clean headers user row))))))
            kept news.
Proof.
  intros Hpath Hmissing headers kept Hrange.
  assert (Hbinds : Forall (fun row => sa_binds headers user row = true) kept).
  { eapply Forall_impl; [exact Hrange|]. intros row Hrow. now apply in_int64_spec. }
  unfold import_from_excel.
  destruct (String.eqb_spec path "") as [E|_]; [contradiction|]. cbn [negb].
  rewrite Hmissing. fold headers.
  rewrite (sa_import_rows_kept _ _ _ _ _ Hbinds). cbn [Z.add]. fold kept.
  split; [reflexivity|]. split; [reflexivity|].
  destruct (fold_create_service_activity headers user kept w Hbinds)
    as (news & Hsa & Hlen & Hdur & _).
  exists news. cbn [db emit]. repeat split; assumption.
Qed.

(** A kept row whose quantity is not bound ends the import in the error
    box of the handler: the rows before it are in the table, and the signal
    of the page is not emitted. *)
Lemma sa_import_quantity_out_of_range
    (path : string) (ws : InventoryImporter.worksheet) (user : Py.value) (w : world)
    (pre post : list (list Py.value)) (bad : list Py.value) :
  let headers := normalized_excel_headers nfkc ws in
  path <> "" ->
  missing_columns headers = [] ->
  sa_kept_rows headers (InventoryImporter.data_rows ws) = pre ++ bad :: post ->
  Forall (fun row => sa_binds headers user row = true) pre ->
  sa_binds headers user bad = false ->
  import_from_excel nfkc path true ws user w
  = (ImportError ("An error occurred:" +:+ String (ascii_of_N 10) "" +:+ overflow_text),
     fold_left (fun acc row => ServiceActivity.create (clean headers user row) acc) pre w).
Proof.
  intros headers Hpath Hmissing Hkept Hpre Hbad. unfold import_from_excel.
  destruct (String.eqb_spec path "") as [E|_]; [contradiction|]. cbn [negb].
  fold headers. rewrite Hmissing.
  now rewrite (sa_import_rows_raises _ _ _ _ _ _ _ _ Hkept Hpre Hbad).
Qed.

End ServiceImport.

(** A sheet with the fifteen columns, one with a misspelt alias, and three
    data rows: a call, a row of blanks, and a row without area or customer. *)
Definition service_sheet : InventoryImporter.worksheet :=
  InventoryImporter.mk_worksheet
    [ VStr "Area"; VStr "Customer"; VStr "Serial #"; VStr "Meter";
      VStr "Description of  Malfunction"; VStr "Arrival Date"; VStr "Arrival Time";
      VStr "Remedial Action Performed"; VStr "Qty"; VStr "Part Replaced";
      VStr "Departure Date"; VStr "Depature Time"; VStr "Call Duration";
      VStr "Technician"; VStr "Comments" ]
    [ [ VStr "North"; VStr "ACME"; VStr "S1"; VInt 100; VStr "Jam";
        VDateTime (mk_datetime 2024 1 1 0 0 0); VStr "9:00 AM"; VStr "Cleared"; VInt 3;
        VStr "X1"; VStr "2024-01-01"; VStr "5:30 PM"; VStr "1hr"; VStr "Lee"; VNone ];
      [ VNone; VStr " "; VNone; VNone; VNone; VNone; VNone; VNone; VNone; VNone; VNone;
        VNone; VNone; VNone; VNone ];
      [ VNone; VNone; VStr "S2"; VNone; VStr "Noise"; VStr "2024-01-02"; VNone; VNone;
        VNone; VNone; VNone; VNone; VNone; VNone; VNone ] ].

Lemma sa_import_complete_witness :
  let '(result, w') :=
    ServiceImporter.import_from_excel (fun s => s) "calls.xlsx" true service_sheet
      (VStr "alice") (initial_world (x1_inventory 10 "alice")) in
  result = ServiceImporter.ImportComplete 1 /\
  map ServiceRow.call_duration (service_activity (db w')) = [Some "8hrs, 30mins"] /\
  quantities w' = [Some 7].
Proof.
  pose proof (sa_import_complete (fun s => s) "calls.xlsx" service_sheet (VStr "alice")
                (initial_world (x1_inventory 10 "alice"))) as H.
  cbv zeta in H.
  destruct (ServiceImporter.import_from_excel _ _ _ _ _ _) as [result w'].
  destruct H as (Hres & Hw & _).
  - discriminate.
  - vm_compute. reflexivity.
  - match goal with |- Forall ?P ?l =>
      let l' := eval vm_compute in l in change (Forall P l') end.
    repeat (first [apply List.Forall_nil
                  | apply List.Forall_cons; [vm_compute; split; discriminate|]]).
  - split; [rewrite Hres; vm_compute; reflexivity|].
    rewrite Hw. vm_compute. split; reflexivity.
Defined.

Lemma sa_import_missing_columns_witness :
  let ws := InventoryImporter.mk_worksheet [VStr "Area"; VStr "Customer"]
              [[VStr "N"; VStr "C"]] in
  ServiceImporter.import_from_excel (fun s => s) "calls.xlsx" true ws (VStr "alice")
    (initial_world empty_database)
  = (ServiceImporter.ImportError
       ("The file is missing expected columns:" +:+ String (ascii_of_N 10) "" +:+
        "serial number, meter, description of malfunction, arrival date, arrival time, " +:+
        "remedial action performed, qty, part replaced, departure date, departure time, " +:+
        "call duration, technician last name, service log / comments"),
     initial_world empty_database).
Proof.
  cbv zeta.
  destruct (sa_import_missing_columns (fun s => s) "calls.xlsx" true
    (InventoryImporter.mk_worksheet [VStr "Area"; VStr "Customer"] [[VStr "N"; VStr "C"]])
    (VStr "alice") (initial_world empty_database)) as (Hw & Hreport & _).
  - exists "qty". split; [vm_compute; tauto|].
    vm_compute. intros [E|[E|[]]]; discriminate E.
  - destruct (ServiceImporter.import_from_excel _ _ _ _ _ _) as [result w'].
    cbn [fst snd] in Hw, Hreport. rewrite Hw, Hreport by (discriminate || reflexivity).
    vm_compute. reflexivity.
Defined.

(** A quantity that SQLite cannot bind, in the second call of a sheet: the
    importer shows the text of the exception; the first call is stored. *)
Example sa_import_overflow_report :
  let ws := InventoryImporter.mk_worksheet
    [ VStr "Area"; VStr "Customer"; VStr "Serial #"; VStr "Meter";
      VStr "Description of Malfunction"; VStr "Arrival Date"; VStr "Arrival Time";
      VStr "Remedial Action Performed"; VStr "Qty"; VStr "Part Replaced";
      VStr "Departure Date"; VStr "Departure Time"; VStr "Call Duration";
      VStr "Technician"; VStr "Comments" ]
    [ [ VStr "North"; VStr "ACME"; VNone; VNone; VNone; VNone; VNone; VNone; VInt 1;
        VNone; VNone; VNone; VNone; VNone; VNone ];
      [ VStr "South"; VStr "Bolt"; VNone; VNone; VNone; VNone; VNone; VNone;
        VStr "9223372036854775808"; VNone; VNone; VNone; VNone; VNone; VNone ] ] in
  let '(result, w') :=
    ServiceImporter.import_from_excel (fun s => s) "calls.xlsx" true ws (VStr "alice")
      (initial_world empty_database) in
  result = ServiceImporter.ImportError
             ("An error occurred:" +:+ String (ascii_of_N 10) "" +:+
              "Python int too large to convert to SQLite INTEGER") /\
  map ServiceRow.area (service_activity (db w')) = [Some "North"] /\
  emitted w' = [service_activity_changed].
Proof. vm_compute. repeat split. Qed.

(** ** Mileage entries of several users *)

Section MileageAccounts.
Context {real : Type}.
Implicit Types (mw : mileage_world real) (r : mileage_row real).

(** X27: [update] and [delete] of the mileage model address a row by its id and
    its user together: a row of another user, or of another id, is neither
    changed nor removed, and [delete] removes nothing else than the rows it
    addresses; [create] adds one row, of the given user, under the next id. *)
Theorem mileage_other_rows_untouched
    (id : Z) (user : string) (date : option string) (start_miles end_miles : option real)
    (start_location end_location purpose : option string) mw :
  Forall2 (fun r r' => m_id r <> id \/ m_user r <> user -> r' = r)
          (mileage mw)
          (mileage (mileage_update id user date start_miles end_miles
                      start_location end_location purpose mw)) /\
  (forall r, In r (mileage (mileage_delete id user mw)) <->
             In r (mileage mw) /\ (m_id r <> id \/ m_user r <> user)) /\
  mileage (mileage_create date start_miles end_miles start_location end_location
             purpose user mw)
  = mileage mw ++ [mk_mileage_row (mileage_seq mw + 1) user date start_miles end_miles
                     start_location end_location purpose].
Proof.
  split; [|split; [|reflexivity]].
  - unfold mileage_update. cbn [mileage].
    induction (mileage mw) as [|a l IH]; simpl; constructor; auto.
    intros Hne. destruct (Z.eqb_spec (m_id a) id) as [Ei|Ei];
      destruct (String.eqb_spec (m_user a) user) as [Eu|Eu]; cbn [andb];
      try reflexivity. destruct Hne; contradiction.
  - intros r. unfold mileage_delete. cbn [mileage]. rewrite filter_In.
    destruct (Z.eqb_spec (m_id r) id) as [Ei|Ei];
      destruct (String.eqb_spec (m_user r) user) as [Eu|Eu]; cbn [andb negb];
      intuition congruence.
Qed.

End MileageAccounts.
